(** * The pip package manager of Ramble: runner and provisioning phases

    A shallow embedding of
    [var/ramble/repos/builtin/package_managers/pip/package_manager.py]
    (classes [PipRunner] and [Pip]) and the properties of its
    change-detection, dry-run and phase-cache logic.

    The Python methods mutate the runner object, the filesystem and
    launch processes, and they raise exceptions.  They are embedded as
    computations in a state-and-exception monad: a method maps the
    state before the call to an outcome (a value or the exception
    raised) and the state at the return or at the raise. *)

From stdpp Require Import gmap strings list sorting fin_maps.
From Stdlib Require Import ZArith Ascii.

Local Open Scope string_scope.
Local Open Scope list_scope.
Local Open Scope Z_scope.

(** ** Exceptions and the monad *)

(** The exception classes that the modelled code can raise.
    [RunnerError] and [ApplicationError] derive from [RambleError];
    the others are not part of Ramble's hierarchy: [AttributeError]
    and [TypeError] are Python's builtins, [ProcessError] is raised by
    an [Executable] whose process exits with a failure, [OSError] (with
    its subclasses [FileNotFoundError], [NotADirectoryError],
    [IsADirectoryError], [FileExistsError]) by [open] and the filesystem
    helpers, [UnicodeDecodeError] by a text-mode read of bytes that are
    no text. *)
Inductive exn : Type :=
| RunnerError (msg : string)
| ApplicationError (msg : string)
| AttributeError (msg : string)
| TypeError
| ProcessError
| OSError
| UnicodeDecodeError.

(** [is_ramble_error e]: [e] belongs to the program's own hierarchy. *)
Definition is_ramble_error (e : exn) : bool :=
  match e with
  | RunnerError _ | ApplicationError _ => true
  | _ => false
  end.

Inductive outcome (A : Type) : Type :=
| Ok (a : A)
| Raise (e : exn).
Arguments Ok {A} a.
Arguments Raise {A} e.

Definition M (S A : Type) : Type := S -> outcome A * S.

Definition ret {S A} (a : A) : M S A := fun s => (Ok a, s).

Definition raise {S A} (e : exn) : M S A := fun s => (Raise e, s).

Definition bind {S A B} (m : M S A) (k : A -> M S B) : M S B :=
  fun s =>
    match m s with
    | (Ok a, s') => k a s'
    | (Raise e, s') => (Raise e, s')
    end.

Definition get {S} : M S S := fun s => (Ok s, s).

Definition modify {S} (f : S -> S) : M S unit := fun s => (Ok tt, f s).

Notation "'let*' x ':=' m 'in' k" := (bind m (fun x => k))
  (at level 10, x pattern, m at level 100, k at level 200).
Notation "m '>>' k" := (bind m (fun _ => k))
  (at level 60, right associativity).

(** [when b m]: Python's [if b: m]. *)
Definition when {S} (b : bool) (m : M S unit) : M S unit :=
  if b then m else ret tt.

(** ** Paths: [os.path.join] on POSIX *)

Definition starts_with_slash (s : string) : bool :=
  match s with
  | String c _ => bool_decide (c = "/"%char)
  | EmptyString => false
  end.

Fixpoint ends_with_slash (s : string) : bool :=
  match s with
  | EmptyString => false
  | String c EmptyString => bool_decide (c = "/"%char)
  | String _ rest => ends_with_slash rest
  end.

(** [posixpath.join(a, b)]: an absolute [b] replaces [a]; otherwise the
    two are concatenated, with a separator unless [a] is empty or
    already ends with one. *)
Definition path_join2 (a b : string) : string :=
  if starts_with_slash b then b
  else if bool_decide (a = "") || ends_with_slash a then a +:+ b
  else a +:+ "/" +:+ b.

Definition path_join (a : string) (rest : list string) : string :=
  fold_left path_join2 rest a.

(** The directories above a path, outermost first: the prefixes of the
    path that end before a separator, the root and the current
    directory left out.  For [/env/a/requirements.txt] they are [/env]
    and [/env/a]; the last one is the directory that holds the entry,
    [os.path.dirname] of the path, and a path with none lies in the root
    or in the current directory.  [ancestors_from pre s] scans [s],
    [pre] being what has been read. *)
Fixpoint ancestors_from (pre s : string) : list string :=
  match s with
  | EmptyString => []
  | String c rest =>
      (if bool_decide (c = "/"%char) && negb (bool_decide (pre = "")) &&
          negb (ends_with_slash pre)
       then [pre] else [])
      ++ ancestors_from (pre +:+ String c EmptyString) rest
  end.

Definition ancestors (p : string) : list string := ancestors_from "" p.

(** ** The filesystem and the external world *)

(** A filesystem entry: a regular file with its content, or a
    directory; both carry a modification time. *)
Inductive node : Type :=
| File (content : string) (mtime : Z)
| Dir (mtime : Z).

(** The filesystem is a finite map from path strings to entries.  Paths
    are keys as they are written: the model does not normalise them (two
    spellings of one path are two keys), and it has no symbolic links.
    The directories above an entry are the keys [ancestors] gives; the
    root and the current directory are always there. *)
Abbreviation filesystem := (gmap string node).

(** What crosses the boundary of the process, in order. *)
Inductive event : Type :=
| EvMkdir (path : string)
| EvWrite (path : string) (content : string)
| EvExec (exe : string) (args : list string)
| EvDryRun (exe : string) (args : list string).

Definition is_exec (e : event) : bool :=
  match e with EvExec _ _ => true | _ => false end.


Record world : Type := World {
  fs : filesystem;
  now : Z;
  trace : list event
}.

Definition os_path_exists (p : string) (w : world) : bool :=
  bool_decide (is_Some (fs w !! p)).

Definition os_path_isdir (p : string) (w : world) : bool :=
  match fs w !! p with
  | Some (Dir _) => true
  | _ => false
  end.

Definition node_mtime (n : node) : Z :=
  match n with File _ t => t | Dir t => t end.

Definition emit (e : event) (w : world) : world :=
  World (fs w) (now w) (trace w ++ [e]).

Definition set_fs (f : filesystem) (w : world) : world :=
  World f (now w) (trace w).

(** [os.path.getmtime(p)]. *)
Definition os_path_getmtime (p : string) (w : world) : outcome Z :=
  match fs w !! p with
  | Some n => Ok (node_mtime n)
  | None => Raise OSError
  end.

(** [open(p, "rb").read()]: the bytes of a regular file. *)
Definition read_file (p : string) (w : world) : outcome string :=
  match fs w !! p with
  | Some (File c _) => Ok c
  | _ => Raise OSError
  end.

(** Text is UTF-8 here: a Python [str] is held as its UTF-8 bytes, and
    a file opened in text mode is decoded as UTF-8, strictly.
    [utf8_from need lo hi s]: [s] starts with [need] continuation bytes,
    the first of them between [lo] and [hi], and goes on as well-formed
    UTF-8 (no overlong form, no surrogate, nothing above U+10FFFF). *)
Fixpoint utf8_from (need lo hi : nat) (s : string) : bool :=
  match s with
  | EmptyString => (need =? 0)%nat
  | String c rest =>
      let b := nat_of_ascii c in
      match need with
      | O =>
          if (b <? 128)%nat then utf8_from 0 128 191 rest
          else if (194 <=? b)%nat && (b <=? 223)%nat
               then utf8_from 1 128 191 rest
          else if (b =? 224)%nat then utf8_from 2 160 191 rest
          else if (b =? 237)%nat then utf8_from 2 128 159 rest
          else if (225 <=? b)%nat && (b <=? 239)%nat
               then utf8_from 2 128 191 rest
          else if (b =? 240)%nat then utf8_from 3 144 191 rest
          else if (241 <=? b)%nat && (b <=? 243)%nat
               then utf8_from 3 128 191 rest
          else if (b =? 244)%nat then utf8_from 3 128 143 rest
          else false
      | S k => (lo <=? b)%nat && (b <=? hi)%nat && utf8_from k 128 191 rest
      end
  end.

Definition utf8_valid (s : string) : bool := utf8_from 0 128 191 s.

(** The universal newlines of text mode: on reading, [\r\n] and a
    lone [\r] come back as [\n]. *)
Fixpoint universal_newlines (s : string) : string :=
  match s with
  | EmptyString => EmptyString
  | String c rest =>
      if bool_decide (c = "013"%char)
      then String "010"%char
             match rest with
             | String c' rest' =>
                 if bool_decide (c' = "010"%char)
                 then universal_newlines rest'
                 else universal_newlines rest
             | EmptyString => EmptyString
             end
      else String c (universal_newlines rest)
  end.

(** [open(p, "r").read()]: the content of a regular file as text.
    Bytes that are no UTF-8 raise [UnicodeDecodeError]. *)
Definition read_text (p : string) (w : world) : outcome string :=
  match fs w !! p with
  | Some (File c _) =>
      if utf8_valid c then Ok (universal_newlines c)
      else Raise UnicodeDecodeError
  | _ => Raise OSError
  end.

(** The directory that holds the entry [p] is there.  *)
Definition parent_is_dir (p : string) (f : filesystem) : bool :=
  match last (ancestors p) with
  | Some d =>
      match f !! d with
      | Some (Dir _) => true
      | _ => false
      end
  | None => true
  end.

(** [open(p, "w")] succeeds: [p] names a file (it is not empty and does
    not end with a separator), it is no directory, and the directory
    that holds it exists. *)
Definition can_open_for_writing (p : string) (w : world) : bool :=
  negb (bool_decide (p = "")) && negb (ends_with_slash p) &&
  negb (os_path_isdir p w) && parent_is_dir p (fs w).

(** [open(p, "w")] followed by [write(c)]: creates or truncates the
    regular file [p].  On POSIX the text written is stored as it is. *)
Definition write_file (p c : string) (w : world) : outcome unit * world :=
  if can_open_for_writing p w
  then (Ok tt, emit (EvWrite p c) (set_fs (<[p := File c (now w)]> (fs w)) w))
  else (Raise OSError, w).

Definition is_file_at (f : filesystem) (p : string) : bool :=
  match f !! p with
  | Some (File _ _) => true
  | _ => false
  end.

(** [os.makedirs(p)] cannot make [p]: the path is empty, or one of the
    directories above it is a regular file. *)
Definition mkdir_blocked (p : string) (f : filesystem) : bool :=
  bool_decide (p = "") || existsb (is_file_at f) (ancestors p).

(** [os.mkdir(d)] at time [t] where [d] is missing. *)
Definition make_dir (t : Z) (f : filesystem) (d : string) : filesystem :=
  match f !! d with
  | Some _ => f
  | None => <[d := Dir t]> f
  end.

(** The directory tree of [os.makedirs(p)]: the missing directories
    above [p], outermost first, then [p]. *)
Definition make_dirs (p : string) (t : Z) (f : filesystem) : filesystem :=
  fold_left (make_dir t) (ancestors p ++ [p]) f.

(** [llnl.util.filesystem.mkdirp(p)]: the directory [p] exists
    afterwards, made with its missing parents by [os.makedirs];
    nothing happens when it already does.  A regular file at [p] or
    above it, or an empty path, is an [OSError], and nothing is made. *)
Definition mkdirp (p : string) (w : world) : outcome unit * world :=
  match fs w !! p with
  | Some (Dir _) => (Ok tt, w)
  | Some (File _ _) => (Raise OSError, w)
  | None =>
      if mkdir_blocked p (fs w) then (Raise OSError, w)
      else (Ok tt, emit (EvMkdir p) (set_fs (make_dirs p (now w) (fs w)) w))
  end.

(** The collaborators outside the program: executable lookup on the
    search path and the effect of a finished process.  [run_process exe
    args f] is [None] when the process fails, and otherwise its standard
    output and the filesystem it leaves behind; [failed_process exe args
    f] is the filesystem that the process leaves behind when it
    fails. *)
Class ExternalTools : Type := {
  which : string -> option string;
  run_process :
    string -> list string -> filesystem -> option (string * filesystem);
  failed_process : string -> list string -> filesystem -> filesystem
}.

(** Modelled from the spec: [ramble.util.hashing] ([hash_string],
    [hash_file]) is not among the sources.  The spec calls their result
    a digest of the content, deterministic and non-empty; [hash_file]
    digests the bytes of the file it opens. *)
Class Hashing : Type := {
  digest : string -> string;
  digest_nonempty : forall s, digest s <> ""
}.

(** ** The runner object *)

(** An [Executable]: the program and the arguments prepended to every
    call ([add_default_arg]). *)
Record Executable : Type := {
  exe_path : string;
  default_args : list string
}.

Definition add_default_arg (a : string) (e : Executable) : Executable :=
  {| exe_path := exe_path e; default_args := default_args e ++ [a] |}.

(** The attributes of a [PipRunner] instance.  [env_path] is [None]
    until a path is configured; [specs] is the Python [set] of
    requirement strings. *)
Record PipRunner : Type := {
  bs_python : Executable;
  env_path : option string;
  configs : list string;
  dry_run : bool;
  specs : gset string;
  installed : bool
}.

Definition with_env_path (p : option string) (r : PipRunner) : PipRunner :=
  {| bs_python := bs_python r; env_path := p; configs := configs r;
     dry_run := dry_run r; specs := specs r; installed := installed r |}.

Definition with_dry_run (d : bool) (r : PipRunner) : PipRunner :=
  {| bs_python := bs_python r; env_path := env_path r; configs := configs r;
     dry_run := d; specs := specs r; installed := installed r |}.

Definition with_specs (s : gset string) (r : PipRunner) : PipRunner :=
  {| bs_python := bs_python r; env_path := env_path r; configs := configs r;
     dry_run := dry_run r; specs := s; installed := installed r |}.

Definition with_installed (i : bool) (r : PipRunner) : PipRunner :=
  {| bs_python := bs_python r; env_path := env_path r; configs := configs r;
     dry_run := dry_run r; specs := specs r; installed := i |}.

(** The state a runner method works on: the object and the world. *)
Abbreviation rstate := (PipRunner * world)%type.

Definition get_runner : M rstate PipRunner := fun s => (Ok (fst s), s).

Definition get_world : M rstate world := fun s => (Ok (snd s), s).

Definition update_runner (f : PipRunner -> PipRunner) : M rstate unit :=
  fun s => (Ok tt, (f (fst s), snd s)).

(** Run a filesystem operation on the world component. *)
Definition in_world {A} (op : world -> outcome A * world) : M rstate A :=
  fun s => let (o, w') := op (snd s) in (o, (fst s, w')).

(** Read something off the world; a failing read raises. *)
Definition observe {A} (q : world -> outcome A) : M rstate A :=
  fun s => (q (snd s), s).

Definition _venv_name : string := ".venv".
Definition _requirement_file_name : string := "requirements.txt".
Definition _lock_file_name : string := "requirements.lock".

(** [os.linesep] on POSIX: the line feed. *)
Definition linesep : string := String "010"%char EmptyString.

(** Python's truth value of [self.env_path]: [None] and the empty
    string are false. *)
Definition path_is_set (p : option string) : bool :=
  match p with
  | Some s => negb (bool_decide (s = ""))
  | None => false
  end.

(** [os.path.join(self.env_path, ...)]: joining [None] is a
    [TypeError]. *)
Definition env_join (rest : list string) : M rstate string :=
  let* r := get_runner in
  match env_path r with
  | Some p => ret (path_join p rest)
  | None => raise TypeError
  end.

Section Runner.
Context `{ExternalTools}.

(** Calling an [Executable]: the process runs on the current
    filesystem; a failing process raises [ProcessError], and what it
    did to the filesystem before it failed stays. *)
Definition call (e : Executable) (args : list string) : M rstate string :=
  in_world (fun w =>
    let argv := default_args e ++ args in
    let w1 := emit (EvExec (exe_path e) argv) w in
    match run_process (exe_path e) argv (fs w1) with
    | Some (out, f') => (Ok out, set_fs f' w1)
    | None =>
        (Raise ProcessError, set_fs (failed_process (exe_path e) argv (fs w1)) w1)
    end).

(** [PipRunner.__init__]: the first of [python3], [python] found on
    the search path bootstraps the environment. *)
Definition PipRunner_init (dry : bool) : outcome PipRunner :=
  let found :=
    match which "python3" with
    | Some e => Some e
    | None => which "python"
    end in
  match found with
  | Some e =>
      Ok {| bs_python := {| exe_path := e; default_args := [] |};
            env_path := None; configs := []; dry_run := dry;
            specs := ∅; installed := false |}
  | None => Raise (RunnerError "python is not found in path")
  end.

Definition configure_env (path : option string) : M rstate unit :=
  update_runner (with_env_path path).

Definition set_dry_run (d : bool) : M rstate unit :=
  update_runner (with_dry_run d).

Definition create_env (path : string) : M rstate unit :=
  let* w := get_world in
  (if os_path_exists path w && negb (os_path_isdir path w)
   then raise (RunnerError ("Unable to create environment " +:+ path))
   else ret tt) >>
  when (negb (os_path_exists path w)) (in_world (mkdirp path)) >>
  let* r := get_runner in
  when (negb (dry_run r))
    (let* w1 := get_world in
     when (negb (os_path_exists (path_join path [_venv_name]) w1))
       (let* _ := call (bs_python r)
                       ["-m"; "venv"; path_join path [_venv_name]] in
        ret tt)) >>
  update_runner (with_env_path (Some path)).

Definition _get_venv_python : M rstate Executable :=
  let* r := get_runner in
  if dry_run r then ret (bs_python r)
  else
    let* p := env_join [_venv_name; "bin"; "python"] in
    ret {| exe_path := p; default_args := [] |}.

Definition _get_activate_script_path : M rstate string :=
  env_join [_venv_name; "bin"; "activate"].

Definition _check_env_configured : M rstate unit :=
  let* r := get_runner in
  if negb (path_is_set (env_path r))
  then raise (RunnerError "env_path is not configured")
  else if dry_run r then ret tt
  else
    let* script_path := _get_activate_script_path in
    let* w := get_world in
    if negb (os_path_exists script_path w)
    then raise (RunnerError "virtual env is not configured")
    else ret tt.

(** [_dry_run_print]: the intended call is reported, not made. *)
Definition _dry_run_print (e : Executable) (args : list string)
  : M rstate unit :=
  in_world (fun w =>
    (Ok tt, emit (EvDryRun (exe_path e) (default_args e ++ args)) w)).

Definition install : M rstate unit :=
  _check_env_configured >>
  let* r := get_runner in
  if installed r then ret tt
  else
    let* req_file := env_join [_requirement_file_name] in
    let* w := get_world in
    if negb (os_path_exists req_file w)
    then raise (RunnerError (req_file +:+ " does not exist"))
    else
      let* python := _get_venv_python in
      let installer := add_default_arg "pip" (add_default_arg "-m" python) in
      let install_args := ["install"; "-r"; req_file] in
      let freeze_args := ["freeze"; "-r"; req_file] in
      (if dry_run r
       then _dry_run_print installer install_args >>
            _dry_run_print installer freeze_args
       else
         let* _ := call installer install_args in
         let* lock_file := env_join [_lock_file_name] in
         in_world (write_file lock_file "") >>
         let* out := call installer freeze_args in
         in_world (write_file lock_file out)) >>
      update_runner (with_installed true).

(** [sorted(self.specs)]: the elements in ascending string order. *)
Definition sorted (s : gset string) : list string :=
  merge_sort String.le (elements s).

Definition _generate_requirement_content (r : PipRunner) : string :=
  String.concat linesep (sorted (specs r)) +:+ linesep.

Definition generate_requirement_file : M rstate unit :=
  _check_env_configured >>
  let* r := get_runner in
  let contents := _generate_requirement_content r in
  let* req_file := env_join [_requirement_file_name] in
  let* lock_file := env_join [_lock_file_name] in
  let* w := get_world in
  let* up_to_date :=
    (if os_path_exists req_file w && os_path_exists lock_file w
     then
       let* existing_req_mtime := observe (os_path_getmtime req_file) in
       let* existing_lock_mtime := observe (os_path_getmtime lock_file) in
       if bool_decide (existing_lock_mtime >= existing_req_mtime)
       then
         let* existing := observe (read_text req_file) in
         ret (bool_decide (existing = contents))
       else ret false
     else ret false) in
  if up_to_date
  then update_runner (with_installed true)
  else in_world (write_file req_file contents).

Definition add_spec (spec : string) : M rstate unit :=
  _check_env_configured >>
  let* r := get_runner in
  update_runner (with_specs (specs r ∪ {[spec]})).
End Runner.

(** ** The version pattern *)

(** The pattern of [get_version] is [pip (?P<version>[\d.]+) from].
    The class is read on bytes, with [\d] an ASCII digit: this is the
    pattern on ASCII output.  The decimal digits that Unicode has
    outside ASCII, which [\d] matches as well, are not in the class
    here. *)
Definition is_version_char (c : ascii) : bool :=
  bool_decide (c = "."%char) ||
  ((48 <=? nat_of_ascii c)%nat && (nat_of_ascii c <=? 57)%nat).

(** The longest prefix of version characters and what follows it. *)
Fixpoint span_version (s : string) : string * string :=
  match s with
  | String c rest =>
      if is_version_char c
      then let (v, tl) := span_version rest in (String c v, tl)
      else (EmptyString, s)
  | EmptyString => (EmptyString, EmptyString)
  end.

Fixpoint strip_prefix (p s : string) : option string :=
  match p, s with
  | EmptyString, _ => Some s
  | String a p', String b s' =>
      if bool_decide (a = b) then strip_prefix p' s' else None
  | String _ _, EmptyString => None
  end.

(** A match of the pattern that starts at the first character.  The
    character class holds no space, so only the longest run of version
    characters can be followed by [" from"]. *)
Definition match_version_here (s : string) : option string :=
  match strip_prefix "pip " s with
  | Some rest =>
      let (v, tl) := span_version rest in
      if bool_decide (v = "") then None
      else match strip_prefix " from" tl with
           | Some _ => Some v
           | None => None
           end
  | None => None
  end.

(** [re.search(pattern, out)]: the group of the leftmost match, or
    [None]. *)
Fixpoint re_search_version (out : string) : option string :=
  match match_version_here out with
  | Some v => Some v
  | None =>
      match out with
      | String _ rest => re_search_version rest
      | EmptyString => None
      end
  end.

Section Queries.
Context `{ExternalTools} `{Hashing}.

(** [get_version]: [.group] is called on the result of [re.search]
    as it comes. *)
Definition get_version : M rstate string :=
  let* exe := _get_venv_python in
  let* out := call exe ["-m"; "pip"; "--version"] in
  match re_search_version out with
  | Some v => ret v
  | None =>
      raise (AttributeError "'NoneType' object has no attribute 'group'")
  end.

Definition hash_string (s : string) : string := digest s.

Definition hash_file (p : string) : M rstate string :=
  let* bytes := observe (read_file p) in
  ret (digest bytes).

Definition inventory_hash : M rstate string :=
  _check_env_configured >>
  let* r := get_runner in
  if dry_run r
  then ret (hash_string (_generate_requirement_content r))
  else
    let* lock_file := env_join [_lock_file_name] in
    hash_file lock_file.
End Queries.

(** ** The package manager: phases guarded by the workspace cache *)

(** Modelled from the spec: the workspace is not among the sources.
    Its cache answers [check_cache(key)] and records
    [add_to_cache(key)] for keys [(phaseLabel, environmentPath)]; it
    also carries the [dry_run] flag of the run. *)
Record Workspace : Type := {
  cache : gset (string * string);
  ws_dry_run : bool
}.

Definition check_cache (k : string * string) (ws : Workspace) : bool :=
  bool_decide (k ∈ cache ws).

Definition add_to_cache (k : string * string) (ws : Workspace) : Workspace :=
  {| cache := cache ws ∪ {[k]}; ws_dry_run := ws_dry_run ws |}.

(** What a phase reads from its application instance and from the
    software environments: the expanded [env_path], the answer of
    [environment_required()], and the rendered software environment
    with its package specs ([None] when nothing is rendered; rendering
    may raise). *)
Record AppInst : Type := {
  expander_env_path : option string;
  environment_required : bool;
  rendered_specs : outcome (option (list string))
}.

(** The state of a phase: the workspace, and the runner with the
    world. *)
Abbreviation pstate := (Workspace * rstate)%type.

Definition get_workspace : M pstate Workspace := fun s => (Ok (fst s), s).

Definition update_workspace (f : Workspace -> Workspace) : M pstate unit :=
  fun s => (Ok tt, (f (fst s), snd s)).

(** A runner method called from a phase. *)
Definition on_runner {A} (m : M rstate A) : M pstate A :=
  fun s => let (o, rs) := m (snd s) in (o, (fst s, rs)).

Definition of_outcome {S A} (o : outcome A) : M S A := fun s => (o, s).

Fixpoint for_each {S A} (l : list A) (body : A -> M S unit) : M S unit :=
  match l with
  | [] => ret tt
  | x :: rest => body x >> for_each rest body
  end.

Section Pip.
Context `{ExternalTools}.

(** The part of [_software_create_env] after the cache test. *)
Definition create_env_body (app : AppInst) (env_path : string)
  : M pstate unit :=
  let* ws := get_workspace in
  on_runner (set_dry_run (ws_dry_run ws)) >>
  on_runner (create_env env_path) >>
  let* software_env := of_outcome (rendered_specs app) in
  match software_env with
  | Some pkg_specs =>
      for_each pkg_specs (fun pkg_spec => on_runner (add_spec pkg_spec)) >>
      on_runner generate_requirement_file
  | None => ret tt
  end.

Definition _software_create_env (app : AppInst) : M pstate unit :=
  if negb (path_is_set (expander_env_path app))
  then raise (ApplicationError "Ramble env_path is set to None")
  else
    let env_path := default "" (expander_env_path app) in
    let cache_tupl := ("pip-env", env_path) in
    let* ws := get_workspace in
    if check_cache cache_tupl ws then ret tt
    else
      update_workspace (add_to_cache cache_tupl) >>
      create_env_body app env_path.

(** The part of [_software_install] after the cache test. *)
Definition install_body (app : AppInst) (env_path : string)
  : M pstate unit :=
  when (environment_required app)
    (let* ws := get_workspace in
     on_runner (set_dry_run (ws_dry_run ws)) >>
     on_runner (configure_env (Some env_path)) >>
     on_runner install).

Definition _software_install (app : AppInst) : M pstate unit :=
  if negb (path_is_set (expander_env_path app))
  then raise (ApplicationError "Ramble env_path is set to None")
  else
    let env_path := default "" (expander_env_path app) in
    let cache_tupl := ("pip-install", env_path) in
    let* ws := get_workspace in
    if check_cache cache_tupl ws then ret tt
    else
      update_workspace (add_to_cache cache_tupl) >>
      install_body app env_path.
End Pip.

(** ** Paths and conditions that the statements refer to *)

Definition env_file (r : PipRunner) (rest : list string) : string :=
  path_join (default "" (env_path r)) rest.

Definition req_path (r : PipRunner) : string :=
  env_file r [_requirement_file_name].

Definition lock_path (r : PipRunner) : string :=
  env_file r [_lock_file_name].

Definition activate_path (r : PipRunner) : string :=
  env_file r [_venv_name; "bin"; "activate"].

Definition venv_python (r : PipRunner) : string :=
  env_file r [_venv_name; "bin"; "python"].

(** The runner passes [_check_env_configured] in world [w]. *)
Definition configured (r : PipRunner) (w : world) : bool :=
  path_is_set (env_path r) &&
  (dry_run r || os_path_exists (activate_path r) w).

(** The message of the [RunnerError] of a runner that does not. *)
Definition check_message (r : PipRunner) : string :=
  if path_is_set (env_path r) then "virtual env is not configured"
  else "env_path is not configured".

(** The up-to-date condition in the words of the spec: requirement
    file and lock file both exist, the lock file is not older, and the
    requirement file holds exactly the computed content. *)
Definition up_to_date (r : PipRunner) (w : world) : Prop :=
  exists (c : string) (t : Z) (n : node),
    fs w !! req_path r = Some (File c t) /\
    fs w !! lock_path r = Some n /\
    node_mtime n >= t /\
    c = _generate_requirement_content r.

(** The same condition as the code tests it: the requirement file is
    read in text mode, so its bytes have to be text, and they are
    compared after the translation of the line ends. *)
Definition up_to_date_as_read (r : PipRunner) (w : world) : Prop :=
  exists (c : string) (t : Z) (n : node),
    fs w !! req_path r = Some (File c t) /\
    fs w !! lock_path r = Some n /\
    node_mtime n >= t /\
    utf8_valid c = true /\
    universal_newlines c = _generate_requirement_content r.

(** What the up-to-date test of [generate_requirement_file] comes to:
    the file is up to date, it is stale (or one of the two files is
    missing, or the lock file is older), or the read raises, on a
    directory or on bytes that are no text. *)
Inductive req_verdict : Type :=
| UpToDate
| Stale
| ReadRaises (e : exn).

Definition req_check (r : PipRunner) (w : world) : req_verdict :=
  match fs w !! req_path r, fs w !! lock_path r with
  | Some (File c t), Some n =>
      if bool_decide (node_mtime n >= t)
      then if utf8_valid c
           then if bool_decide
                     (universal_newlines c = _generate_requirement_content r)
                then UpToDate else Stale
           else ReadRaises UnicodeDecodeError
      else Stale
  | Some (Dir t), Some n =>
      if bool_decide (node_mtime n >= t) then ReadRaises OSError else Stale
  | _, _ => Stale
  end.

(** The read of the up-to-date test raises: both files exist, the lock
    file is not older, and the requirement path is a directory or holds
    bytes that are no text. *)
Definition read_fails (r : PipRunner) (w : world) : Prop :=
  exists (x n : node),
    fs w !! req_path r = Some x /\
    fs w !! lock_path r = Some n /\
    node_mtime n >= node_mtime x /\
    match x with
    | File c _ => utf8_valid c = false
    | Dir _ => True
    end.

(** Text that a text-mode read gives back as it was written: it is
    well-formed and holds no carriage return. *)
Definition reads_back (c : string) : bool :=
  utf8_valid c && bool_decide (universal_newlines c = c).

(** The environment directory is there or can be made: the path is a
    directory below directories, or it is absent, not empty and not
    below a regular file. *)
Definition env_dir_available (p : string) (w : world) : bool :=
  match fs w !! p with
  | Some (Dir _) => forallb (fun d => os_path_isdir d w) (ancestors p)
  | Some (File _ _) => false
  | None => negb (mkdir_blocked p (fs w))
  end.

(** The carriage return. *)
Definition carriage_return : string := String "013"%char EmptyString.

(** The events that a call added to the trace. *)
Definition new_events (w w' : world) : list event :=
  drop (length (trace w)) (trace w').

(** An event that launches [pip install]. *)
Definition is_pip_install (e : event) : bool :=
  match e with
  | EvExec _ ["-m"; "pip"; "install"; "-r"; _] => true
  | _ => false
  end.

(** An event that launches the bootstrap of the venv: a call whose
    arguments end with [-m venv <target>]. *)
Definition is_venv_bootstrap (e : event) : bool :=
  match e with
  | EvExec _ args =>
      match rev args with
      | _ :: "venv" :: "-m" :: _ => true
      | _ => false
      end
  | _ => false
  end.

(** The world after [c] has been written to the file [p]. *)
Definition written (p c : string) (w : world) : world :=
  World (<[p := File c (now w)]> (fs w)) (now w) (trace w ++ [EvWrite p c]).

(** The arguments of a [pip] subcommand on the requirement file. *)
Definition pip_argv (r : PipRunner) (cmd : string) : list string :=
  ["-m"; "pip"; cmd; "-r"; req_path r].

(** ** Stand-ins for the collaborators, to run the model *)

(** A tool set in which the venv bootstrap creates the directory and
    its activate script, the install succeeds, the freeze prints the
    requirement file, and the version query prints [version_out]. *)
Definition demo_run (version_out : string) (exe : string)
    (args : list string) (f : filesystem) : option (string * filesystem) :=
  match args with
  | ["-m"; "venv"; target] =>
      Some ("", <[path_join target ["bin"; "activate"] := File "" 0]>
                  (<[target := Dir 0]> f))
  | ["-m"; "pip"; "install"; "-r"; req] => Some ("", f)
  | ["-m"; "pip"; "freeze"; "-r"; req] =>
      match f !! req with
      | Some (File c _) => Some (c, f)
      | _ => None
      end
  | ["-m"; "pip"; "--version"] => Some (version_out, f)
  | _ => None
  end.

Definition demo_tools (version_out : string) : ExternalTools :=
  {| which := fun c =>
       if bool_decide (c = "python3") then Some "/usr/bin/python3" else None;
     run_process := demo_run version_out;
     failed_process := fun exe args f => f |}.

Definition demo_version_line : string :=
  "pip 24.0 from /usr/lib/python3/site-packages/pip (python 3.12)".

Definition demo_hashing : Hashing :=
  {| digest := fun s => "sha256:" +:+ s;
     digest_nonempty := ltac:(intros s; discriminate) |}.

Definition demo_runner (dry : bool) (path : option string)
    (s : gset string) (inst : bool) : PipRunner :=
  {| bs_python := {| exe_path := "/usr/bin/python3"; default_args := [] |};
     env_path := path; configs := []; dry_run := dry;
     specs := s; installed := inst |}.

Definition demo_world (f : filesystem) : world := World f 5 [].

Definition demo_env : option string := Some "/env/a".

(** An environment directory with its venv, a requirement file holding
    [req] and stamped [t_req], and a lock file stamped [t_lock]. *)
Definition demo_fs (req : string) (t_req t_lock : Z) : filesystem :=
  <["/env/a/requirements.lock" := File "" t_lock]>
    (<["/env/a/requirements.txt" := File req t_req]>
       (<["/env/a/.venv/bin/activate" := File "" 0]>
          (<["/env/a/.venv" := Dir 0]> (<["/env/a" := Dir 0]> ∅)))).

(** The configuration check fails: no path is configured or, outside
    dry-run mode, the activate script of the venv does not exist. *)
Definition check_fails (r : PipRunner) (w : world) : Prop :=
  path_is_set (env_path r) = false \/
  (dry_run r = false /\ os_path_exists (activate_path r) w = false).

(** How many of the events launch [pip install]. *)
Definition count_pip_installs (l : list event) : nat :=
  length (List.filter is_pip_install l).

(** An environment as [create_env] leaves it, with a requirement file
    holding [req]: no lock file yet. *)
Definition demo_fs_fresh (req : string) : filesystem :=
  <["/env/a/requirements.txt" := File req 1]>
    (<["/env/a/.venv/bin/activate" := File "" 0]>
       (<["/env/a/.venv" := Dir 0]> (<["/env/a" := Dir 0]> ∅))).

(** A run on one runner object: install, then a further spec, then the
    requirement file is generated again. *)
Definition install_then_change_specs `{ExternalTools} : M rstate unit :=
  install >> add_spec "numpy==1.2" >> generate_requirement_file.

(** The directory of the venv under an environment path, and the
    arguments of the call that bootstraps it. *)
Definition venv_dir (path : string) : string := path_join path [_venv_name].

Definition venv_argv (path : string) : list string :=
  ["-m"; "venv"; venv_dir path].

(** The world after [create_env] has made sure that [path] is there. *)
Definition after_mkdir (path : string) (w : world) : world :=
  match fs w !! path with
  | None =>
      World (make_dirs path (now w) (fs w)) (now w) (trace w ++ [EvMkdir path])
  | Some _ => w
  end.

(** The rest of [create_env] once the directory exists. *)
Definition bootstrap `{ExternalTools} (path : string) (r : PipRunner)
    (w : world) : outcome unit * rstate :=
  if dry_run r || os_path_exists (venv_dir path) w
  then (Ok tt, (with_env_path (Some path) r, w))
  else
    let argv := default_args (bs_python r) ++ venv_argv path in
    let w1 := emit (EvExec (exe_path (bs_python r)) argv) w in
    match run_process (exe_path (bs_python r)) argv (fs w1) with
    | Some (_, f') => (Ok tt, (with_env_path (Some path) r, set_fs f' w1))
    | None =>
        (Raise ProcessError,
         (r, set_fs (failed_process (exe_path (bs_python r)) argv (fs w1)) w1))
    end.

(** What is assumed of the interpreter when the venv module succeeds:
    the target exists afterwards, and no path outside the target has
    changed. *)
Definition venv_tool_sound `{ExternalTools} (r : PipRunner) : Prop :=
  forall target f out f',
    run_process (exe_path (bs_python r))
      (default_args (bs_python r) ++ ["-m"; "venv"; target]) f
      = Some (out, f') ->
    is_Some (f' !! target) /\
    forall q, String.prefix target q = false -> f' !! q = f !! q.

(** How many of the events launch the bootstrap of a venv. *)
Definition count_venv_bootstraps (l : list event) : nat :=
  length (List.filter is_venv_bootstrap l).

(** From [w] to [w'] events were only added, none of them a process
    launch. *)
Definition no_exec (w w' : world) : Prop :=
  exists l, trace w' = trace w ++ l /\ Forall (fun e => is_exec e = false) l.




(** The two phases that the package manager registers. *)
Inductive phase : Type :=
| SoftwareCreateEnv
| SoftwareInstall.

Definition phase_label (ph : phase) : string :=
  match ph with
  | SoftwareCreateEnv => "pip-env"
  | SoftwareInstall => "pip-install"
  end.

Section Phases.
Context `{ExternalTools}.

Definition run_phase (ph : phase) (app : AppInst) : M pstate unit :=
  match ph with
  | SoftwareCreateEnv => _software_create_env app
  | SoftwareInstall => _software_install app
  end.

Definition phase_body (ph : phase) (app : AppInst) (env_path : string)
  : M pstate unit :=
  match ph with
  | SoftwareCreateEnv => create_env_body app env_path
  | SoftwareInstall => install_body app env_path
  end.
End Phases.

(** The cache key of a call: the label of the phase and the environment
    path, when there is one. *)
Definition phase_key (ph : phase) (app : AppInst) : option (string * string) :=
  if path_is_set (expander_env_path app)
  then Some (phase_label ph, default "" (expander_env_path app))
  else None.

(** The key whose phase body a call executes: the key of the call when
    the cache does not hold it. *)
Definition body_runs (ph : phase) (app : AppInst) (st : pstate)
  : option (string * string) :=
  match phase_key ph app with
  | Some k => if check_cache k (fst st) then None else Some k
  | None => None
  end.

(** One orchestration run: the calls are made in order on one workspace
    and one runner, a failed call not stopping the next.  The result is
    the keys whose body was executed, in order, and the final state. *)
Fixpoint orchestrate `{ExternalTools} (calls : list (phase * AppInst))
    (st : pstate) : list (string * string) * pstate :=
  match calls with
  | [] => ([], st)
  | (ph, app) :: rest =>
      let st' := snd (run_phase ph app st) in
      let (ks, st'') := orchestrate rest st' in
      (match body_runs ph app st with
       | Some k => k :: ks
       | None => ks
       end, st'')
  end.

(** A computation that leaves the workspace as it found it. *)
Definition keeps_workspace {A} (m : M pstate A) : Prop :=
  forall st, fst (snd (m st)) = fst st.

(** An application instance with an environment path and one spec,
    and a workspace of a real run with the given keys in its cache. *)
Definition demo_app : AppInst :=
  {| expander_env_path := Some "/env/a";
     environment_required := true;
     rendered_specs := Ok (Some ["requests"]) |}.

Definition demo_workspace (keys : gset (string * string)) : Workspace :=
  {| cache := keys; ws_dry_run := false |}.

(** The message of the [AttributeError] that [None.group] raises. *)
Definition none_group_message : string :=
  "'NoneType' object has no attribute 'group'".

(** An output of the version query that does not hold the pattern. *)
Definition demo_bad_version_line : string := "pip: no version here".

(** [install] in real mode on a runner not yet marked, step by step:
    the install process, the lock file opened for writing, the freeze
    process with the open file as its output, the output in the lock
    file. *)
Definition install_real `{ExternalTools} (r : PipRunner) (w : world)
    : outcome unit * rstate :=
  if configured r w then
    if os_path_exists (req_path r) w then
      let w0 := emit (EvExec (venv_python r) (pip_argv r "install")) w in
      match run_process (venv_python r) (pip_argv r "install") (fs w) with
      | None =>
          (Raise ProcessError,
           (r, set_fs (failed_process (venv_python r) (pip_argv r "install")
                         (fs w)) w0))
      | Some (_, f1) =>
          let w1 := set_fs f1 w0 in
          if can_open_for_writing (lock_path r) w1 then
            let w2 := written (lock_path r) "" w1 in
            let w3 :=
              emit (EvExec (venv_python r) (pip_argv r "freeze")) w2 in
            match run_process (venv_python r) (pip_argv r "freeze") (fs w2)
            with
            | None =>
                (Raise ProcessError,
                 (r, set_fs (failed_process (venv_python r)
                               (pip_argv r "freeze") (fs w2)) w3))
            | Some (out, f2) =>
                let w4 := set_fs f2 w3 in
                if can_open_for_writing (lock_path r) w4
                then (Ok tt, (with_installed true r,
                              written (lock_path r) out w4))
                else (Raise OSError, (r, w4))
            end
          else (Raise OSError, (r, w1))
      end
    else (Raise (RunnerError (req_path r +:+ " does not exist")), (r, w))
  else (Raise (RunnerError (check_message r)), (r, w)).

(** The world in which a real-mode [install] has come to its freeze
    process: the install process has left [f1], and the lock file has
    been opened for writing. *)
Definition before_freeze (r : PipRunner) (f1 : filesystem) (w : world)
  : world :=
  written (lock_path r) ""
    (set_fs f1 (emit (EvExec (venv_python r) (pip_argv r "install")) w)).

(** The world after a freeze process that printed [out] and left
    [f2]. *)
Definition after_freeze (r : PipRunner) (f1 f2 : filesystem) (out : string)
    (w : world) : world :=
  written (lock_path r) out
    (set_fs f2
       (emit (EvExec (venv_python r) (pip_argv r "freeze"))
          (before_freeze r f1 w))).

(** The [pip] subcommands that the environment's interpreter runs on
    the requirement file leave that file as it is. *)
Definition pip_keeps_requirement_file `{ExternalTools} (r : PipRunner)
  : Prop :=
  forall cmd f out f',
    run_process (venv_python r) (pip_argv r cmd) f = Some (out, f') ->
    f' !! req_path r = f !! req_path r.

(** A dry-run install, the switch to real mode, and an install again,
    on one runner object. *)
Definition dry_then_real_install `{ExternalTools} : M rstate unit :=
  install >> set_dry_run false >> install.

(** Tools whose install succeeds and whose freeze fails. *)
Definition demo_tools_freeze_fails : ExternalTools :=
  {| which := fun c =>
       if bool_decide (c = "python3") then Some "/usr/bin/python3" else None;
     run_process := fun exe args f =>
       match args with
       | ["-m"; "pip"; "install"; "-r"; _] => Some ("", f)
       | _ => None
       end;
     failed_process := fun exe args f => f |}.

(** The last character of a string. *)
Fixpoint last_char (s : string) : option ascii :=
  match s with
  | EmptyString => None
  | String c EmptyString => Some c
  | String _ rest => last_char rest
  end.

(** [generate_activate_command], [generate_deactivate_command]: the
    shell commands that enter and leave the virtual env. *)
Definition generate_activate_command : M rstate (list string) :=
  let* script_path := _get_activate_script_path in
  ret ["source " +:+ script_path].

Definition generate_deactivate_command : M rstate (list string) :=
  ret ["deactivate"].

(** The builtins [pip_activate] and [pip_deactivate] of the package
    manager, on its runner. *)
Definition pip_activate (app : AppInst) : M rstate (list string) :=
  configure_env (expander_env_path app) >>
  generate_activate_command.

Definition pip_deactivate : M rstate (list string) :=
  generate_deactivate_command.

(** [Pip.__init__]: the package manager builds its runner with the
    default mode. *)
Definition Pip_init `{ExternalTools} : outcome PipRunner :=
  PipRunner_init false.

(** The activate script under an environment path. *)
Definition activate_script (path : string) : string :=
  path_join path [_venv_name; "bin"; "activate"].

(** The arguments of the version query. *)
Definition version_argv : list string := ["-m"; "pip"; "--version"].

(** Tools whose venv module fails and touches nothing. *)
Definition demo_tools_venv_fails : ExternalTools :=
  {| which := fun c =>
       if bool_decide (c = "python") then Some "/usr/bin/python" else None;
     run_process := fun exe args f => None;
     failed_process := fun exe args f => f |}.

(** Tools whose venv module fails after it has made its target
    directory. *)
Definition demo_tools_venv_breaks : ExternalTools :=
  {| which := fun c =>
       if bool_decide (c = "python") then Some "/usr/bin/python" else None;
     run_process := fun exe args f => None;
     failed_process := fun exe args f =>
       match args with
       | ["-m"; "venv"; target] => <[target := Dir 0]> f
       | _ => f
       end |}.

(** ** The hash inventory *)

(** [s.replace(old, "")] of Python: the occurrences of [old] are taken
    out, found from left to right without overlap; an empty [old]
    leaves the string as it is.  [str_remove_from old skip s] scans [s]
    with [skip] characters of a found occurrence still to drop. *)
Fixpoint str_remove_from (old : string) (skip : nat) (s : string) : string :=
  match s with
  | EmptyString => EmptyString
  | String c rest =>
      match skip with
      | S k => str_remove_from old k rest
      | O =>
          if String.prefix old s
          then str_remove_from old (String.length old - 1) rest
          else String c (str_remove_from old 0 rest)
      end
  end.

Definition str_remove (old s : string) : string :=
  if bool_decide (old = "") then s else str_remove_from old 0 s.

(** The records that [populate_inventory] appends: the dicts with the
    keys [name], [version], [digest] and [name], [digest]. *)
Record PackageManagerRecord : Type := {
  pm_name : string;
  pm_version : string;
  pm_digest : string
}.

Record SoftwareRecord : Type := {
  sw_name : string;
  sw_digest : string
}.

(** [app_inst.hash_inventory], as [populate_inventory] uses it: the
    lists under its keys [package_manager] and [software]. *)
Record HashInventory : Type := {
  package_manager : list PackageManagerRecord;
  software : list SoftwareRecord
}.

(** The state of [populate_inventory]: the inventory of the
    application instance, and the runner with the world. *)
Abbreviation istate := (HashInventory * rstate)%type.

Definition append_package_manager (x : PackageManagerRecord)
  : M istate unit :=
  fun s => (Ok tt, ({| package_manager := package_manager (fst s) ++ [x];
                       software := software (fst s) |}, snd s)).

Definition append_software (x : SoftwareRecord) : M istate unit :=
  fun s => (Ok tt, ({| package_manager := package_manager (fst s);
                       software := software (fst s) ++ [x] |}, snd s)).

(** A runner method called from [populate_inventory]. *)
Definition runner_call {A} (m : M rstate A) : M istate A :=
  fun s => let (o, rs) := m (snd s) in (o, (fst s, rs)).

(** The class attribute [Pip.name]. *)
Definition Pip_name : string := "pip".

(** The message of the [AttributeError] of [None.replace]. *)
Definition none_replace_message : string :=
  "'NoneType' object has no attribute 'replace'".

Section PopulateInventory.
Context `{ExternalTools} `{Hashing}.

(** [Pip.populate_inventory]; [root] is [workspace.root], and the mode
    is [workspace.dry_run]. *)
Definition populate_inventory (app : AppInst) (ws : Workspace)
    (root : string) : M istate unit :=
  let path := expander_env_path app in
  runner_call (set_dry_run (ws_dry_run ws)) >>
  runner_call (configure_env path) >>
  let* pkgman_version := runner_call get_version in
  append_package_manager
    {| pm_name := Pip_name;
       pm_version := pkgman_version;
       pm_digest := hash_string pkgman_version |} >>
  let* r := runner_call get_runner in
  let* name :=
    match env_path r with
    | Some p => ret (str_remove (root +:+ "/") p)
    | None => raise (AttributeError none_replace_message)
    end in
  let* d := runner_call inventory_hash in
  append_software {| sw_name := name; sw_digest := d |}.
End PopulateInventory.

(** The runner that [populate_inventory] works with. *)
Definition inventory_runner (app : AppInst) (ws : Workspace) (r : PipRunner)
  : PipRunner :=
  with_env_path (expander_env_path app) (with_dry_run (ws_dry_run ws) r).

(** The record of the package manager with version [v]. *)
Definition package_manager_record `{Hashing} (v : string)
  : PackageManagerRecord :=
  {| pm_name := "pip"; pm_version := v; pm_digest := digest v |}.

(** [old] occurs in [s]. *)
Definition occurs (old s : string) : Prop :=
  exists a b, s = a +:+ old +:+ b.

(** The two phases of a setup, in their order. *)
Definition setup_pipeline `{ExternalTools} (app : AppInst) : M pstate unit :=
  run_phase SoftwareCreateEnv app >> run_phase SoftwareInstall app.

(** The runner that the create-env phase of a dry run hands to
    [generate_requirement_file]: in dry-run mode, bound to [p], with
    the specs [l] added. *)
Definition provisioned_runner (p : string) (l : list string) (r : PipRunner)
  : PipRunner :=
  with_specs (specs r ∪ list_to_set l)
    (with_env_path (Some p) (with_dry_run true r)).

(** A workspace of a dry run with the given keys in its cache. *)
Definition demo_dry_workspace (keys : gset (string * string)) : Workspace :=
  {| cache := keys; ws_dry_run := true |}.






(** A string of version characters. *)
Fixpoint all_version_chars (s : string) : bool :=
  match s with
  | EmptyString => true
  | String c rest => is_version_char c && all_version_chars rest
  end.

(** The output holds [pip v from]. *)
Definition holds_version (out v : string) : Prop :=
  exists a b, out = a +:+ "pip " +:+ v +:+ " from" +:+ b.

(** A string of ASCII characters (code points below 128). *)
Fixpoint ascii_only (s : string) : bool :=
  match s with
  | EmptyString => true
  | String c rest => (nat_of_ascii c <? 128)%nat && ascii_only rest
  end.

(** An application instance for which nothing is rendered. *)
Definition demo_app_no_software : AppInst :=
  {| expander_env_path := Some "/env/a";
     environment_required := false;
     rendered_specs := Ok None |}.

(** The methods of a runner, for sequences of calls on one object. *)
Inductive runner_op : Type :=
| OpConfigureEnv (path : option string)
| OpSetDryRun (d : bool)
| OpCreateEnv (path : string)
| OpAddSpec (spec : string)
| OpGenerateRequirementFile
| OpInstall
| OpGetVersion
| OpInventoryHash.

Section RunnerOps.
Context `{ExternalTools} `{Hashing}.

Definition run_op (o : runner_op) : M rstate unit :=
  match o with
  | OpConfigureEnv path => configure_env path
  | OpSetDryRun d => set_dry_run d
  | OpCreateEnv path => create_env path
  | OpAddSpec spec => add_spec spec
  | OpGenerateRequirementFile => generate_requirement_file
  | OpInstall => install
  | OpGetVersion => let* _ := get_version in ret tt
  | OpInventoryHash => let* _ := inventory_hash in ret tt
  end.

(** The calls of a list made in order on one runner, by a caller that
    goes on after an exception: the state after the last call. *)
Fixpoint run_ops (ops : list runner_op) (s : rstate) : rstate :=
  match ops with
  | [] => s
  | o :: rest => run_ops rest (snd (run_op o s))
  end.
End RunnerOps.

(** The calls that leave a runner in dry-run mode and are not the
    version query. *)
Definition stays_dry (o : runner_op) : bool :=
  match o with
  | OpSetDryRun false | OpGetVersion => false
  | _ => true
  end.

(** What no method changes of a runner, and what it can only extend or
    set. *)
Definition runner_grows (r r' : PipRunner) : Prop :=
  bs_python r' = bs_python r /\
  configs r' = configs r /\
  specs r ⊆ specs r' /\
  (installed r = true -> installed r' = true).

(** * Properties *)

(** ** Strings and paths *)

Lemma string_app_assoc (a b c : string) :
  (a +:+ b) +:+ c = a +:+ b +:+ c.
Proof.
  induction a as [|x a IH]; [reflexivity|].
  change ((String x a +:+ b) +:+ c) with (String x ((a +:+ b) +:+ c)).
  rewrite IH. reflexivity.
Qed.

Lemma string_app_nil (s : string) : "" +:+ s = s.
Proof. reflexivity. Qed.

Lemma string_app_cons (c : ascii) (a s : string) :
  String c a +:+ s = String c (a +:+ s).
Proof. reflexivity. Qed.

Lemma string_app_nil_r (s : string) : s +:+ "" = s.
Proof.
  induction s as [|c s IH]; [reflexivity|].
  rewrite string_app_cons, IH. reflexivity.
Qed.

Lemma string_length_app (a b : string) :
  String.length (a +:+ b) = (String.length a + String.length b)%nat.
Proof.
  induction a as [|c a IH]; [reflexivity|].
  rewrite string_app_cons. simpl. rewrite IH. reflexivity.
Qed.

Lemma last_char_app (pre b : string) :
  b <> "" -> last_char (pre +:+ b) = last_char b.
Proof.
  intros Hb. induction pre as [|c pre IH].
  - reflexivity.
  - change (String c pre +:+ b) with (String c (pre +:+ b)).
    simpl. destruct (pre +:+ b) eqn:Heq; [|exact IH].
    destruct pre; [|discriminate].
    change ("" +:+ b) with b in Heq. contradiction.
Qed.

Lemma path_join2_last (a b : string) :
  b <> "" -> last_char (path_join2 a b) = last_char b.
Proof.
  intros Hb. unfold path_join2.
  destruct (starts_with_slash b); [reflexivity|].
  destruct (bool_decide (a = "") || ends_with_slash a).
  - apply last_char_app, Hb.
  - rewrite last_char_app by discriminate. apply (last_char_app "/" b Hb).
Qed.

Lemma path_join_last (p : string) (l : list string) (b : string) :
  b <> "" -> last_char (path_join p (l ++ [b])) = last_char b.
Proof.
  intros Hb. unfold path_join. rewrite fold_left_app. simpl.
  apply path_join2_last, Hb.
Qed.

Lemma env_files_distinct r :
  req_path r <> lock_path r /\
  activate_path r <> lock_path r /\
  activate_path r <> req_path r.
Proof.
  assert (Hreq : last_char (req_path r) = Some "t"%char)
    by (apply (path_join_last _ [] "requirements.txt"); discriminate).
  assert (Hlock : last_char (lock_path r) = Some "k"%char)
    by (apply (path_join_last _ [] "requirements.lock"); discriminate).
  assert (Hact : last_char (activate_path r) = Some "e"%char)
    by (apply (path_join_last _ [_venv_name; "bin"] "activate"); discriminate).
  repeat split; intros Heq; rewrite Heq in *; congruence.
Qed.

Lemma ends_with_slash_last_char (s : string) :
  ends_with_slash s =
    match last_char s with
    | Some c => bool_decide (c = "/"%char)
    | None => false
    end.
Proof.
  induction s as [|c s IH]; [reflexivity|].
  destruct s as [|c' s]; [reflexivity|]. exact IH.
Qed.

Lemma can_open_for_writing_fs p w w' :
  fs w = fs w' -> can_open_for_writing p w = can_open_for_writing p w'.
Proof.
  intros Hfs. unfold can_open_for_writing, os_path_isdir. rewrite Hfs.
  reflexivity.
Qed.

(** A path that ends with a character other than the separator names a
    file: to open it for writing, it must be no directory and lie in a
    directory. *)
Lemma can_open_for_writing_file p c w :
  last_char p = Some c -> c <> "/"%char ->
  can_open_for_writing p w =
    negb (os_path_isdir p w) && parent_is_dir p (fs w).
Proof.
  intros Hl Hc. unfold can_open_for_writing.
  rewrite ends_with_slash_last_char, Hl.
  rewrite (bool_decide_eq_false_2 (c = "/"%char)) by exact Hc.
  rewrite bool_decide_eq_false_2; [reflexivity|].
  intros ->. discriminate.
Qed.

Lemma can_open_req_path r w :
  can_open_for_writing (req_path r) w =
    negb (os_path_isdir (req_path r) w) && parent_is_dir (req_path r) (fs w).
Proof.
  apply (can_open_for_writing_file _ "t"%char); [|discriminate].
  apply (path_join_last _ [] "requirements.txt"); discriminate.
Qed.

Lemma can_open_lock_path r w :
  can_open_for_writing (lock_path r) w =
    negb (os_path_isdir (lock_path r) w) && parent_is_dir (lock_path r) (fs w).
Proof.
  apply (can_open_for_writing_file _ "k"%char); [|discriminate].
  apply (path_join_last _ [] "requirements.lock"); discriminate.
Qed.

(** *** The directories above a path *)

Lemma ancestors_from_length pre s d :
  d ∈ ancestors_from pre s ->
  (String.length pre <= String.length d /\
   String.length d < String.length pre + String.length s)%nat.
Proof.
  revert pre. induction s as [|c s IH]; intros pre; simpl.
  - intros Hd. apply elem_of_nil in Hd. contradiction.
  - intros [Hd|Hd]%elem_of_app.
    + destruct (bool_decide (c = "/"%char) && negb (bool_decide (pre = "")) &&
                negb (ends_with_slash pre)).
      * apply list_elem_of_singleton in Hd. subst d. lia.
      * apply elem_of_nil in Hd. contradiction.
    + apply IH in Hd. rewrite string_length_app in Hd. simpl in Hd. lia.
Qed.

Lemma ancestors_shorter p d :
  d ∈ ancestors p -> (String.length d < String.length p)%nat.
Proof. intros Hd%ancestors_from_length. simpl in Hd. lia. Qed.

Lemma ancestors_from_app pre s t :
  ancestors_from pre (s +:+ t) =
    ancestors_from pre s ++ ancestors_from (pre +:+ s) t.
Proof.
  revert pre. induction s as [|c s IH]; intros pre.
  - rewrite string_app_nil, string_app_nil_r. reflexivity.
  - rewrite string_app_cons. simpl. rewrite IH, <- app_assoc.
    rewrite string_app_assoc. reflexivity.
Qed.

(** The directories above an entry [x] of the directory [p], [x]
    being a name without separator. *)
Lemma ancestors_path_join2 p x :
  starts_with_slash x = false ->
  (forall pre, ancestors_from pre x = []) ->
  ancestors (path_join2 p x) =
    ancestors p ++
    (if bool_decide (p = "") || ends_with_slash p then [] else [p]).
Proof.
  intros Hx Hnone. unfold path_join2, ancestors. rewrite Hx.
  destruct (bool_decide (p = "") || ends_with_slash p) eqn:Hp.
  - rewrite ancestors_from_app, Hnone. reflexivity.
  - apply orb_false_iff in Hp as [Hne Hs].
    rewrite ancestors_from_app. f_equal.
    change ("/" +:+ x) with (String "/" x). simpl.
    rewrite string_app_nil, Hne, Hs, Hnone. reflexivity.
Qed.

Lemma string_prefix_longer (t q : string) :
  (String.length q < String.length t)%nat -> String.prefix t q = false.
Proof.
  revert q. induction t as [|a t IH]; intros q; simpl; [lia|].
  destruct q as [|b q]; [reflexivity|]. simpl. intros Hlen.
  destruct (ascii_dec a b); [apply IH; lia | reflexivity].
Qed.

(** *** The directory tree that [mkdirp] makes *)

Lemma make_dir_lookup t f d q :
  make_dir t f d !! q =
    match f !! q with
    | Some n => Some n
    | None => if bool_decide (q = d) then Some (Dir t) else None
    end.
Proof.
  unfold make_dir. destruct (f !! d) eqn:Hd.
  - destruct (f !! q) eqn:Hq; [reflexivity|].
    case_bool_decide; [subst; congruence | reflexivity].
  - destruct (decide (q = d)) as [->|Hne].
    + rewrite lookup_insert_eq, Hd. case_bool_decide; [reflexivity | contradiction].
    + rewrite lookup_insert_ne by congruence.
      destruct (f !! q); [reflexivity|].
      rewrite bool_decide_eq_false_2; done.
Qed.

Lemma fold_make_dir_lookup t l f q :
  fold_left (make_dir t) l f !! q =
    match f !! q with
    | Some n => Some n
    | None => if bool_decide (q ∈ l) then Some (Dir t) else None
    end.
Proof.
  revert f. induction l as [|d l IH]; intros f; cbn [fold_left].
  - destruct (f !! q); [reflexivity|].
    rewrite bool_decide_eq_false_2; [reflexivity | apply not_elem_of_nil].
  - rewrite IH, make_dir_lookup. destruct (f !! q); [reflexivity|].
    destruct (decide (q = d)) as [->|H1].
    + rewrite (bool_decide_eq_true_2 (d = d)) by reflexivity.
      rewrite (bool_decide_eq_true_2 (d ∈ d :: l))
        by (apply elem_of_cons; left; reflexivity).
      reflexivity.
    + rewrite (bool_decide_eq_false_2 (q = d)) by exact H1.
      destruct (decide (q ∈ l)) as [H2|H2].
      * rewrite (bool_decide_eq_true_2 (q ∈ l)) by exact H2.
        rewrite (bool_decide_eq_true_2 (q ∈ d :: l))
          by (apply elem_of_cons; right; exact H2).
        reflexivity.
      * rewrite (bool_decide_eq_false_2 (q ∈ l)) by exact H2.
        rewrite (bool_decide_eq_false_2 (q ∈ d :: l))
          by (intros [?|?]%elem_of_cons; contradiction).
        reflexivity.
Qed.

Lemma make_dirs_lookup p t f q :
  make_dirs p t f !! q =
    match f !! q with
    | Some n => Some n
    | None =>
        if bool_decide (q ∈ ancestors p ++ [p]) then Some (Dir t) else None
    end.
Proof. apply fold_make_dir_lookup. Qed.

Lemma make_dirs_target p t f :
  f !! p = None -> make_dirs p t f !! p = Some (Dir t).
Proof.
  intros Hp. rewrite make_dirs_lookup, Hp.
  rewrite bool_decide_eq_true_2; [reflexivity|].
  apply elem_of_app. right. apply elem_of_cons. left. reflexivity.
Qed.

(** What lies below or beside the new directory is as it was. *)
Lemma make_dirs_longer p t f q :
  (String.length p < String.length q)%nat ->
  make_dirs p t f !! q = f !! q.
Proof.
  intros Hlen. rewrite make_dirs_lookup. destruct (f !! q); [reflexivity|].
  rewrite bool_decide_eq_false_2; [reflexivity|].
  intros [Hin|Hin]%elem_of_app.
  - apply ancestors_shorter in Hin. lia.
  - apply list_elem_of_singleton in Hin. subst. lia.
Qed.

Lemma make_dirs_keeps p t f q n :
  f !! q = Some n -> make_dirs p t f !! q = Some n.
Proof. intros Hq. rewrite make_dirs_lookup, Hq. reflexivity. Qed.

(** After [mkdirp], the directories above the path are directories. *)
Lemma make_dirs_ancestors p t f d :
  mkdir_blocked p f = false ->
  d ∈ ancestors p ->
  exists t', make_dirs p t f !! d = Some (Dir t').
Proof.
  intros Hb Hd. unfold mkdir_blocked in Hb.
  apply orb_false_iff in Hb as [_ Hb].
  rewrite make_dirs_lookup.
  destruct (f !! d) as [[c t'|t']|] eqn:Hfd.
  - exfalso. apply not_true_iff_false in Hb. apply Hb.
    apply existsb_exists. exists d. split.
    + apply list_elem_of_In. exact Hd.
    + unfold is_file_at. rewrite Hfd. reflexivity.
  - eauto.
  - rewrite bool_decide_eq_true_2; [eauto|].
    apply elem_of_app. left. exact Hd.
Qed.

(** ** The methods in closed form *)

Lemma env_join_set r w rest :
  path_is_set (env_path r) = true ->
  env_join rest (r, w) = (Ok (env_file r rest), (r, w)).
Proof.
  unfold env_join, env_file, bind, get_runner, ret; simpl.
  destruct (env_path r); [reflexivity | discriminate].
Qed.

Lemma check_env_configured_eq r w :
  _check_env_configured (r, w) =
    if configured r w then (Ok tt, (r, w))
    else (Raise (RunnerError (check_message r)), (r, w)).
Proof.
  unfold _check_env_configured, configured, check_message.
  unfold bind at 1. simpl.
  destruct (path_is_set (env_path r)) eqn:Hset; simpl; [|reflexivity].
  destruct (dry_run r); simpl; [reflexivity|].
  unfold _get_activate_script_path, bind.
  rewrite env_join_set by assumption. simpl.
  fold (activate_path r).
  destruct (os_path_exists _ w); reflexivity.
Qed.
Lemma generate_requirement_file_eq r w :
  generate_requirement_file (r, w) =
    if configured r w then
      match req_check r w with
      | UpToDate => (Ok tt, (with_installed true r, w))
      | ReadRaises e => (Raise e, (r, w))
      | Stale =>
          if can_open_for_writing (req_path r) w
          then (Ok tt,
                (r, written (req_path r) (_generate_requirement_content r) w))
          else (Raise OSError, (r, w))
      end
    else (Raise (RunnerError (check_message r)), (r, w)).
Proof.
  unfold generate_requirement_file. unfold bind at 1.
  rewrite check_env_configured_eq.
  destruct (configured r w) eqn:Hc; [|reflexivity].
  assert (Hset : path_is_set (env_path r) = true).
  { unfold configured in Hc. apply andb_true_iff in Hc. tauto. }
  unfold bind at 1. simpl.
  unfold bind at 1. rewrite env_join_set by assumption.
  unfold bind at 1. rewrite env_join_set by assumption.
  fold (req_path r). fold (lock_path r).
  unfold bind at 1. simpl.
  unfold req_check, os_path_exists, written.
  unfold bind, observe, os_path_getmtime, read_text, in_world, write_file,
    update_runner, ret; simpl.
  destruct (fs w !! req_path r) as [[c t|t]|] eqn:Hreq;
    destruct (fs w !! lock_path r) as [n|] eqn:Hlock;
    simpl; rewrite ?Hreq, ?Hlock; simpl;
    try (case_bool_decide as Hm; simpl; rewrite ?Hreq, ?Hlock; simpl);
    try (destruct (utf8_valid c); simpl);
    try (case_bool_decide as Hcont; simpl);
    destruct (can_open_for_writing (req_path r) w); reflexivity.
Qed.

Lemma req_check_up_to_date r w :
  req_check r w = UpToDate <-> up_to_date_as_read r w.
Proof.
  unfold req_check, up_to_date_as_read. split.
  - destruct (fs w !! req_path r) as [[c t|t]|] eqn:Hreq;
      destruct (fs w !! lock_path r) as [n|] eqn:Hlock; try discriminate.
    + case_bool_decide as Hm; [|discriminate].
      destruct (utf8_valid c) eqn:Hu; [|discriminate].
      case_bool_decide as Hcont; [|discriminate].
      intros _. by exists c, t, n.
    + case_bool_decide; discriminate.
  - intros (c & t & n & -> & -> & Hm & Hu & Hcont).
    rewrite bool_decide_eq_true_2 by exact Hm. rewrite Hu.
    rewrite bool_decide_eq_true_2 by exact Hcont. reflexivity.
Qed.

Lemma generate_requirement_file_cases r w :
  configured r w = true ->
  (up_to_date_as_read r w /\
     generate_requirement_file (r, w) = (Ok tt, (with_installed true r, w)))
  \/ (~ up_to_date_as_read r w /\ req_check r w = Stale /\
      can_open_for_writing (req_path r) w = true /\
     generate_requirement_file (r, w) =
       (Ok tt, (r, written (req_path r) (_generate_requirement_content r) w)))
  \/ (~ up_to_date_as_read r w /\
      exists e, generate_requirement_file (r, w) = (Raise e, (r, w)) /\
        (req_check r w = ReadRaises e \/
         (req_check r w = Stale /\ e = OSError /\
          can_open_for_writing (req_path r) w = false))).
Proof.
  intros Hc. rewrite generate_requirement_file_eq, Hc.
  pose proof (req_check_up_to_date r w) as Hup.
  destruct (req_check r w) as [| |e] eqn:Hchk.
  - left. split; [apply Hup|]; reflexivity.
  - right. destruct (can_open_for_writing (req_path r) w) eqn:Hopen.
    + left. split; [intros Hu%Hup; discriminate|]. done.
    + right. split; [intros Hu%Hup; discriminate|].
      exists OSError. split; [reflexivity|]. right. done.
  - right. right. split; [intros Hu%Hup; discriminate|].
    exists e. split; [reflexivity|]. left. reflexivity.
Qed.

Section InstallFacts.
Context `{ExternalTools}.

Lemma install_installed r w :
  installed r = true ->
  install (r, w) =
    if configured r w then (Ok tt, (r, w))
    else (Raise (RunnerError (check_message r)), (r, w)).
Proof.
  intros Hi. unfold install. unfold bind at 1.
  rewrite check_env_configured_eq.
  destruct (configured r w); [|reflexivity].
  unfold bind, get_runner; simpl. rewrite Hi. reflexivity.
Qed.

Lemma install_not_configured r w :
  configured r w = false ->
  install (r, w) = (Raise (RunnerError (check_message r)), (r, w)).
Proof.
  intros Hc. unfold install. unfold bind at 1.
  rewrite check_env_configured_eq, Hc. reflexivity.
Qed.

Lemma install_fresh r w o r1 w1 :
  installed r = false ->
  install (r, w) = (o, (r1, w1)) ->
  (o = Ok tt -> r1 = with_installed true r) /\
  (dry_run r = true ->
     fs w1 = fs w /\
     (o = Ok tt ->
      new_events w w1 =
        [EvDryRun (exe_path (bs_python r))
           (default_args (bs_python r) ++ pip_argv r "install");
         EvDryRun (exe_path (bs_python r))
           (default_args (bs_python r) ++ pip_argv r "freeze")])) /\
  (dry_run r = false -> o = Ok tt ->
     exists out,
       new_events w w1 =
         [EvExec (venv_python r) (pip_argv r "install");
          EvWrite (lock_path r) "";
          EvExec (venv_python r) (pip_argv r "freeze");
          EvWrite (lock_path r) out]).
Proof.
  intros Hi. unfold install. unfold bind at 1.
  rewrite check_env_configured_eq.
  destruct (configured r w) eqn:Hc.
  2:{ intros [= <- <- <-]. unfold new_events. repeat split; done. }
  assert (Hset : path_is_set (env_path r) = true).
  { unfold configured in Hc. apply andb_true_iff in Hc. tauto. }
  unfold bind at 1. simpl. rewrite Hi.
  unfold bind at 1. rewrite env_join_set by assumption.
  fold (req_path r).
  unfold bind at 1. simpl.
  destruct (os_path_exists (req_path r) w) eqn:Hex; simpl.
  2:{ intros [= <- <- <-]. repeat split; done. }
  unfold _get_venv_python. 
  destruct (dry_run r) eqn:Hd.
  - unfold bind, get_runner, _dry_run_print, in_world, update_runner, ret, raise;
      simpl. rewrite Hd. simpl.
    intros [= <- <- <-]. unfold new_events, pip_argv; simpl.
    rewrite <- !app_assoc, drop_app_length. simpl. repeat split; done.
  - unfold bind at 1. unfold bind at 1. unfold bind at 1.
    unfold get_runner at 1. simpl. rewrite Hd.
    unfold bind at 1. rewrite env_join_set by assumption.
    fold (venv_python r). unfold ret at 1.
    unfold bind at 1. unfold call at 1, in_world at 1. simpl.
    destruct (run_process _ _ _) as [[out1 f1]|] eqn:Hr1.
    2:{ intros [= <- <- <-]. repeat split; done. }
    unfold bind at 1. rewrite env_join_set by assumption.
    fold (lock_path r).
    unfold bind at 1. unfold in_world at 1, write_file at 1.
    cbn [snd fst].
    destruct (can_open_for_writing (lock_path r) _) eqn:Hl1.
    2:{ intros [= <- <- <-]. repeat split; done. }
    unfold bind at 1; unfold call at 1, in_world at 1; simpl.
    destruct (run_process _ ["-m"; "pip"; "freeze"; _; _] _)
      as [[out2 f2]|] eqn:Hr2; simpl.
    2:{ intros [= <- <- <-]; repeat split; done. }
    unfold in_world at 1, write_file at 1. cbn [snd fst].
    match goal with
    | |- context [can_open_for_writing ?p ?x] =>
        destruct (can_open_for_writing p x) eqn:Hl2
    end.
    all: intros [= <- <- <-]; (repeat split; try done); intros _ _.
    exists out2; unfold new_events, pip_argv; simpl.
    rewrite <- !app_assoc, drop_app_length; reflexivity.
Qed.
End InstallFacts.

(** ** Change detection of the requirement file *)

Lemma app_singleton_neq {A} (l : list A) (x : A) : l ++ [x] <> l.
Proof.
  intros Heq. apply (f_equal length) in Heq.
  rewrite length_app in Heq. simpl in Heq. lia.
Qed.

Lemma req_check_read_raises r w e :
  req_check r w = ReadRaises e -> read_fails r w.
Proof.
  unfold req_check, read_fails.
  destruct (fs w !! req_path r) as [[c t|t]|] eqn:Hreq;
    destruct (fs w !! lock_path r) as [n|] eqn:Hlock; try discriminate.
  - case_bool_decide as Hm; [|discriminate].
    destruct (utf8_valid c) eqn:Hu; [case_bool_decide; discriminate|].
    intros _. exists (File c t), n. done.
  - case_bool_decide as Hm; [|discriminate].
    intros _. exists (Dir t), n. done.
Qed.

Lemma req_check_undecodable r w c t n :
  fs w !! req_path r = Some (File c t) ->
  fs w !! lock_path r = Some n ->
  node_mtime n >= t ->
  utf8_valid c = false ->
  req_check r w = ReadRaises UnicodeDecodeError.
Proof.
  intros Hreq Hlock Hm Hu. unfold req_check. rewrite Hreq, Hlock, Hu.
  rewrite bool_decide_eq_true_2 by exact Hm. reflexivity.
Qed.

Lemma req_check_differs r w c t :
  fs w !! req_path r = Some (File c t) ->
  utf8_valid c = true ->
  universal_newlines c <> _generate_requirement_content r ->
  req_check r w = Stale.
Proof.
  intros Hreq Hu Hne. unfold req_check. rewrite Hreq, Hu.
  rewrite bool_decide_eq_false_2 by exact Hne.
  destruct (fs w !! lock_path r); [|reflexivity].
  case_bool_decide; reflexivity.
Qed.

(** C1, as the code has it: on a runner that passes the configuration
    check, [generate_requirement_file] returns with the world untouched
    (no write) and the installed flag set exactly when the requirement
    file and the lock file both exist, the lock file's modification
    time is greater than or equal to the requirement file's, and the
    requirement file, read in text mode (decoded, the line ends [\r\n]
    and [\r] read as [\n]), gives the computed serialization.  Where
    the two files exist and the lock file is not older but the
    requirement file holds bytes that are no text, the call raises the
    decoding error and writes nothing.  In every other case it
    overwrites the requirement file with the computed content, if the
    file can be opened for writing; if it cannot, the call raises and
    writes nothing. *)
Theorem generate_requirement_file_change_detection r w :
  configured r w = true ->
  (generate_requirement_file (r, w) = (Ok tt, (with_installed true r, w))
   <-> up_to_date_as_read r w) /\
  (forall c t n,
     fs w !! req_path r = Some (File c t) ->
     fs w !! lock_path r = Some n ->
     node_mtime n >= t ->
     utf8_valid c = false ->
     generate_requirement_file (r, w) = (Raise UnicodeDecodeError, (r, w))) /\
  (~ up_to_date_as_read r w -> ~ read_fails r w ->
   can_open_for_writing (req_path r) w = true ->
   generate_requirement_file (r, w) =
     (Ok tt, (r, written (req_path r) (_generate_requirement_content r) w))) /\
  (~ up_to_date_as_read r w ->
   can_open_for_writing (req_path r) w = false ->
   exists e, generate_requirement_file (r, w) = (Raise e, (r, w))).
Proof.
  intros Hc. split; [|split; [|split]].
  - destruct (generate_requirement_file_cases r w Hc)
      as [[Hup Hgen] | [(Hup & _ & _ & Hgen) | (Hup & e & Hgen & _)]];
      rewrite Hgen.
    + tauto.
    + split; [|intros Hu; contradiction].
      intros Heq. exfalso.
      assert (Ht : trace (written (req_path r)
                            (_generate_requirement_content r) w)
                   = trace w) by congruence.
      simpl in Ht. exact (app_singleton_neq _ _ Ht).
    + split; [discriminate | intros Hu; contradiction].
  - intros c t n Hreq Hlock Hm Hu.
    rewrite generate_requirement_file_eq, Hc.
    rewrite (req_check_undecodable r w c t n Hreq Hlock Hm Hu). reflexivity.
  - intros Hup Hread Hopen.
    destruct (generate_requirement_file_cases r w Hc)
      as [[Hup' _] | [(_ & _ & _ & Hgen) | (_ & e & _ & [Hr | (_ & _ & Ho)])]].
    + contradiction.
    + exact Hgen.
    + exfalso. exact (Hread (req_check_read_raises r w e Hr)).
    + congruence.
  - intros Hup Hopen.
    destruct (generate_requirement_file_cases r w Hc)
      as [[Hup' _] | [(_ & _ & Ho & _) | (_ & e & Hgen & _)]].
    + contradiction.
    + congruence.
    + exists e. exact Hgen.
Qed.

Lemma generate_requirement_file_change_detection_witness :
  let r := demo_runner false demo_env {["requests"]} false in
  let w := demo_world (demo_fs ("requests" +:+ linesep) 1 2) in
  (generate_requirement_file (r, w) = (Ok tt, (with_installed true r, w))
   <-> up_to_date_as_read r w) /\
  (forall c t n,
     fs w !! req_path r = Some (File c t) ->
     fs w !! lock_path r = Some n ->
     node_mtime n >= t ->
     utf8_valid c = false ->
     generate_requirement_file (r, w) = (Raise UnicodeDecodeError, (r, w))) /\
  (~ up_to_date_as_read r w -> ~ read_fails r w ->
   can_open_for_writing (req_path r) w = true ->
   generate_requirement_file (r, w) =
     (Ok tt, (r, written (req_path r) (_generate_requirement_content r) w))) /\
  (~ up_to_date_as_read r w ->
   can_open_for_writing (req_path r) w = false ->
   exists e, generate_requirement_file (r, w) = (Raise e, (r, w))).
Proof.
  intros r w.
  assert (Hc : configured r w = true) by (vm_compute; reflexivity).
  exact (generate_requirement_file_change_detection r w Hc).
Defined.

(** C1 as the spec states it fails, in both directions.  A requirement
    file with the line ends [\r\n] is not byte-identical to the
    computed content, yet it reads as that content: nothing is written
    and the runner is marked installed.  A requirement file that is
    byte-identical to the computed content of a spec holding a
    carriage return reads back with a line feed in its place: the file
    is written again and the runner is not marked. *)
Lemma generate_compares_text_counterexample :
  let r := demo_runner false demo_env {["requests"]} false in
  let w := demo_world
             (demo_fs ("requests" +:+ carriage_return +:+ linesep) 1 2) in
  let r2 := demo_runner false demo_env
              {["a" +:+ carriage_return +:+ "b"]} false in
  let w2 := demo_world (demo_fs (_generate_requirement_content r2) 1 2) in
  (configured r w = true /\
   ~ up_to_date r w /\
   generate_requirement_file (r, w) = (Ok tt, (with_installed true r, w))) /\
  (configured r2 w2 = true /\
   up_to_date r2 w2 /\
   generate_requirement_file (r2, w2) =
     (Ok tt,
      (r2, written (req_path r2) (_generate_requirement_content r2) w2))).
Proof.
  intros r w r2 w2. split; split; try (vm_compute; reflexivity); split;
    try (vm_compute; reflexivity).
  - intros (c & t & n & Hreq & _ & _ & Heq).
    vm_compute in Hreq. vm_compute in Heq. congruence.
  - exists (_generate_requirement_content r2), 1, (File "" 2).
    repeat split; try (vm_compute; reflexivity). vm_compute. discriminate.
Qed.

Example generate_skips_when_up_to_date :
  let r := demo_runner false demo_env {["requests"]} false in
  let w := demo_world (demo_fs ("requests" +:+ linesep) 1 2) in
  generate_requirement_file (r, w) = (Ok tt, (with_installed true r, w)).
Proof. vm_compute. reflexivity. Qed.

Example generate_rewrites_when_lock_older :
  let r := demo_runner false demo_env {["requests"]} false in
  let w := demo_world (demo_fs ("requests" +:+ linesep) 3 2) in
  generate_requirement_file (r, w) =
    (Ok tt, (r, written (req_path r) (_generate_requirement_content r) w)).
Proof. vm_compute. reflexivity. Qed.

(** ** The configuration check *)

Lemma configured_false_iff r w : configured r w = false <-> check_fails r w.
Proof.
  unfold configured, check_fails.
  destruct (path_is_set (env_path r)), (dry_run r),
    (os_path_exists (activate_path r) w); simpl; intuition congruence.
Qed.

Lemma add_spec_eq r w spec :
  add_spec spec (r, w) =
    if configured r w then (Ok tt, (with_specs (specs r ∪ {[spec]}) r, w))
    else (Raise (RunnerError (check_message r)), (r, w)).
Proof.
  unfold add_spec. unfold bind at 1. rewrite check_env_configured_eq.
  destruct (configured r w); reflexivity.
Qed.

Lemma generate_not_configured r w :
  configured r w = false ->
  generate_requirement_file (r, w) =
    (Raise (RunnerError (check_message r)), (r, w)).
Proof.
  intros Hc. unfold generate_requirement_file. unfold bind at 1.
  rewrite check_env_configured_eq, Hc. reflexivity.
Qed.

Section Validation.
Context `{ExternalTools} `{Hashing}.

Lemma inventory_hash_eq r w :
  inventory_hash (r, w) =
    if configured r w then
      if dry_run r
      then (Ok (digest (_generate_requirement_content r)), (r, w))
      else match fs w !! lock_path r with
           | Some (File c _) => (Ok (digest c), (r, w))
           | _ => (Raise OSError, (r, w))
           end
    else (Raise (RunnerError (check_message r)), (r, w)).
Proof.
  unfold inventory_hash. unfold bind at 1. rewrite check_env_configured_eq.
  destruct (configured r w) eqn:Hc; [|reflexivity].
  assert (Hset : path_is_set (env_path r) = true).
  { unfold configured in Hc. apply andb_true_iff in Hc. tauto. }
  unfold bind at 1. simpl.
  destruct (dry_run r); [reflexivity|].
  unfold bind at 1. rewrite env_join_set by assumption. fold (lock_path r).
  unfold hash_file, bind, observe, read_file, ret. simpl.
  destruct (fs w !! lock_path r) as [[c t|t]|]; reflexivity.
Qed.

(** C10: outside dry-run mode [add_spec], [generate_requirement_file],
    [install] and [inventory_hash] raise a [RunnerError], leaving runner
    and world as they were, when no environment path is configured and
    also when the activate script [{env}/.venv/bin/activate] does not
    exist; in dry-run mode the check looks at the path only. *)
Theorem validating_operations_check_configuration r w spec :
  (_check_env_configured (r, w) = (Ok tt, (r, w)) <-> ~ check_fails r w) /\
  (dry_run r = true ->
   (check_fails r w <-> path_is_set (env_path r) = false)) /\
  (dry_run r = false ->
   (check_fails r w <->
    path_is_set (env_path r) = false \/
    os_path_exists (activate_path r) w = false)) /\
  (check_fails r w ->
   exists msg,
     _check_env_configured (r, w) = (Raise (RunnerError msg), (r, w)) /\
     add_spec spec (r, w) = (Raise (RunnerError msg), (r, w)) /\
     generate_requirement_file (r, w) = (Raise (RunnerError msg), (r, w)) /\
     install (r, w) = (Raise (RunnerError msg), (r, w)) /\
     inventory_hash (r, w) = (Raise (RunnerError msg), (r, w))).
Proof.
  split; [|split; [|split]].
  - rewrite check_env_configured_eq, <- configured_false_iff.
    destruct (configured r w); split; intros; congruence.
  - intros Hd. unfold check_fails. rewrite Hd. intuition congruence.
  - intros Hd. unfold check_fails. rewrite Hd. intuition congruence.
  - intros Hf%configured_false_iff. exists (check_message r).
    rewrite check_env_configured_eq, add_spec_eq, inventory_hash_eq, Hf.
    rewrite generate_not_configured, install_not_configured by assumption.
    repeat split; reflexivity.
Qed.
End Validation.

Lemma validating_operations_check_configuration_witness :
  let T := demo_tools demo_version_line in
  let r := demo_runner false demo_env ∅ false in
  let w := demo_world (<["/env/a" := Dir 0]> ∅) in
  check_fails r w /\
  exists msg,
    _check_env_configured (r, w) = (Raise (RunnerError msg), (r, w)) /\
    add_spec "requests" (r, w) = (Raise (RunnerError msg), (r, w)) /\
    generate_requirement_file (r, w) = (Raise (RunnerError msg), (r, w)) /\
    @install T (r, w) = (Raise (RunnerError msg), (r, w)) /\
    @inventory_hash demo_hashing (r, w) = (Raise (RunnerError msg), (r, w)).
Proof.
  intros T r w.
  assert (Hf : check_fails r w) by (right; split; vm_compute; reflexivity).
  split; [exact Hf|].
  exact (proj2 (proj2 (proj2
    (@validating_operations_check_configuration T demo_hashing r w "requests")))
    Hf).
Defined.

Example dry_run_needs_no_activate_script :
  let r := demo_runner true demo_env ∅ false in
  let w := demo_world ∅ in
  add_spec "requests" (r, w) = (Ok tt, (with_specs {["requests"]} r, w)).
Proof. vm_compute. reflexivity. Qed.

(** ** Installing twice *)

Section Idempotence.
Context `{ExternalTools}.

(** C4: a successful [install] leaves the runner marked installed; a
    second [install] right after it changes neither the runner nor the
    world (filesystem and trace), and returns normally while the runner
    still passes the configuration check; the two calls together launch
    [pip install] exactly once when the first one started in real mode
    on a runner not yet marked, and never otherwise. *)
Theorem install_twice_installs_once r w r1 w1 :
  install (r, w) = (Ok tt, (r1, w1)) ->
  installed r1 = true /\
  snd (install (r1, w1)) = (r1, w1) /\
  (configured r1 w1 = true -> install (r1, w1) = (Ok tt, (r1, w1))) /\
  count_pip_installs (new_events w (snd (snd (install (r1, w1))))) =
    (if dry_run r || installed r then 0 else 1)%nat.
Proof.
  intros Hrun.
  assert (Hfacts : installed r1 = true /\
            count_pip_installs (new_events w w1) =
              (if dry_run r || installed r then 0 else 1)%nat).
  { destruct (installed r) eqn:Hi.
    - rewrite install_installed in Hrun by assumption.
      destruct (configured r w); [|discriminate].
      injection Hrun as <- <-. split; [assumption|].
      unfold new_events. rewrite drop_all, orb_true_r. reflexivity.
    - destruct (install_fresh r w (Ok tt) r1 w1 Hi Hrun) as (Hr & Hdry & Hreal).
      split; [rewrite Hr by reflexivity; reflexivity|].
      destruct (dry_run r) eqn:Hd; simpl.
      + destruct (Hdry eq_refl) as [_ Hev]. rewrite Hev by reflexivity.
        reflexivity.
      + destruct (Hreal eq_refl eq_refl) as [out Hev]. rewrite Hev.
        reflexivity. }
  destruct Hfacts as [Hinst Hcount].
  rewrite (install_installed r1 w1 Hinst).
  destruct (configured r1 w1); simpl; repeat split; try assumption.
  discriminate.
Qed.
End Idempotence.

Lemma install_twice_installs_once_witness :
  let T := demo_tools demo_version_line in
  let r := demo_runner false demo_env {["requests"]} false in
  let w := demo_world (demo_fs_fresh ("requests" +:+ linesep)) in
  let r1 := fst (snd (@install T (r, w))) in
  let w1 := snd (snd (@install T (r, w))) in
  @install T (r, w) = (Ok tt, (r1, w1)) /\
  installed r1 = true /\
  snd (@install T (r1, w1)) = (r1, w1) /\
  (configured r1 w1 = true -> @install T (r1, w1) = (Ok tt, (r1, w1))) /\
  count_pip_installs (new_events w (snd (snd (@install T (r1, w1))))) = 1%nat.
Proof.
  intros T r w r1 w1.
  assert (Hrun : @install T (r, w) = (Ok tt, (r1, w1)))
    by (vm_compute; reflexivity).
  split; [exact Hrun|].
  exact (@install_twice_installs_once T r w r1 w1 Hrun).
Defined.

(** ** A spec set that changes after an install *)

Section SpecChange.
Context `{ExternalTools}.

(** C5, as the code has it: on a runner that passes the configuration
    check, when the requirement file on disk is text that reads
    differently from the recomputed content, and it can be opened for
    writing, [generate_requirement_file] rewrites the file with the new
    content and leaves the installed flag as it was; on a runner already
    marked installed a following [install] changes nothing and launches
    no process. *)
Theorem generate_after_spec_change r w c t :
  configured r w = true ->
  fs w !! req_path r = Some (File c t) ->
  utf8_valid c = true ->
  universal_newlines c <> _generate_requirement_content r ->
  can_open_for_writing (req_path r) w = true ->
  let w' := written (req_path r) (_generate_requirement_content r) w in
  generate_requirement_file (r, w) = (Ok tt, (r, w')) /\
  fs w' !! req_path r =
    Some (File (_generate_requirement_content r) (now w)) /\
  (installed r = true -> snd (install (r, w')) = (r, w')).
Proof.
  intros Hc Hreq Hu Hne Hopen w'.
  split; [|split].
  - rewrite generate_requirement_file_eq, Hc.
    rewrite (req_check_differs r w c t Hreq Hu Hne), Hopen. reflexivity.
  - unfold w', written. simpl. apply lookup_insert_eq.
  - intros Hi. rewrite (install_installed r w' Hi).
    destruct (configured r w'); reflexivity.
Qed.
End SpecChange.

Lemma generate_after_spec_change_witness :
  let T := demo_tools demo_version_line in
  let r := demo_runner false demo_env {["numpy==1.2"; "requests"]} true in
  let w := demo_world (demo_fs ("requests" +:+ linesep) 1 2) in
  let w' := written (req_path r) (_generate_requirement_content r) w in
  generate_requirement_file (r, w) = (Ok tt, (r, w')) /\
  fs w' !! req_path r =
    Some (File (_generate_requirement_content r) (now w)) /\
  (installed r = true -> snd (@install T (r, w')) = (r, w')).
Proof.
  intros T r w w'.
  assert (H1 : configured r w = true) by (vm_compute; reflexivity).
  assert (H2 : fs w !! req_path r = Some (File ("requests" +:+ linesep) 1))
    by (vm_compute; reflexivity).
  assert (H3 : utf8_valid ("requests" +:+ linesep) = true)
    by (vm_compute; reflexivity).
  assert (H4 : universal_newlines ("requests" +:+ linesep)
               <> _generate_requirement_content r)
    by (vm_compute; discriminate).
  assert (H5 : can_open_for_writing (req_path r) w = true)
    by (vm_compute; reflexivity).
  exact (@generate_after_spec_change T r w ("requests" +:+ linesep) 1
           H1 H2 H3 H4 H5).
Defined.

(** C5 as the spec states it fails: after an install and a further
    spec on the same runner, the requirement file is rewritten but the
    installed flag is still set, and the next [install] launches
    nothing. *)
Lemma generate_does_not_clear_installed_counterexample :
  let T := demo_tools demo_version_line in
  let r := demo_runner false demo_env {["requests"]} false in
  let w := demo_world (demo_fs_fresh ("requests" +:+ linesep)) in
  let s := snd (@install_then_change_specs T (r, w)) in
  @install_then_change_specs T (r, w) = (Ok tt, s) /\
  fs (snd s) !! "/env/a/requirements.txt" =
    Some (File ("numpy==1.2" +:+ linesep +:+ "requests" +:+ linesep) 5) /\
  installed (fst s) = true /\
  @install T s = (Ok tt, s) /\
  count_pip_installs (new_events (snd s) (snd (snd (@install T s)))) = 0%nat.
Proof. vm_compute. repeat split; reflexivity. Qed.

(** ** Creating the environment *)

Lemma prefix_append_l (s t : string) : String.prefix s (s +:+ t) = true.
Proof.
  induction s as [|a s IH]; simpl.
  - destruct t; reflexivity.
  - destruct (ascii_dec a a); [exact IH | contradiction].
Qed.

Lemma prefix_append_longer (s t : string) :
  t <> "" -> String.prefix (s +:+ t) s = false.
Proof.
  intros Ht. induction s as [|a s IH]; simpl.
  - destruct t; [contradiction | reflexivity].
  - destruct (ascii_dec a a); [exact IH | contradiction].
Qed.

Lemma prefix_venv_dir (p : string) : String.prefix (venv_dir p) p = false.
Proof.
  unfold venv_dir, path_join, path_join2; simpl.
  destruct (bool_decide (p = "") || ends_with_slash p);
    apply prefix_append_longer; discriminate.
Qed.

Lemma prefix_refl (s : string) : String.prefix s s = true.
Proof.
  induction s as [|a s IH]; simpl; [reflexivity|].
  destruct (ascii_dec a a); [exact IH | contradiction].
Qed.

Lemma venv_dir_neq (p : string) : venv_dir p <> p.
Proof.
  intros Heq. pose proof (prefix_venv_dir p) as Hp.
  rewrite Heq, prefix_refl in Hp. discriminate.
Qed.

Lemma venv_dir_longer (p : string) :
  (String.length p < String.length (venv_dir p))%nat.
Proof.
  unfold venv_dir, path_join, path_join2; simpl.
  destruct (bool_decide (p = "") || ends_with_slash p);
    rewrite !string_length_app; simpl; lia.
Qed.

Section CreateEnv.
Context `{ExternalTools}.

Lemma create_env_eq p r w :
  create_env p (r, w) =
    match fs w !! p with
    | Some (File _ _) =>
        (Raise (RunnerError ("Unable to create environment " +:+ p)), (r, w))
    | Some (Dir _) => bootstrap p r w
    | None =>
        if mkdir_blocked p (fs w) then (Raise OSError, (r, w))
        else bootstrap p r (after_mkdir p w)
    end.
Proof.
  unfold create_env, bootstrap, after_mkdir.
  unfold bind at 1. simpl.
  unfold os_path_exists at 1, os_path_isdir at 1.
  destruct (fs w !! p) as [[c t|t]|] eqn:Hp; simpl; [reflexivity| |].
  all: unfold bind at 1; simpl; unfold bind at 1.
  all: unfold os_path_exists at 1; rewrite Hp; simpl.
  all: unfold in_world, mkdirp; simpl; rewrite ?Hp; simpl.
  2: destruct (mkdir_blocked p (fs w)); [reflexivity|].
  all: unfold bind, get_runner, get_world, when, call, in_world, ret,
         update_runner, venv_argv, venv_dir, path_join, emit, set_fs; simpl.
  all: destruct (dry_run r); simpl; [reflexivity|].
  all: match goal with |- context [os_path_exists ?q ?w1] =>
         destruct (os_path_exists q w1) end; simpl; [reflexivity|].
  all: destruct (run_process _ _ _) as [[out f']|]; reflexivity.
Qed.
End CreateEnv.

Lemma new_events_app w w' l : trace w' = trace w ++ l -> new_events w w' = l.
Proof. intros Ht. unfold new_events. rewrite Ht. apply drop_app_length. Qed.

Lemma os_path_isdir_exists p w : os_path_isdir p w = true -> os_path_exists p w = true.
Proof.
  unfold os_path_isdir, os_path_exists. intros Hd.
  destruct (fs w !! p) as [[? ?|?]|]; try discriminate.
  apply bool_decide_eq_true. eauto.
Qed.

Lemma os_path_exists_false p w : os_path_exists p w = false -> fs w !! p = None.
Proof.
  unfold os_path_exists. intros Hex. apply bool_decide_eq_false in Hex.
  destruct (fs w !! p); [exfalso; eauto | reflexivity].
Qed.

(** The world in which [create_env] goes on after [mkdirp] has made an
    absent path: the path and the directories above it are
    directories, and the venv directory is as absent or present as it
    was. *)
Lemma after_mkdir_dirs p w :
  fs w !! p = None ->
  mkdir_blocked p (fs w) = false ->
  os_path_isdir p (after_mkdir p w) = true /\
  Forall (fun d => os_path_isdir d (after_mkdir p w) = true) (ancestors p) /\
  os_path_exists (venv_dir p) (after_mkdir p w) = os_path_exists (venv_dir p) w /\
  trace (after_mkdir p w) = trace w ++ [EvMkdir p].
Proof.
  intros Hp Hb. unfold after_mkdir. rewrite Hp.
  unfold os_path_isdir, os_path_exists. simpl.
  split; [|split; [|split; [|reflexivity]]].
  - rewrite (make_dirs_target p _ _ Hp). reflexivity.
  - apply Forall_forall. intros d Hd.
    destruct (make_dirs_ancestors p (now w) (fs w) d Hb Hd) as [t' ->].
    reflexivity.
  - rewrite (make_dirs_longer p _ _ _ (venv_dir_longer p)). reflexivity.
Qed.

Section CreateEnvContract.
Context `{ExternalTools}.

(** What a successful [bootstrap] leaves behind when the tool is
    sound. *)
Lemma bootstrap_ok p r w r1 w1 :
  venv_tool_sound r ->
  os_path_isdir p w = true ->
  bootstrap p r w = (Ok tt, (r1, w1)) ->
  r1 = with_env_path (Some p) r /\
  os_path_isdir p w1 = true /\
  dry_run r || os_path_exists (venv_dir p) w1 = true /\
  exists l, trace w1 = trace w ++ l /\
    count_venv_bootstraps l =
      (if dry_run r || os_path_exists (venv_dir p) w then 0 else 1)%nat.
Proof.
  intros Hsound Hdir. unfold bootstrap.
  destruct (dry_run r || os_path_exists (venv_dir p) w) eqn:Hskip.
  - intros [= <- <-]. repeat split; try assumption.
    exists []. rewrite app_nil_r. split; reflexivity.
  - apply orb_false_iff in Hskip as [Hd Hv]. simpl.
    destruct (run_process _ _ _) as [[out f']|] eqn:Hrun; [|discriminate].
    intros [= <- <-].
    destruct (Hsound _ _ _ _ Hrun) as [Htarget Hframe].
    split; [reflexivity|]. split; [|split].
    + unfold os_path_isdir in *. simpl.
      rewrite (Hframe p (prefix_venv_dir p)). exact Hdir.
    + rewrite Hd. simpl. unfold os_path_exists. simpl.
      apply bool_decide_eq_true. exact Htarget.
    + eexists. split; [reflexivity|].
      unfold count_venv_bootstraps, venv_argv. simpl.
      rewrite rev_app_distr. reflexivity.
Qed.

(** A successful [bootstrap] with a sound tool keeps the directories
    that are no longer than the environment path. *)
Lemma bootstrap_keeps_dir p r w r1 w1 d :
  dry_run r = true \/ venv_tool_sound r ->
  (String.length d <= String.length p)%nat ->
  bootstrap p r w = (Ok tt, (r1, w1)) ->
  os_path_isdir d w1 = os_path_isdir d w.
Proof.
  intros Hor Hlen. unfold bootstrap.
  destruct (dry_run r || os_path_exists (venv_dir p) w) eqn:Hskip.
  - intros [= <- <-]. reflexivity.
  - apply orb_false_iff in Hskip as [Hd Hv]. simpl.
    destruct Hor as [Hdry | Hsound]; [congruence|].
    destruct (run_process _ _ _) as [[out f']|] eqn:Hrun; [|discriminate].
    intros [= <- <-].
    destruct (Hsound _ _ _ _ Hrun) as [_ Hframe].
    unfold os_path_isdir. simpl. rewrite Hframe; [reflexivity|].
    apply string_prefix_longer. pose proof (venv_dir_longer p). lia.
Qed.

Lemma bootstrap_again p r w :
  os_path_isdir p w = true ->
  dry_run r || os_path_exists (venv_dir p) w = true ->
  create_env p (with_env_path (Some p) r, w) =
    (Ok tt, (with_env_path (Some p) r, w)).
Proof.
  intros Hdir Hskip. rewrite create_env_eq.
  unfold os_path_isdir in Hdir.
  destruct (fs w !! p) as [[? ?|?]|] eqn:Hp; try discriminate.
  unfold bootstrap. simpl. rewrite Hskip. reflexivity.
Qed.

Lemma bootstrap_events p r w :
  exists l, trace (snd (snd (bootstrap p r w))) = trace w ++ l.
Proof.
  unfold bootstrap.
  destruct (dry_run r || os_path_exists (venv_dir p) w); simpl.
  - exists []. rewrite app_nil_r. reflexivity.
  - destruct (run_process _ _ _) as [[out f']|]; simpl; eauto.
Qed.

(** C8, as the code has it: [create_env] on a path that exists and is
    no directory raises the [RunnerError] of the path conflict and
    leaves the world as it was (nothing is created).  On an absent path
    that is empty or lies under a regular file it raises the [OSError]
    of the directory creation, and nothing is created either.  On any
    other absent path it first creates the directory with its missing
    parents: the call returns in dry-run mode, and where it returns (in
    dry-run mode, or with a sound venv tool) the path and the
    directories above it are directories.  After a successful call a
    second call changes nothing, the venv being bootstrapped once, only
    when its directory was missing. *)
Theorem create_env_contract p r w :
  (os_path_exists p w = true -> os_path_isdir p w = false ->
   create_env p (r, w) =
     (Raise (RunnerError ("Unable to create environment " +:+ p)), (r, w))) /\
  (os_path_exists p w = false -> mkdir_blocked p (fs w) = true ->
   create_env p (r, w) = (Raise OSError, (r, w))) /\
  (os_path_exists p w = false -> mkdir_blocked p (fs w) = false ->
   let w' := snd (snd (create_env p (r, w))) in
   (exists evs, new_events w w' = EvMkdir p :: evs) /\
   (dry_run r = true -> fst (create_env p (r, w)) = Ok tt) /\
   (dry_run r = true \/ venv_tool_sound r ->
    fst (create_env p (r, w)) = Ok tt ->
    os_path_isdir p w' = true /\
    Forall (fun d => os_path_isdir d w' = true) (ancestors p))) /\
  (venv_tool_sound r ->
   forall r1 w1,
     create_env p (r, w) = (Ok tt, (r1, w1)) ->
     create_env p (r1, w1) = (Ok tt, (r1, w1)) /\
     count_venv_bootstraps (new_events w w1) =
       (if dry_run r || os_path_exists (venv_dir p) w then 0 else 1)%nat).
Proof.
  split; [|split; [|split]].
  - unfold os_path_exists, os_path_isdir. intros Hex Hnd.
    rewrite create_env_eq.
    destruct (fs w !! p) as [[c t|t]|]; [reflexivity | discriminate |].
    apply bool_decide_eq_true in Hex. destruct Hex; discriminate.
  - intros Hp%os_path_exists_false Hb. rewrite create_env_eq, Hp, Hb.
    reflexivity.
  - intros Hp%os_path_exists_false Hb. rewrite create_env_eq, Hp, Hb.
    destruct (after_mkdir_dirs p w Hp Hb) as (Hdm & Hanc & _ & Htr).
    split; [|split].
    + destruct (bootstrap_events p r (after_mkdir p w)) as [l Hl].
      exists l. apply new_events_app. rewrite Hl, Htr, <- app_assoc.
      reflexivity.
    + intros Hd. unfold bootstrap. rewrite Hd. reflexivity.
    + intros Hor Hok.
      destruct (bootstrap p r (after_mkdir p w)) as [o [r1 w1]] eqn:Hb1.
      simpl in Hok. subst o. simpl. split.
      * rewrite (bootstrap_keeps_dir p r _ r1 w1 p Hor (Nat.le_refl _) Hb1).
        exact Hdm.
      * apply Forall_forall. intros d Hd.
        assert (Hlen : (String.length d <= String.length p)%nat)
          by (apply ancestors_shorter in Hd; lia).
        rewrite (bootstrap_keeps_dir p r _ r1 w1 d Hor Hlen Hb1).
        rewrite Forall_forall in Hanc. exact (Hanc d Hd).
  - intros Hsound r1 w1. rewrite create_env_eq.
    destruct (fs w !! p) as [[c t|t]|] eqn:Hp; [discriminate | |].
    + intros Hb.
      assert (Hd : os_path_isdir p w = true)
        by (unfold os_path_isdir; rewrite Hp; reflexivity).
      destruct (bootstrap_ok p r w r1 w1 Hsound Hd Hb)
        as (-> & Hd1 & Hskip & l & Ht & Hcount).
      split; [exact (bootstrap_again p r w1 Hd1 Hskip)|].
      rewrite (new_events_app _ _ _ Ht). exact Hcount.
    + destruct (mkdir_blocked p (fs w)) eqn:Hblk; [discriminate|].
      destruct (after_mkdir_dirs p w Hp Hblk) as (Hd & _ & Hv & Htr).
      intros Hb.
      destruct (bootstrap_ok p r _ r1 w1 Hsound Hd Hb)
        as (-> & Hd1 & Hskip & l & Ht & Hcount).
      split; [exact (bootstrap_again p r w1 Hd1 Hskip)|].
      rewrite Hv in Hcount.
      rewrite (new_events_app w w1 (EvMkdir p :: l)).
      * exact Hcount.
      * rewrite Ht, Htr, <- app_assoc. reflexivity.
Qed.
End CreateEnvContract.

Lemma prefix_append_l2 (s a b : string) :
  String.prefix s ((s +:+ a) +:+ b) = true.
Proof.
  induction s as [|c s IH]; simpl.
  - destruct (("" +:+ a) +:+ b); reflexivity.
  - destruct (ascii_dec c c); [exact IH | contradiction].
Qed.

Lemma prefix_activate (target : string) :
  String.prefix target (path_join target ["bin"; "activate"]) = true.
Proof.
  unfold path_join, path_join2; simpl.
  destruct (bool_decide (target = "") || ends_with_slash target);
    match goal with |- context [if ?b then _ else _] => destruct b end;
    apply prefix_append_l2.
Qed.

Lemma demo_tools_venv_sound v dry path s inst :
  @venv_tool_sound (demo_tools v) (demo_runner dry path s inst).
Proof.
  intros target f out f'. simpl. intros [= <- <-]. split.
  - rewrite lookup_insert. case_decide; [eauto|].
    rewrite lookup_insert_eq. eauto.
  - intros q Hq.
    rewrite lookup_insert_ne.
    + rewrite lookup_insert_ne; [reflexivity|].
      intros ->. rewrite prefix_refl in Hq. discriminate.
    + intros <-. rewrite prefix_activate in Hq. discriminate.
Qed.

Lemma create_env_contract_witness :
  let T := demo_tools demo_version_line in
  let r := demo_runner false None ∅ false in
  let w := demo_world ∅ in
  let r1 := fst (snd (@create_env T "/env/a" (r, w))) in
  let w1 := snd (snd (@create_env T "/env/a" (r, w))) in
  @create_env T "/env/a" (r, w) = (Ok tt, (r1, w1)) /\
  (os_path_isdir "/env/a" w1 = true /\
   Forall (fun d => os_path_isdir d w1 = true) (ancestors "/env/a")) /\
  @create_env T "/env/a" (r1, w1) = (Ok tt, (r1, w1)) /\
  count_venv_bootstraps (new_events w w1) = 1%nat.
Proof.
  intros T r w r1 w1.
  pose proof (@create_env_contract T "/env/a" r w) as (_ & _ & Habsent & Hidem).
  assert (Hsound : @venv_tool_sound T r) by apply demo_tools_venv_sound.
  assert (Hrun : @create_env T "/env/a" (r, w) = (Ok tt, (r1, w1)))
    by (vm_compute; reflexivity).
  assert (Hex : os_path_exists "/env/a" w = false) by (vm_compute; reflexivity).
  assert (Hblk : mkdir_blocked "/env/a" (fs w) = false)
    by (vm_compute; reflexivity).
  assert (Hok : fst (@create_env T "/env/a" (r, w)) = Ok tt)
    by (vm_compute; reflexivity).
  split; [exact Hrun|].
  split; [exact (proj2 (proj2 (Habsent Hex Hblk)) (or_intror Hsound) Hok)|].
  exact (Hidem Hsound r1 w1 Hrun).
Defined.

(** C8 as the spec states it fails: a path under a regular file is
    absent, yet [create_env] creates no directory tree.  The directory
    creation raises, with an error that is not the path conflict of the
    runner, and the filesystem stays as it was. *)
Lemma create_env_under_regular_file_counterexample :
  let T := demo_tools demo_version_line in
  let r := demo_runner false None ∅ false in
  let w := demo_world (<["/env/a" := File "x" 0]> (<["/env" := Dir 0]> ∅)) in
  os_path_exists "/env/a/sub" w = false /\
  @create_env T "/env/a/sub" (r, w) = (Raise OSError, (r, w)) /\
  is_ramble_error OSError = false /\
  os_path_isdir "/env/a/sub" (snd (snd (@create_env T "/env/a/sub" (r, w))))
    = false.
Proof. vm_compute. repeat split; reflexivity. Qed.

Example create_env_on_regular_file :
  let T := demo_tools demo_version_line in
  let r := demo_runner false None ∅ false in
  let w := demo_world (<["/env/a" := File "x" 0]> ∅) in
  @create_env T "/env/a" (r, w) =
    (Raise (RunnerError "Unable to create environment /env/a"), (r, w)).
Proof. vm_compute. reflexivity. Qed.

Example create_env_makes_parents :
  let T := demo_tools demo_version_line in
  let r := demo_runner true None ∅ false in
  let w := demo_world ∅ in
  fs (snd (snd (@create_env T "/env/a" (r, w)))) =
    <["/env/a" := Dir 5]> (<["/env" := Dir 5]> ∅).
Proof. vm_compute. reflexivity. Qed.

Example create_env_empty_path :
  let T := demo_tools demo_version_line in
  let r := demo_runner true None ∅ false in
  let w := demo_world ∅ in
  @create_env T "" (r, w) = (Raise OSError, (r, w)).
Proof. vm_compute. reflexivity. Qed.

(** ** Dry-run mode *)

Lemma no_exec_refl w : no_exec w w.
Proof. exists []. rewrite app_nil_r. split; [reflexivity | constructor]. Qed.

Section DryRun.
Context `{ExternalTools}.

Lemma install_dry_run r w :
  dry_run r = true ->
  installed r = false ->
  install (r, w) =
    if configured r w then
      if os_path_exists (req_path r) w then
        (Ok tt,
         (with_installed true r,
          World (fs w) (now w)
            (trace w ++
             [EvDryRun (exe_path (bs_python r))
                (default_args (bs_python r) ++ pip_argv r "install");
              EvDryRun (exe_path (bs_python r))
                (default_args (bs_python r) ++ pip_argv r "freeze")])))
      else (Raise (RunnerError (req_path r +:+ " does not exist")), (r, w))
    else (Raise (RunnerError (check_message r)), (r, w)).
Proof.
  intros Hd Hi. unfold install. unfold bind at 1.
  rewrite check_env_configured_eq.
  destruct (configured r w) eqn:Hc; [|reflexivity].
  assert (Hset : path_is_set (env_path r) = true).
  { unfold configured in Hc. apply andb_true_iff in Hc. tauto. }
  unfold bind at 1. simpl. rewrite Hi.
  unfold bind at 1. rewrite env_join_set by assumption.
  fold (req_path r).
  unfold bind at 1. simpl.
  destruct (os_path_exists (req_path r) w); simpl; [|reflexivity].
  unfold _get_venv_python.
  unfold bind, get_runner, _dry_run_print, in_world, update_runner, ret,
    emit, pip_argv; simpl.
  rewrite Hd. simpl. rewrite <- !app_assoc. reflexivity.
Qed.

End DryRun.


Example dry_run_writes_requirement_file :
  let r := demo_runner true demo_env {["requests"]} false in
  let w := demo_world (<["/env/a" := Dir 0]> ∅) in
  generate_requirement_file (r, w) =
    (Ok tt, (r, written (req_path r) (_generate_requirement_content r) w)).
Proof. vm_compute. reflexivity. Qed.

(** In dry-run mode after [configure_env] alone, the environment
    directory is not there and the file cannot be opened. *)
Example dry_run_write_needs_directory :
  let r := demo_runner true demo_env {["requests"]} false in
  let w := demo_world ∅ in
  generate_requirement_file (r, w) = (Raise OSError, (r, w)).
Proof. vm_compute. reflexivity. Qed.


(** ** The serialization of the spec set *)

Lemma with_specs_same r : with_specs (specs r) r = r.
Proof. destruct r; reflexivity. Qed.





Example requirement_content_of_empty_set :
  _generate_requirement_content (demo_runner true demo_env ∅ false) = linesep.
Proof. vm_compute. reflexivity. Qed.

Example sorted_by_byte_order :
  sorted {["b"; "a"; "B"; "a1"; "a-"]} = ["B"; "a"; "a-"; "a1"; "b"].
Proof. vm_compute. reflexivity. Qed.

(** ** The inventory digest *)

Section Inventory.
Context `{Hashing}.

(** C6: on a configured runner [inventory_hash] returns, in dry-run
    mode, the digest of the computed requirement content, whether or
    not it was written: a non-empty value that is the same for all
    runners with the same spec set; outside dry-run mode it returns the
    digest of the content of the lock file. *)
Theorem inventory_hash_digest r w :
  configured r w = true ->
  (dry_run r = true ->
   inventory_hash (r, w) =
     (Ok (digest (_generate_requirement_content r)), (r, w)) /\
   digest (_generate_requirement_content r) <> "" /\
   forall r' w',
     configured r' w' = true -> dry_run r' = true -> specs r' = specs r ->
     fst (inventory_hash (r', w')) = fst (inventory_hash (r, w))) /\
  (dry_run r = false ->
   forall c t,
     fs w !! lock_path r = Some (File c t) ->
     inventory_hash (r, w) = (Ok (digest c), (r, w))).
Proof.
  intros Hc. split.
  - intros Hd. rewrite inventory_hash_eq, Hc, Hd.
    split; [reflexivity|]. split; [apply digest_nonempty|].
    intros r' w' Hc' Hd' Hs. rewrite inventory_hash_eq, Hc', Hd'. simpl.
    unfold _generate_requirement_content. rewrite Hs. reflexivity.
  - intros Hd c t Hl. rewrite inventory_hash_eq, Hc, Hd, Hl. reflexivity.
Qed.
End Inventory.

Lemma inventory_hash_digest_witness :
  let r := demo_runner true demo_env {["requests"]} false in
  let w := demo_world ∅ in
  configured r w = true /\
  dry_run r = true /\
  @inventory_hash demo_hashing (r, w) =
    (Ok ("sha256:" +:+ "requests" +:+ linesep), (r, w)).
Proof.
  intros r w.
  assert (Hc : configured r w = true) by reflexivity.
  split; [exact Hc|]. split; [reflexivity|].
  exact (proj1 (proj1 (@inventory_hash_digest demo_hashing r w Hc) eq_refl)).
Defined.

Example inventory_hash_of_lock_file :
  let r := demo_runner false demo_env {["requests"]} true in
  let w := demo_world
             (<["/env/a/requirements.lock" := File "requests==2.31.0" 2]>
                (demo_fs_fresh ("requests" +:+ linesep))) in
  @inventory_hash demo_hashing (r, w) =
    (Ok "sha256:requests==2.31.0", (r, w)).
Proof. vm_compute. reflexivity. Qed.

(** ** The phases and the workspace cache *)

Lemma keeps_workspace_ret {A} (a : A) : keeps_workspace (ret a).
Proof. intros st. reflexivity. Qed.

Lemma keeps_workspace_on_runner {A} (m : M rstate A) :
  keeps_workspace (on_runner m).
Proof. intros [ws s]. unfold on_runner. simpl. destruct (m s). reflexivity. Qed.

Lemma keeps_workspace_of_outcome {A} (o : outcome A) :
  keeps_workspace (of_outcome (S := pstate) o).
Proof. intros st. reflexivity. Qed.

Lemma keeps_workspace_get : keeps_workspace get_workspace.
Proof. intros st. reflexivity. Qed.

Lemma keeps_workspace_bind {A B} (m : M pstate A) (k : A -> M pstate B) :
  keeps_workspace m -> (forall a, keeps_workspace (k a)) ->
  keeps_workspace (bind m k).
Proof.
  intros Hm Hk st. unfold bind. specialize (Hm st).
  destruct (m st) as [[a|e] st']; simpl in *; [|exact Hm].
  rewrite Hk. exact Hm.
Qed.

Lemma keeps_workspace_for_each {A} (l : list A) (body : A -> M pstate unit) :
  (forall a, keeps_workspace (body a)) -> keeps_workspace (for_each l body).
Proof.
  intros Hb. induction l as [|a l IH]; simpl.
  - apply keeps_workspace_ret.
  - apply keeps_workspace_bind; [apply Hb | intros _; exact IH].
Qed.

Section PhaseCache.
Context `{ExternalTools}.

Lemma phase_body_keeps_workspace ph app p : keeps_workspace (phase_body ph app p).
Proof.
  destruct ph; simpl.
  - unfold create_env_body.
    apply keeps_workspace_bind; [apply keeps_workspace_get | intros ws].
    apply keeps_workspace_bind; [apply keeps_workspace_on_runner | intros _].
    apply keeps_workspace_bind; [apply keeps_workspace_on_runner | intros _].
    apply keeps_workspace_bind; [apply keeps_workspace_of_outcome | intros [l|]].
    + apply keeps_workspace_bind; [|intros _; apply keeps_workspace_on_runner].
      apply keeps_workspace_for_each. intros a. apply keeps_workspace_on_runner.
    + apply keeps_workspace_ret.
  - unfold install_body, when.
    destruct (environment_required app); [|apply keeps_workspace_ret].
    apply keeps_workspace_bind; [apply keeps_workspace_get | intros ws].
    apply keeps_workspace_bind; [apply keeps_workspace_on_runner | intros _].
    apply keeps_workspace_bind; [apply keeps_workspace_on_runner | intros _].
    apply keeps_workspace_on_runner.
Qed.

Lemma run_phase_eq ph app st :
  run_phase ph app st =
    match phase_key ph app with
    | None => (Raise (ApplicationError "Ramble env_path is set to None"), st)
    | Some k =>
        if check_cache k (fst st) then (Ok tt, st)
        else phase_body ph app (snd k) (add_to_cache k (fst st), snd st)
    end.
Proof.
  destruct st as [ws s]. unfold phase_key.
  destruct ph; simpl; unfold _software_create_env, _software_install;
    destruct (path_is_set (expander_env_path app)); simpl; try reflexivity;
    unfold bind at 1; simpl;
    match goal with |- context [check_cache ?k ws] =>
      destruct (check_cache k ws) end; reflexivity.
Qed.
End PhaseCache.

Section PhaseOnce.
Context `{ExternalTools}.

Lemma run_phase_skips ph app st :
  body_runs ph app st = None -> snd (run_phase ph app st) = st.
Proof.
  unfold body_runs. rewrite run_phase_eq.
  destruct (phase_key ph app) as [k|]; [|reflexivity].
  destruct (check_cache k (fst st)); [reflexivity | discriminate].
Qed.

Lemma run_phase_registers ph app st k :
  body_runs ph app st = Some k ->
  run_phase ph app st =
    phase_body ph app (snd k) (add_to_cache k (fst st), snd st) /\
  fst (snd (run_phase ph app st)) = add_to_cache k (fst st).
Proof.
  unfold body_runs. rewrite run_phase_eq.
  destruct (phase_key ph app) as [k'|]; [|discriminate].
  destruct (check_cache k' (fst st)); [discriminate|].
  intros [= ->]. split; [reflexivity|].
  apply (phase_body_keeps_workspace ph app (snd k)).
Qed.

Lemma run_phase_cache_grows ph app st :
  cache (fst st) ⊆ cache (fst (snd (run_phase ph app st))).
Proof.
  destruct (body_runs ph app st) as [k|] eqn:Hb.
  - destruct (run_phase_registers ph app st k Hb) as [_ ->].
    simpl. apply union_subseteq_l.
  - rewrite (run_phase_skips ph app st Hb). reflexivity.
Qed.

Lemma orchestrate_keys calls st :
  NoDup (fst (orchestrate calls st)) /\
  forall k, k ∈ fst (orchestrate calls st) -> k ∉ cache (fst st).
Proof.
  revert st. induction calls as [|[ph app] rest IH]; intros st; simpl.
  - split; [constructor | intros k Hk; inversion Hk].
  - specialize (IH (snd (run_phase ph app st))).
    destruct (orchestrate rest (snd (run_phase ph app st))) as [ks st''].
    simpl in *. destruct IH as [Hnd Hfresh].
    pose proof (run_phase_cache_grows ph app st) as Hgrow.
    destruct (body_runs ph app st) as [k|] eqn:Hb.
    + destruct (run_phase_registers ph app st k Hb) as [_ Hws].
      assert (Hin : k ∈ cache (fst (snd (run_phase ph app st)))).
      { rewrite Hws. simpl. apply elem_of_union_r, elem_of_singleton.
        reflexivity. }
      split.
      * constructor; [|exact Hnd]. intros Hk. exact (Hfresh k Hk Hin).
      * intros k' [->|Hk']%elem_of_cons.
        -- unfold body_runs in Hb.
           destruct (phase_key ph app) as [k'|]; [|discriminate].
           unfold check_cache in Hb. case_bool_decide; [discriminate|].
           injection Hb as <-. assumption.
        -- intros Hc. apply (Hfresh k' Hk'). apply Hgrow. exact Hc.
    + split; [exact Hnd|].
      intros k' Hk' Hc. apply (Hfresh k' Hk'). apply Hgrow. exact Hc.
Qed.

(** C7: for both phases, a call whose key is in the cache returns at
    once and leaves workspace, runner and world as they were; a call
    whose key is not in the cache first registers the key and then
    executes the phase body, so the key is in the cache whatever the
    body does; and within one run no key has its body executed twice. *)
Theorem phase_body_runs_at_most_once ph app st :
  (forall k, phase_key ph app = Some k -> check_cache k (fst st) = true ->
   run_phase ph app st = (Ok tt, st)) /\
  (forall k, phase_key ph app = Some k -> check_cache k (fst st) = false ->
   run_phase ph app st =
     phase_body ph app (snd k) (add_to_cache k (fst st), snd st) /\
   check_cache k (fst (snd (run_phase ph app st))) = true) /\
  (forall calls,
     NoDup (fst (orchestrate calls st)) /\
     forall k, k ∈ fst (orchestrate calls st) -> check_cache k (fst st) = false).
Proof.
  split; [|split].
  - intros k Hk Hc. rewrite run_phase_eq, Hk, Hc. reflexivity.
  - intros k Hk Hc.
    assert (Hb : body_runs ph app st = Some k).
    { unfold body_runs. rewrite Hk, Hc. reflexivity. }
    destruct (run_phase_registers ph app st k Hb) as [Hrun Hws].
    split; [exact Hrun|]. rewrite Hws.
    unfold check_cache. apply bool_decide_eq_true. simpl.
    apply elem_of_union_r, elem_of_singleton. reflexivity.
  - intros calls. destruct (orchestrate_keys calls st) as [Hnd Hfresh].
    split; [exact Hnd|]. intros k Hk.
    unfold check_cache. apply bool_decide_eq_false. exact (Hfresh k Hk).
Qed.
End PhaseOnce.

Lemma phase_body_runs_at_most_once_witness :
  let T := demo_tools demo_version_line in
  let r := demo_runner false None ∅ false in
  let st := (demo_workspace {[("pip-env", "/env/a")]}, (r, demo_world ∅)) in
  phase_key SoftwareCreateEnv demo_app = Some ("pip-env", "/env/a") /\
  check_cache ("pip-env", "/env/a") (fst st) = true /\
  @run_phase T SoftwareCreateEnv demo_app st = (Ok tt, st).
Proof.
  intros T r st.
  assert (Hk : phase_key SoftwareCreateEnv demo_app = Some ("pip-env", "/env/a"))
    by reflexivity.
  assert (Hc : check_cache ("pip-env", "/env/a") (fst st) = true)
    by (vm_compute; reflexivity).
  split; [exact Hk|]. split; [exact Hc|].
  exact (proj1 (@phase_body_runs_at_most_once T SoftwareCreateEnv demo_app st)
           _ Hk Hc).
Defined.

Example orchestrate_repeated_phases :
  let T := demo_tools demo_version_line in
  let r := demo_runner false None ∅ false in
  let st := (demo_workspace ∅, (r, demo_world ∅)) in
  let calls := [(SoftwareCreateEnv, demo_app); (SoftwareInstall, demo_app);
                (SoftwareCreateEnv, demo_app); (SoftwareInstall, demo_app)] in
  fst (@orchestrate T calls st) =
    [("pip-env", "/env/a"); ("pip-install", "/env/a")] /\
  count_pip_installs (trace (snd (snd (snd (@orchestrate T calls st))))) = 1%nat.
Proof. vm_compute. split; reflexivity. Qed.

(** ** The version query *)

Section Version.
Context `{ExternalTools}.

Lemma get_venv_python_eq r w :
  path_is_set (env_path r) = true \/ dry_run r = true ->
  _get_venv_python (r, w) =
    (Ok (if dry_run r then bs_python r
         else {| exe_path := venv_python r; default_args := [] |}), (r, w)).
Proof.
  intros Hok. unfold _get_venv_python, bind, get_runner. simpl.
  destruct (dry_run r); [reflexivity|].
  destruct Hok as [Hset|]; [|discriminate].
  rewrite env_join_set by assumption. reflexivity.
Qed.

(** C9, what the code does: [get_version] returns the version token
    when the output of the version query holds the pattern; when it
    does not, the call ends in the [AttributeError] of [None.group],
    which is no error of Ramble's hierarchy and carries no output. *)
Theorem get_version_on_output r w exe out f' :
  _get_venv_python (r, w) = (Ok exe, (r, w)) ->
  run_process (exe_path exe) (default_args exe ++ ["-m"; "pip"; "--version"])
    (fs w) = Some (out, f') ->
  let w' := set_fs f' (emit (EvExec (exe_path exe)
                 (default_args exe ++ ["-m"; "pip"; "--version"])) w) in
  (forall v, re_search_version out = Some v ->
     get_version (r, w) = (Ok v, (r, w'))) /\
  (re_search_version out = None ->
     get_version (r, w) = (Raise (AttributeError none_group_message), (r, w')) /\
     is_ramble_error (AttributeError none_group_message) = false).
Proof.
  intros Hpy Hrun w'.
  assert (Heq : get_version (r, w) =
            match re_search_version out with
            | Some v => (Ok v, (r, w'))
            | None => (Raise (AttributeError none_group_message), (r, w'))
            end).
  { unfold get_version. unfold bind at 1. rewrite Hpy.
    unfold bind at 1. unfold call, in_world. cbn -[re_search_version].
    rewrite Hrun. cbn -[re_search_version].
    destruct (re_search_version out); reflexivity. }
  rewrite Heq. split.
  - intros v Hv. rewrite Hv. reflexivity.
  - intros Hv. rewrite Hv. split; reflexivity.
Qed.
End Version.

Lemma get_version_on_output_witness :
  let T := demo_tools demo_bad_version_line in
  let r := demo_runner false demo_env {["requests"]} true in
  let w := demo_world (demo_fs ("requests" +:+ linesep) 1 2) in
  re_search_version demo_bad_version_line = None /\
  exists w',
    @get_version T (r, w) =
      (Raise (AttributeError none_group_message), (r, w')) /\
    is_ramble_error (AttributeError none_group_message) = false.
Proof.
  intros T r w. split; [vm_compute; reflexivity|].
  eexists.
  refine (proj2 (@get_version_on_output T r w
            {| exe_path := venv_python r; default_args := [] |}
            demo_bad_version_line (fs w) _ _) _).
  - vm_compute; reflexivity.
  - vm_compute; reflexivity.
  - vm_compute; reflexivity.
Defined.

Example get_version_of_pip_24 :
  let T := demo_tools demo_version_line in
  let r := demo_runner false demo_env {["requests"]} true in
  let w := demo_world (demo_fs ("requests" +:+ linesep) 1 2) in
  fst (@get_version T (r, w)) = Ok "24.0".
Proof. vm_compute. reflexivity. Qed.

Example re_search_version_leftmost :
  re_search_version "pip  from pip 9.1 from x pip 10 from y" = Some "9.1".
Proof. vm_compute. reflexivity. Qed.

Example re_search_version_needs_digits :
  re_search_version "pip x.y from /usr/lib" = None.
Proof. vm_compute. reflexivity. Qed.

(** ** Installing in real mode *)

Section InstallReal.
Context `{ExternalTools}.

Lemma install_real_eq r w :
  dry_run r = false ->
  installed r = false ->
  install (r, w) = install_real r w.
Proof.
  intros Hd Hi. unfold install, install_real, pip_argv. unfold bind at 1.
  rewrite check_env_configured_eq.
  destruct (configured r w) eqn:Hc; [|reflexivity].
  assert (Hset : path_is_set (env_path r) = true).
  { unfold configured in Hc. apply andb_true_iff in Hc. tauto. }
  unfold bind at 1. simpl. rewrite Hi.
  unfold bind at 1. rewrite env_join_set by assumption.
  fold (req_path r).
  unfold bind at 1. simpl.
  destruct (os_path_exists (req_path r) w) eqn:Hex; simpl; [|reflexivity].
  unfold _get_venv_python.
  unfold bind at 1. unfold bind at 1. unfold bind at 1.
  unfold get_runner at 1. simpl. rewrite Hd.
  unfold bind at 1. rewrite env_join_set by assumption.
  fold (venv_python r). unfold ret at 1.
  unfold bind at 1. unfold call at 1, in_world at 1. simpl.
  destruct (run_process _ _ _) as [[out1 f1]|] eqn:Hr1; [|reflexivity].
  unfold bind at 1. rewrite env_join_set by assumption.
  fold (lock_path r).
  unfold bind at 1. unfold in_world at 1, write_file at 1. cbn [snd fst].
  match goal with
  | |- context [can_open_for_writing ?p ?x] =>
      destruct (can_open_for_writing p x) eqn:Hl1
  end; [|reflexivity].
  unfold bind at 1; unfold call at 1, in_world at 1; simpl.
  unfold written; simpl.
  destruct (run_process _ ["-m"; "pip"; "freeze"; _; _] _)
    as [[out2 f2]|] eqn:Hr2; simpl; [|reflexivity].
  unfold in_world at 1, write_file at 1. cbn [snd fst].
  repeat match goal with
  | |- context [can_open_for_writing (lock_path r) (set_fs f2 ?x)] =>
      lazymatch x with
      | w => fail
      | _ => rewrite (can_open_for_writing_fs (lock_path r)
                        (set_fs f2 x) (set_fs f2 w) eq_refl)
      end
  end.
  destruct (can_open_for_writing (lock_path r) (set_fs f2 w)) eqn:Hl2.
  all: unfold bind, update_runner, emit, set_fs; simpl.
  all: rewrite <- ?app_assoc; reflexivity.
Qed.

(** The runner after [install] is the runner before it, marked
    installed when the call returned and unchanged when it raised. *)
Lemma install_runner r w :
  fst (snd (install (r, w))) =
    match fst (install (r, w)) with
    | Ok _ => with_installed true r
    | Raise _ => r
    end.
Proof.
  destruct (installed r) eqn:Hi.
  - rewrite install_installed by assumption.
    destruct (configured r w); simpl; [|reflexivity].
    destruct r; simpl in *; subst; reflexivity.
  - destruct (dry_run r) eqn:Hd.
    + rewrite install_dry_run by assumption.
      destruct (configured r w); [|reflexivity].
      destruct (os_path_exists (req_path r) w); reflexivity.
    + rewrite install_real_eq by assumption. unfold install_real.
      destruct (configured r w); [|reflexivity].
      destruct (os_path_exists (req_path r) w); [|reflexivity].
      destruct (run_process _ _ _) as [[out1 f1]|]; [|reflexivity].
      cbv zeta.
      destruct (can_open_for_writing _ _); [|reflexivity].
      destruct (run_process _ _ _) as [[out2 f2]|]; [|reflexivity].
      destruct (can_open_for_writing _ _); reflexivity.
Qed.

(** What a real-mode [install] that returned has done. *)
Lemma install_real_ok r w r1 w1 :
  dry_run r = false ->
  installed r = false ->
  install (r, w) = (Ok tt, (r1, w1)) ->
  exists out1 f1 out2 f2,
    run_process (venv_python r) (pip_argv r "install") (fs w)
      = Some (out1, f1) /\
    run_process (venv_python r) (pip_argv r "freeze")
      (<[lock_path r := File "" (now w)]> f1) = Some (out2, f2) /\
    r1 = with_installed true r /\
    w1 = after_freeze r f1 f2 out2 w.
Proof.
  intros Hd Hi. rewrite install_real_eq by assumption. unfold install_real.
  destruct (configured r w); [|discriminate].
  destruct (os_path_exists (req_path r) w); [|discriminate].
  destruct (run_process _ _ (fs w)) as [[out1 f1]|] eqn:Hr1; [|discriminate].
  intros Hrun. exists out1, f1.
  assert (Hfr : exists out2 f2,
    run_process (venv_python r) (pip_argv r "freeze")
      (fs (written (lock_path r) ""
             (set_fs f1
                (emit (EvExec (venv_python r) (pip_argv r "install")) w))))
      = Some (out2, f2) /\
    r1 = with_installed true r /\ w1 = after_freeze r f1 f2 out2 w).
  { cbv zeta in Hrun.
    destruct (can_open_for_writing _ _); [|discriminate].
    destruct (run_process _ _ (fs (written _ _ _))) as [[out2 f2]|];
      [|discriminate].
    destruct (can_open_for_writing _ _); [|discriminate].
    injection Hrun as <- <-; exists out2, f2; repeat split; reflexivity. }
  destruct Hfr as (out2 & f2 & Hr2 & Hr & Hw).
  exists out2, f2. split; [reflexivity|]. split; [exact Hr2|].
  split; assumption.
Qed.

(** X1: On a runner that passes the configuration check and is not marked
    installed, [install] without a requirement file raises the
    [RunnerError] that names the file, in dry-run mode as in real mode,
    and leaves runner and world as they were: nothing is launched or
    recorded. *)
Theorem install_missing_requirement_file r w :
  configured r w = true ->
  installed r = false ->
  os_path_exists (req_path r) w = false ->
  install (r, w) =
    (Raise (RunnerError (req_path r +:+ " does not exist")), (r, w)).
Proof.
  intros Hc Hi Hex.
  destruct (dry_run r) eqn:Hd.
  - rewrite install_dry_run by assumption. rewrite Hc, Hex. reflexivity.
  - rewrite install_real_eq by assumption. unfold install_real.
    rewrite Hc, Hex. reflexivity.
Qed.

(** X2: [install] touches nothing of the runner but the installed flag,
    and it sets the flag only when it returns: after a call that
    raised, whatever the failure, the runner is the one before the
    call. *)
Theorem install_marks_only_on_success r w o r1 w1 :
  install (r, w) = (o, (r1, w1)) ->
  match o with
  | Ok _ => r1 = with_installed true r
  | Raise _ => r1 = r
  end.
Proof.
  intros Hrun. pose proof (install_runner r w) as Hr.
  rewrite Hrun in Hr. simpl in Hr. destruct o; exact Hr.
Qed.

(** X3: A real-mode [install] that returns has run the install process and
    then the freeze process on the requirement file, and the lock file
    holds the output of the freeze process, byte for byte, stamped with
    the time of the call. *)
Theorem install_writes_freeze_output r w r1 w1 :
  dry_run r = false ->
  installed r = false ->
  install (r, w) = (Ok tt, (r1, w1)) ->
  exists out1 f1 out2 f2,
    run_process (venv_python r) (pip_argv r "install") (fs w)
      = Some (out1, f1) /\
    run_process (venv_python r) (pip_argv r "freeze")
      (<[lock_path r := File "" (now w)]> f1) = Some (out2, f2) /\
    fs w1 !! lock_path r = Some (File out2 (now w)) /\
    read_file (lock_path r) w1 = Ok out2 /\
    (forall q, q <> lock_path r -> fs w1 !! q = f2 !! q) /\
    new_events w w1 =
      [EvExec (venv_python r) (pip_argv r "install");
       EvWrite (lock_path r) "";
       EvExec (venv_python r) (pip_argv r "freeze");
       EvWrite (lock_path r) out2].
Proof.
  intros Hd Hi Hrun.
  destruct (install_real_ok r w r1 w1 Hd Hi Hrun)
    as (out1 & f1 & out2 & f2 & Hr1 & Hr2 & _ & ->).
  exists out1, f1, out2, f2.
  split; [exact Hr1|]. split; [exact Hr2|].
  unfold after_freeze, before_freeze, written, read_file. simpl.
  rewrite lookup_insert_eq.
  split; [reflexivity|]. split; [reflexivity|]. split.
  - intros q Hq. apply lookup_insert_ne. congruence.
  - apply new_events_app. simpl. rewrite <- !app_assoc. reflexivity.
Qed.

(** X4: When the install process of a real-mode [install] succeeds and the
    freeze process fails, the call ends in [ProcessError] with the
    runner not marked installed.  The lock file was opened for writing
    before the freeze process ran: that process started on a lock file
    that is regular, empty and stamped with the time of the call, and
    the call leaves the filesystem as the failed process left it.  If
    there the lock file is still present and not older than the
    requirement file, the requirement file and the activate script are
    as before the call, and the requirement file reads as the computed
    content, then the next [generate_requirement_file] finds the
    environment up to date and marks the runner installed, with no
    freeze completed. *)
Theorem install_failed_freeze_leaves_lock_file r w out1 f1 c t :
  dry_run r = false ->
  installed r = false ->
  configured r w = true ->
  fs w !! req_path r = Some (File c t) ->
  run_process (venv_python r) (pip_argv r "install") (fs w)
    = Some (out1, f1) ->
  can_open_for_writing (lock_path r) (set_fs f1 w) = true ->
  run_process (venv_python r) (pip_argv r "freeze")
    (<[lock_path r := File "" (now w)]> f1) = None ->
  exists w1,
    install (r, w) = (Raise ProcessError, (r, w1)) /\
    fs w1 = failed_process (venv_python r) (pip_argv r "freeze")
              (<[lock_path r := File "" (now w)]> f1) /\
    (<[lock_path r := File "" (now w)]> f1) !! lock_path r
      = Some (File "" (now w)) /\
    (forall n,
       fs w1 !! lock_path r = Some n ->
       node_mtime n >= t ->
       fs w1 !! req_path r = fs w !! req_path r ->
       fs w1 !! activate_path r = fs w !! activate_path r ->
       utf8_valid c = true ->
       universal_newlines c = _generate_requirement_content r ->
       generate_requirement_file (r, w1) =
         (Ok tt, (with_installed true r, w1))).
Proof.
  intros Hd Hi Hc Hreq Hr1 Hopen Hr2.
  exists (set_fs (failed_process (venv_python r) (pip_argv r "freeze")
                    (<[lock_path r := File "" (now w)]> f1))
            (emit (EvExec (venv_python r) (pip_argv r "freeze"))
               (before_freeze r f1 w))).
  split; [|split; [reflexivity|split; [apply lookup_insert_eq|]]].
  - rewrite install_real_eq by assumption. unfold install_real.
    rewrite Hc.
    assert (Hex : os_path_exists (req_path r) w = true).
    { unfold os_path_exists. apply bool_decide_eq_true. rewrite Hreq. eauto. }
    rewrite Hex, Hr1. cbv zeta.
    match goal with
    | |- context [can_open_for_writing (lock_path r) ?x] =>
        rewrite (can_open_for_writing_fs (lock_path r) x (set_fs f1 w) eq_refl)
    end.
    rewrite Hopen. unfold before_freeze. simpl. rewrite Hr2. reflexivity.
  - set (w1 := set_fs _ _).
    intros n Hlock Hm Hkreq Hkact Hu Hcont.
    assert (Hc1 : configured r w1 = true).
    { unfold configured in Hc |- *. apply andb_true_iff in Hc as [Hset Hor].
      rewrite Hset. rewrite Hd in Hor |- *. cbn [orb andb] in Hor |- *.
      unfold os_path_exists in Hor |- *. rewrite Hkact. exact Hor. }
    assert (Hup : up_to_date_as_read r w1).
    { exists c, t, n. rewrite Hkreq. done. }
    destruct (generate_requirement_file_cases r w1 Hc1)
      as [[_ Hgen] | [(Hn & _) | (Hn & _)]];
      [exact Hgen | contradiction | contradiction].
Qed.

(** X5: Provisioning twice does not install twice.  After a real-mode
    [generate_requirement_file] and [install] have returned on a runner
    that was not marked installed, [generate_requirement_file] on any
    runner for the same environment with the same spec set - the fresh
    runner of a later run - writes nothing and marks that runner
    installed, provided the external tools have left the requirement
    file alone and the computed content reads back as it is written
    (it is text without carriage return). *)
Theorem provisioning_round_trip r w r1 w1 r2 w2 r' :
  dry_run r = false ->
  installed r = false ->
  pip_keeps_requirement_file r ->
  reads_back (_generate_requirement_content r) = true ->
  generate_requirement_file (r, w) = (Ok tt, (r1, w1)) ->
  install (r1, w1) = (Ok tt, (r2, w2)) ->
  env_path r' = env_path r ->
  specs r' = specs r ->
  configured r' w2 = true ->
  installed r2 = true /\
  generate_requirement_file (r', w2) = (Ok tt, (with_installed true r', w2)).
Proof.
  intros Hd Hi Hkeep Hback Hgen Hinst Hpath Hspecs Hc'.
  apply andb_true_iff in Hback as [Hvalid Hnl].
  apply bool_decide_eq_true in Hnl.
  assert (Hsame : forall w0, up_to_date_as_read r w0 ->
                             up_to_date_as_read r' w0).
  { intros w0 (c & t & n & H1 & H2 & H3 & H4 & H5). exists c, t, n.
    unfold req_path, lock_path, env_file, _generate_requirement_content in *.
    rewrite Hpath, Hspecs. auto. }
  assert (Hgoal : installed r2 = true /\ up_to_date_as_read r w2).
  { destruct (configured r w) eqn:Hc.
    2:{ rewrite generate_not_configured in Hgen by assumption. discriminate. }
    destruct (env_files_distinct r) as (Hrl & _ & _).
    destruct (generate_requirement_file_cases r w Hc)
      as [[Hup Hg] | [(Hn & _ & _ & Hg) | (Hn & e & Hg & _)]];
      rewrite Hg in Hgen; try discriminate; injection Hgen as <- <-.
    - rewrite install_installed in Hinst by reflexivity.
      destruct (configured (with_installed true r) w); [|discriminate].
      injection Hinst as <- <-. split; [reflexivity | exact Hup].
    - destruct (install_real_ok r _ r2 w2 Hd Hi Hinst)
        as (out1 & f1 & out2 & f2 & Hr1 & Hr2 & -> & ->).
      split; [reflexivity|].
      exists (_generate_requirement_content r), (now w),
             (File out2 (now w)).
      unfold after_freeze, before_freeze, written. simpl.
      split; [|split; [|split; [|split]]].
      + rewrite lookup_insert_ne by congruence.
        rewrite (Hkeep _ _ _ _ Hr2).
        rewrite lookup_insert_ne by congruence.
        simpl in Hr1. rewrite (Hkeep _ _ _ _ Hr1).
        apply lookup_insert_eq.
      + apply lookup_insert_eq.
      + simpl. lia.
      + exact Hvalid.
      + exact Hnl. }
  destruct Hgoal as [Hi2 Hup]. split; [exact Hi2|].
  destruct (generate_requirement_file_cases r' w2 Hc')
    as [[_ Hg] | [(Hn & _) | (Hn & _)]];
    [exact Hg | exfalso; exact (Hn (Hsame _ Hup))
     | exfalso; exact (Hn (Hsame _ Hup))].
Qed.

(** X6: The installed flag does not tell a dry run from a real run: in
    dry-run mode [install] launches nothing and still marks the runner
    installed, so after the switch to real mode a further [install] on
    the same runner changes nothing, and the three calls together
    launch no process. *)
Theorem dry_run_install_blocks_real_install r w :
  dry_run r = true ->
  no_exec w (snd (snd (dry_then_real_install (r, w)))) /\
  forall r1 w1,
    install (r, w) = (Ok tt, (r1, w1)) ->
    installed r1 = true /\
    snd (dry_then_real_install (r, w)) = (with_dry_run false r1, w1).
Proof.
  intros Hd.
  assert (Hfirst : no_exec w (snd (snd (install (r, w)))) /\
            (fst (install (r, w)) = Ok tt ->
             installed (fst (snd (install (r, w)))) = true)).
  { destruct (installed r) eqn:Hi.
    - rewrite install_installed by assumption.
      destruct (configured r w); simpl; (split; [apply no_exec_refl|]);
        [intros _; exact Hi | discriminate].
    - rewrite install_dry_run by assumption.
      destruct (configured r w); [destruct (os_path_exists (req_path r) w)|];
        simpl; split; try apply no_exec_refl; try discriminate.
      + eexists. split; [reflexivity|]. repeat constructor.
      + reflexivity. }
  destruct Hfirst as [Hne Hmark].
  assert (Hcomp : forall r1 w1,
            install (r, w) = (Ok tt, (r1, w1)) ->
            snd (dry_then_real_install (r, w)) = (with_dry_run false r1, w1)).
  { intros r1 w1 Hrun. unfold dry_then_real_install.
    unfold bind at 1. rewrite Hrun.
    unfold bind at 1. unfold set_dry_run, update_runner. simpl.
    assert (Hi1 : installed (with_dry_run false r1) = true).
    { rewrite Hrun in Hmark. simpl in *. auto. }
    rewrite (install_installed _ w1 Hi1).
    destruct (configured (with_dry_run false r1) w1); reflexivity. }
  split.
  - destruct (install (r, w)) as [[[]|e] [r1 w1]] eqn:Hrun.
    + rewrite (Hcomp r1 w1 eq_refl). exact Hne.
    + unfold dry_then_real_install, bind. rewrite Hrun. exact Hne.
  - intros r1 w1 Hrun. split; [|exact (Hcomp r1 w1 Hrun)].
    rewrite Hrun in Hmark. simpl in Hmark. auto.
Qed.
End InstallReal.

Lemma install_missing_requirement_file_witness :
  let T := demo_tools demo_version_line in
  let r := demo_runner true demo_env {["requests"]} false in
  let w := demo_world ∅ in
  @install T (r, w) =
    (Raise (RunnerError "/env/a/requirements.txt does not exist"), (r, w)).
Proof.
  intros T r w.
  apply (@install_missing_requirement_file T r w); vm_compute; reflexivity.
Defined.

Lemma install_marks_only_on_success_witness :
  let T := demo_tools_freeze_fails in
  let r := demo_runner false demo_env {["requests"]} false in
  let w := demo_world (demo_fs_fresh ("requests" +:+ linesep)) in
  @install T (r, w) =
    (Raise ProcessError, (fst (snd (@install T (r, w))),
                          snd (snd (@install T (r, w))))) /\
  fst (snd (@install T (r, w))) = r.
Proof.
  intros T r w.
  assert (Hrun : @install T (r, w) =
            (Raise ProcessError, (fst (snd (@install T (r, w))),
                                  snd (snd (@install T (r, w))))))
    by (vm_compute; reflexivity).
  split; [exact Hrun|].
  exact (@install_marks_only_on_success T r w _ _ _ Hrun).
Defined.

Lemma install_writes_freeze_output_witness :
  let T := demo_tools demo_version_line in
  let r := demo_runner false demo_env {["requests"]} false in
  let w := demo_world (demo_fs_fresh ("requests" +:+ linesep)) in
  let r1 := fst (snd (@install T (r, w))) in
  let w1 := snd (snd (@install T (r, w))) in
  @install T (r, w) = (Ok tt, (r1, w1)) /\
  exists out1 f1 out2 f2,
    @run_process T (venv_python r) (pip_argv r "install") (fs w)
      = Some (out1, f1) /\
    @run_process T (venv_python r) (pip_argv r "freeze")
      (<[lock_path r := File "" (now w)]> f1) = Some (out2, f2) /\
    fs w1 !! lock_path r = Some (File out2 (now w)) /\
    read_file (lock_path r) w1 = Ok out2 /\
    (forall q, q <> lock_path r -> fs w1 !! q = f2 !! q) /\
    new_events w w1 =
      [EvExec (venv_python r) (pip_argv r "install");
       EvWrite (lock_path r) "";
       EvExec (venv_python r) (pip_argv r "freeze");
       EvWrite (lock_path r) out2].
Proof.
  intros T r w r1 w1.
  assert (Hrun : @install T (r, w) = (Ok tt, (r1, w1)))
    by (vm_compute; reflexivity).
  split; [exact Hrun|].
  exact (@install_writes_freeze_output T r w r1 w1 eq_refl eq_refl Hrun).
Defined.

Lemma install_failed_freeze_leaves_lock_file_witness :
  let T := demo_tools_freeze_fails in
  let r := demo_runner false demo_env {["requests"]} false in
  let w := demo_world (demo_fs_fresh ("requests" +:+ linesep)) in
  exists w1,
    @install T (r, w) = (Raise ProcessError, (r, w1)) /\
    fs w1 !! lock_path r = Some (File "" (now w)) /\
    generate_requirement_file (r, w1) = (Ok tt, (with_installed true r, w1)).
Proof.
  intros T r w.
  assert (H1 : dry_run r = false) by reflexivity.
  assert (H2 : installed r = false) by reflexivity.
  assert (H3 : configured r w = true) by (vm_compute; reflexivity).
  assert (H4 : fs w !! req_path r = Some (File ("requests" +:+ linesep) 1))
    by (vm_compute; reflexivity).
  assert (H5 : @run_process T (venv_python r) (pip_argv r "install") (fs w)
               = Some ("", fs w)) by reflexivity.
  assert (H6 : can_open_for_writing (lock_path r) (set_fs (fs w) w) = true)
    by (vm_compute; reflexivity).
  assert (H7 : @run_process T (venv_python r) (pip_argv r "freeze")
                 (<[lock_path r := File "" (now w)]> (fs w)) = None)
    by reflexivity.
  destruct (@install_failed_freeze_leaves_lock_file T r w "" (fs w)
              ("requests" +:+ linesep) 1 H1 H2 H3 H4 H5 H6 H7)
    as (w1 & Hrun & Hfs & Hlock & Hgen).
  assert (Hl1 : fs w1 !! lock_path r = Some (File "" (now w)))
    by (rewrite Hfs; exact Hlock).
  exists w1. split; [exact Hrun|]. split; [exact Hl1|].
  apply (Hgen (File "" (now w)) Hl1).
  - vm_compute. discriminate.
  - rewrite Hfs. vm_compute. reflexivity.
  - rewrite Hfs. vm_compute. reflexivity.
  - vm_compute. reflexivity.
  - vm_compute. reflexivity.
Defined.

Lemma demo_tools_keep_requirement_file v dry path s inst :
  @pip_keeps_requirement_file (demo_tools v) (demo_runner dry path s inst).
Proof.
  intros cmd f out f'. simpl. unfold demo_run, pip_argv.
  intros Hrun. assert (f' = f) as ->; [|reflexivity]. revert Hrun.
  destruct (decide (cmd = "install")) as [->|Hni].
  { intros [= <- <-]. reflexivity. }
  destruct (decide (cmd = "freeze")) as [->|Hnf].
  { destruct (f !! _) as [[c t|t]|]; congruence. }
  intros Hrun. exfalso.
  repeat (case_match; try discriminate).
  all: simplify_eq.
Qed.

Lemma provisioning_round_trip_witness :
  let T := demo_tools demo_version_line in
  let r := demo_runner false demo_env {["requests"]} false in
  let w := demo_world (demo_fs_fresh "") in
  let s1 := snd (generate_requirement_file (r, w)) in
  let s2 := snd (@install T s1) in
  let r' := demo_runner true demo_env {["requests"]} false in
  generate_requirement_file (r, w) = (Ok tt, s1) /\
  @install T s1 = (Ok tt, s2) /\
  installed (fst s2) = true /\
  generate_requirement_file (r', snd s2) =
    (Ok tt, (with_installed true r', snd s2)).
Proof.
  intros T r w s1 s2 r'.
  assert (H1 : dry_run r = false) by reflexivity.
  assert (H2 : installed r = false) by reflexivity.
  assert (H3 : @pip_keeps_requirement_file T r)
    by apply demo_tools_keep_requirement_file.
  assert (H3' : reads_back (_generate_requirement_content r) = true)
    by (vm_compute; reflexivity).
  assert (H4 : generate_requirement_file (r, w) = (Ok tt, (fst s1, snd s1)))
    by (vm_compute; reflexivity).
  assert (H5 : @install T (fst s1, snd s1) = (Ok tt, (fst s2, snd s2)))
    by (vm_compute; reflexivity).
  assert (H6 : env_path r' = env_path r) by reflexivity.
  assert (H7 : specs r' = specs r) by reflexivity.
  assert (H8 : configured r' (snd s2) = true) by reflexivity.
  split; [vm_compute; reflexivity|]. split; [vm_compute; reflexivity|].
  exact (@provisioning_round_trip T r w (fst s1) (snd s1) (fst s2) (snd s2) r'
           H1 H2 H3 H3' H4 H5 H6 H7 H8).
Defined.

Lemma dry_run_install_blocks_real_install_witness :
  let T := demo_tools demo_version_line in
  let r := demo_runner true demo_env {["requests"]} false in
  let w := demo_world (demo_fs_fresh ("requests" +:+ linesep)) in
  no_exec w (snd (snd (@dry_then_real_install T (r, w)))) /\
  installed (fst (snd (@dry_then_real_install T (r, w)))) = true /\
  dry_run (fst (snd (@dry_then_real_install T (r, w)))) = false.
Proof.
  intros T r w.
  split; [exact (proj1 (@dry_run_install_blocks_real_install T r w eq_refl))|].
  vm_compute. split; reflexivity.
Defined.

(** ** Edge cases of [create_env] *)

Section CreateEnvEdges.
Context `{ExternalTools}.

(** X7: [create_env] looks at the directory of the venv only: when
    [{env}/.venv] exists without its activate script, a real-mode call
    returns without launching anything and binds the runner to the
    path, and the runner still fails the configuration check. *)
Theorem create_env_keeps_broken_venv p r w spec :
  dry_run r = false ->
  p <> "" ->
  os_path_isdir p w = true ->
  os_path_exists (venv_dir p) w = true ->
  os_path_exists (activate_script p) w = false ->
  create_env p (r, w) = (Ok tt, (with_env_path (Some p) r, w)) /\
  add_spec spec (with_env_path (Some p) r, w) =
    (Raise (RunnerError "virtual env is not configured"),
     (with_env_path (Some p) r, w)).
Proof.
  intros Hd Hp Hdir Hvenv Hact. split.
  - rewrite create_env_eq. unfold os_path_isdir in Hdir. unfold after_mkdir.
    destruct (fs w !! p) as [[c t|t]|]; try discriminate.
    unfold bootstrap. rewrite Hvenv, orb_true_r. reflexivity.
  - rewrite add_spec_eq.
    assert (Hc : configured (with_env_path (Some p) r) w = false).
    { unfold configured.
      change (activate_path (with_env_path (Some p) r))
        with (activate_script p).
      change (dry_run (with_env_path (Some p) r)) with (dry_run r).
      rewrite Hd, Hact. apply andb_false_r. }
    rewrite Hc. unfold check_message. simpl.
    case_bool_decide; [contradiction | reflexivity].
Qed.

Lemma create_env_goes_on p r w :
  (os_path_exists p w = false /\ mkdir_blocked p (fs w) = false) \/
  os_path_isdir p w = true ->
  create_env p (r, w) = bootstrap p r (after_mkdir p w) /\
  os_path_isdir p (after_mkdir p w) = true /\
  os_path_exists (venv_dir p) (after_mkdir p w)
    = os_path_exists (venv_dir p) w.
Proof.
  intros [[Hp%os_path_exists_false Hb] | Hdir].
  - rewrite create_env_eq, Hp, Hb.
    destruct (after_mkdir_dirs p w Hp Hb) as (Hd & _ & Hv & _). done.
  - rewrite create_env_eq. unfold after_mkdir.
    unfold os_path_isdir in Hdir |- *.
    destruct (fs w !! p) as [[c t|t]|] eqn:Hp; try discriminate.
    rewrite Hp. done.
Qed.

(** X8: When the venv module fails, a real-mode [create_env] ends in
    [ProcessError] after the environment directory has been made, the
    runner is not bound to the path, and the world is as the failed
    process left it.  Nothing records the failure: what the next call
    does depends on the venv directory alone.  Where the failed process
    has left none, the next call launches the bootstrap again; where it
    has left one behind, the next call launches nothing, returns and
    binds the runner to the path. *)
Theorem create_env_failed_bootstrap p r w :
  dry_run r = false ->
  (os_path_exists p w = false /\ mkdir_blocked p (fs w) = false) \/
  os_path_isdir p w = true ->
  os_path_exists (venv_dir p) w = false ->
  run_process (exe_path (bs_python r))
    (default_args (bs_python r) ++ venv_argv p)
    (fs (after_mkdir p w)) = None ->
  let argv := default_args (bs_python r) ++ venv_argv p in
  let w1 := set_fs (failed_process (exe_path (bs_python r)) argv
                      (fs (after_mkdir p w)))
              (emit (EvExec (exe_path (bs_python r)) argv)
                 (after_mkdir p w)) in
  create_env p (r, w) = (Raise ProcessError, (r, w1)) /\
  os_path_isdir p (after_mkdir p w) = true /\
  (os_path_isdir p w1 = true ->
   os_path_exists (venv_dir p) w1 = false ->
   exists o w2,
     create_env p (r, w1) = (o, w2) /\
     new_events w1 (snd w2) = [EvExec (exe_path (bs_python r)) argv]) /\
  (os_path_isdir p w1 = true ->
   os_path_exists (venv_dir p) w1 = true ->
   create_env p (r, w1) = (Ok tt, (with_env_path (Some p) r, w1))).
Proof.
  intros Hd Hpath Hvenv Hrun argv w1.
  destruct (create_env_goes_on p r w Hpath) as (Heq & Hdir1 & Hv).
  split; [|split; [exact Hdir1|split]].
  - rewrite Heq. unfold bootstrap. rewrite Hd, Hv, Hvenv. simpl.
    simpl in Hrun. rewrite Hrun. reflexivity.
  - intros Hdir Hnone.
    destruct (create_env_goes_on p r w1 (or_intror Hdir)) as (Heq1 & _ & _).
    assert (Hsame : after_mkdir p w1 = w1).
    { unfold after_mkdir. unfold os_path_isdir in Hdir.
      destruct (fs w1 !! p); [reflexivity | discriminate]. }
    rewrite Heq1, Hsame. unfold bootstrap. rewrite Hd, Hnone. simpl.
    clear Hrun.
    destruct (run_process _ _ _) as [[out f']|]; eexists _, _;
      (split; [reflexivity|]); apply new_events_app; reflexivity.
  - intros Hdir Hsome.
    destruct (create_env_goes_on p r w1 (or_intror Hdir)) as (Heq1 & _ & _).
    assert (Hsame : after_mkdir p w1 = w1).
    { unfold after_mkdir. unfold os_path_isdir in Hdir.
      destruct (fs w1 !! p); [reflexivity | discriminate]. }
    rewrite Heq1, Hsame. unfold bootstrap. rewrite Hsome, orb_true_r.
    reflexivity.
Qed.
End CreateEnvEdges.

Lemma create_env_keeps_broken_venv_witness :
  let T := demo_tools demo_version_line in
  let r := demo_runner false None ∅ false in
  let w := demo_world (<["/env/a/.venv" := Dir 0]> (<["/env/a" := Dir 0]> ∅)) in
  @create_env T "/env/a" (r, w) = (Ok tt, (with_env_path (Some "/env/a") r, w)) /\
  add_spec "requests" (with_env_path (Some "/env/a") r, w) =
    (Raise (RunnerError "virtual env is not configured"),
     (with_env_path (Some "/env/a") r, w)).
Proof.
  intros T r w.
  assert (H1 : dry_run r = false) by reflexivity.
  assert (H2 : "/env/a" <> "") by discriminate.
  assert (H3 : os_path_isdir "/env/a" w = true) by (vm_compute; reflexivity).
  assert (H4 : os_path_exists (venv_dir "/env/a") w = true)
    by (vm_compute; reflexivity).
  assert (H5 : os_path_exists (activate_script "/env/a") w = false)
    by (vm_compute; reflexivity).
  exact (@create_env_keeps_broken_venv T "/env/a" r w "requests"
           H1 H2 H3 H4 H5).
Defined.

Lemma create_env_failed_bootstrap_witness :
  let T := demo_tools_venv_breaks in
  let r := demo_runner false None ∅ false in
  let w := demo_world ∅ in
  exists w1,
    @create_env T "/env/a" (r, w) = (Raise ProcessError, (r, w1)) /\
    os_path_exists (venv_dir "/env/a") w1 = true /\
    @create_env T "/env/a" (r, w1) =
      (Ok tt, (with_env_path (Some "/env/a") r, w1)) /\
    count_venv_bootstraps (new_events w w1) = 1%nat.
Proof.
  intros T r w.
  assert (H1 : dry_run r = false) by reflexivity.
  assert (H2 : (os_path_exists "/env/a" w = false /\
                mkdir_blocked "/env/a" (fs w) = false) \/
               os_path_isdir "/env/a" w = true)
    by (left; split; vm_compute; reflexivity).
  assert (H3 : os_path_exists (venv_dir "/env/a") w = false)
    by (vm_compute; reflexivity).
  assert (H4 : @run_process T (exe_path (bs_python r))
                 (default_args (bs_python r) ++ venv_argv "/env/a")
                 (fs (after_mkdir "/env/a" w)) = None) by reflexivity.
  destruct (@create_env_failed_bootstrap T "/env/a" r w H1 H2 H3 H4)
    as (Hrun & _ & _ & Hleft).
  eexists. split; [exact Hrun|].
  split; [vm_compute; reflexivity|].
  split; [apply Hleft; vm_compute; reflexivity|].
  vm_compute. reflexivity.
Defined.

(** The same failure with a venv module that touches nothing: the
    second call launches it again. *)
Example create_env_failed_bootstrap_again :
  let T := demo_tools_venv_fails in
  let r := demo_runner false None ∅ false in
  let w := demo_world ∅ in
  let s1 := snd (@create_env T "/env/a" (r, w)) in
  fst (@create_env T "/env/a" (r, w)) = Raise ProcessError /\
  count_venv_bootstraps (new_events w (snd (snd (@create_env T "/env/a" s1))))
    = 2%nat.
Proof. vm_compute. split; reflexivity. Qed.

(** ** What [generate_requirement_file] leaves alone *)

(** X9: Whatever its outcome, [generate_requirement_file] changes no entry
    of the filesystem but the requirement file - the lock file in
    particular is as it was -, launches no process, and changes nothing
    of the runner but the installed flag, which it can only set. *)
Theorem generate_requirement_file_frame r w :
  let s' := snd (generate_requirement_file (r, w)) in
  (forall q, q <> req_path r -> fs (snd s') !! q = fs w !! q) /\
  fs (snd s') !! lock_path r = fs w !! lock_path r /\
  no_exec w (snd s') /\
  (fst s' = r \/ fst s' = with_installed true r).
Proof.
  intros s'.
  assert (Hcases : s' = (r, w) \/ s' = (with_installed true r, w) \/
            s' = (r, written (req_path r) (_generate_requirement_content r) w)).
  { unfold s'. rewrite generate_requirement_file_eq.
    destruct (configured r w); [|auto].
    destruct (req_check r w); auto.
    destruct (can_open_for_writing (req_path r) w); auto. }
  assert (Hframe : forall q, q <> req_path r -> fs (snd s') !! q = fs w !! q).
  { intros q Hq. destruct Hcases as [->|[->| ->]]; try reflexivity.
    simpl. apply lookup_insert_ne. congruence. }
  split; [exact Hframe|]. split; [|split].
  - apply Hframe. intros Heq.
    destruct (env_files_distinct r) as (Hrl & _). congruence.
  - destruct Hcases as [->|[->| ->]]; simpl; try apply no_exec_refl.
    eexists. split; [reflexivity|]. repeat constructor.
  - destruct Hcases as [->|[->| ->]]; simpl; auto.
Qed.

(** ** A new runner *)

Section NewRunner.
Context `{ExternalTools}.

(** X10: [PipRunner.__init__] raises [RunnerError] exactly when neither
    [python3] nor [python] is on the search path; otherwise the runner
    bootstraps with [python3] when it is found and with [python] when
    it is not, and it starts with no environment path, an empty spec
    set and the installed flag unset, so that [add_spec],
    [generate_requirement_file] and [install] raise [RunnerError] until
    a path is configured.  The package manager builds its runner in
    real mode. *)
Theorem PipRunner_init_interpreter dry :
  (PipRunner_init dry = Raise (RunnerError "python is not found in path") <->
   which "python3" = None /\ which "python" = None) /\
  (forall r, PipRunner_init dry = Ok r ->
     (which "python3" = Some (exe_path (bs_python r)) \/
      which "python3" = None /\ which "python" = Some (exe_path (bs_python r))) /\
     default_args (bs_python r) = [] /\
     env_path r = None /\ specs r = ∅ /\ installed r = false /\
     dry_run r = dry /\
     forall w spec,
       add_spec spec (r, w) =
         (Raise (RunnerError "env_path is not configured"), (r, w)) /\
       generate_requirement_file (r, w) =
         (Raise (RunnerError "env_path is not configured"), (r, w)) /\
       install (r, w) =
         (Raise (RunnerError "env_path is not configured"), (r, w))) /\
  Pip_init = PipRunner_init false.
Proof.
  unfold Pip_init, PipRunner_init. split; [|split; [|reflexivity]].
  - destruct (which "python3") as [e|]; [|destruct (which "python") as [e|]];
      split; try discriminate; try (intros [? ?]; discriminate).
    all: intros _; try split; reflexivity.
  - intros r Hr.
    assert (Hfields : default_args (bs_python r) = [] /\
              env_path r = None /\ specs r = ∅ /\ installed r = false /\
              dry_run r = dry /\
              (which "python3" = Some (exe_path (bs_python r)) \/
               which "python3" = None /\
               which "python" = Some (exe_path (bs_python r)))).
    { destruct (which "python3") as [e|] eqn:H3;
        [|destruct (which "python") as [e|] eqn:H2]; try discriminate;
        injection Hr as <-; simpl; repeat split; auto. }
    destruct Hfields as (Hargs & Hpath & Hspecs & Hinst & Hdry & Hwhich).
    repeat split; try assumption.
    all: assert (Hc : configured r w = false)
      by (unfold configured; rewrite Hpath; reflexivity).
    all: assert (Hm : check_message r = "env_path is not configured")
      by (unfold check_message; rewrite Hpath; reflexivity).
    + rewrite add_spec_eq, Hc, Hm. reflexivity.
    + rewrite generate_not_configured, Hm by assumption. reflexivity.
    + rewrite install_not_configured, Hm by assumption. reflexivity.
Qed.
End NewRunner.

(** ** The interpreter of the version query *)

Section VersionInterpreter.
Context `{ExternalTools}.

(** X11: [get_version] makes no configuration check and has no dry-run
    branch of its own: in dry-run mode it launches the bootstrap
    interpreter with the version query, whether or not an environment
    path is set; in real mode it launches the interpreter of the venv,
    and without an environment path it ends in the [TypeError] of
    [os.path.join] before anything is launched. *)
Theorem get_version_interpreter r w :
  (dry_run r = true ->
   new_events w (snd (snd (get_version (r, w)))) =
     [EvExec (exe_path (bs_python r))
        (default_args (bs_python r) ++ version_argv)]) /\
  (dry_run r = false -> env_path r = None ->
   get_version (r, w) = (Raise TypeError, (r, w))) /\
  (dry_run r = false -> forall p, env_path r = Some p ->
   new_events w (snd (snd (get_version (r, w)))) =
     [EvExec (path_join p [_venv_name; "bin"; "python"]) version_argv]).
Proof.
  unfold version_argv. split; [|split].
  - intros Hd. unfold get_version, _get_venv_python.
    unfold bind at 1. unfold bind at 1. unfold get_runner at 1. simpl.
    rewrite Hd. unfold ret at 1. unfold bind at 1.
    unfold call, in_world. simpl.
    destruct (run_process _ _ _) as [[out f']|]; simpl.
    + destruct (re_search_version out); simpl;
        apply new_events_app; reflexivity.
    + apply new_events_app. reflexivity.
  - intros Hd Hp. unfold get_version, _get_venv_python, env_join.
    unfold bind, get_runner. simpl. rewrite Hd. simpl. rewrite Hp.
    reflexivity.
  - intros Hd p Hp. unfold get_version, _get_venv_python, env_join.
    unfold bind at 1. unfold bind at 1. unfold get_runner at 1. simpl.
    rewrite Hd. unfold bind at 1. unfold bind at 1.
    unfold get_runner at 1. simpl. rewrite Hp.
    unfold ret at 1. unfold ret at 1. unfold bind at 1.
    unfold call, in_world. simpl.
    destruct (run_process _ _ _) as [[out f']|]; simpl.
    + destruct (re_search_version out); simpl;
        apply new_events_app; reflexivity.
    + apply new_events_app. reflexivity.
Qed.
End VersionInterpreter.

(** ** Activation commands *)

(** X12: [pip_activate] binds the runner to the environment path of the
    application instance and returns the command that sources
    [{env}/.venv/bin/activate], without looking at the filesystem; with
    no environment path it ends in the [TypeError] of [os.path.join],
    the runner's path already reset.  The script it names is the one
    whose existence the configuration check demands in real mode.
    [pip_deactivate] returns the fixed command and changes nothing. *)
Theorem pip_activate_command app r w :
  (forall p, expander_env_path app = Some p ->
     pip_activate app (r, w) =
       (Ok ["source " +:+ activate_script p], (with_env_path (Some p) r, w)) /\
     (dry_run r = false ->
      _check_env_configured (with_env_path (Some p) r, w) =
        (Ok tt, (with_env_path (Some p) r, w)) ->
      os_path_exists (activate_script p) w = true)) /\
  (expander_env_path app = None ->
     pip_activate app (r, w) = (Raise TypeError, (with_env_path None r, w))) /\
  pip_deactivate (r, w) = (Ok ["deactivate"], (r, w)).
Proof.
  split; [|split; [|reflexivity]].
  - intros p Hp. split.
    + unfold pip_activate, generate_activate_command,
        _get_activate_script_path, env_join, configure_env.
      unfold bind, update_runner, get_runner, ret. simpl. rewrite Hp.
      reflexivity.
    + intros Hd. rewrite check_env_configured_eq.
      unfold configured.
      change (activate_path (with_env_path (Some p) r))
        with (activate_script p).
      change (dry_run (with_env_path (Some p) r)) with (dry_run r).
      rewrite Hd.
      destruct (path_is_set (env_path (with_env_path (Some p) r)));
        simpl; [|discriminate].
      destruct (os_path_exists (activate_script p) w);
        [reflexivity | discriminate].
  - intros Hp. unfold pip_activate, generate_activate_command,
      _get_activate_script_path, env_join, configure_env.
    unfold bind, update_runner, get_runner, raise. simpl. rewrite Hp.
    reflexivity.
Qed.

Lemma PipRunner_init_interpreter_witness :
  let T := demo_tools_venv_fails in
  exists r,
    @PipRunner_init T true = Ok r /\
    exe_path (bs_python r) = "/usr/bin/python" /\
    dry_run r = true /\ env_path r = None /\
    add_spec "requests" (r, demo_world ∅) =
      (Raise (RunnerError "env_path is not configured"), (r, demo_world ∅)).
Proof.
  intros T. eexists. split; [reflexivity|].
  destruct (proj1 (proj2 (@PipRunner_init_interpreter T true)) _ eq_refl)
    as (_ & _ & Hpath & _ & _ & Hdry & Hops).
  split; [reflexivity|]. split; [exact Hdry|]. split; [exact Hpath|].
  exact (proj1 (Hops (demo_world ∅) "requests")).
Defined.

Lemma get_version_interpreter_witness :
  let T := demo_tools demo_version_line in
  let r := demo_runner true None ∅ false in
  let w := demo_world ∅ in
  dry_run r = true /\
  fst (@get_version T (r, w)) = Ok "24.0" /\
  new_events w (snd (snd (@get_version T (r, w)))) =
    [EvExec "/usr/bin/python3" ["-m"; "pip"; "--version"]].
Proof.
  intros T r w. split; [reflexivity|]. split; [vm_compute; reflexivity|].
  exact (proj1 (@get_version_interpreter T r w) eq_refl).
Defined.

Lemma pip_activate_command_witness :
  let r := demo_runner false None ∅ false in
  let w := demo_world ∅ in
  pip_activate demo_app (r, w) =
    (Ok ["source " +:+ activate_script "/env/a"],
     (with_env_path (Some "/env/a") r, w)).
Proof.
  intros r w.
  exact (proj1 (proj1 (pip_activate_command demo_app r w) "/env/a" eq_refl)).
Defined.

(** ** The hash inventory: what is appended, and when *)

Lemma prefix_app_inv (old s : string) :
  String.prefix old s = true -> exists b, s = old +:+ b.
Proof.
  revert s. induction old as [|a old IH]; intros s.
  - intros _. exists s. reflexivity.
  - destruct s as [|b s]; simpl; [discriminate|].
    destruct (ascii_dec a b) as [->|]; [|discriminate].
    intros [b' ->]%IH. exists b'. reflexivity.
Qed.

Lemma str_remove_from_skip (old x y : string) :
  str_remove_from old (String.length x) (x +:+ y) = str_remove_from old 0 y.
Proof.
  induction x as [|a x IH].
  - reflexivity.
  - change (String a x +:+ y) with (String a (x +:+ y)). simpl. exact IH.
Qed.

Lemma str_remove_from_prefix (old rel : string) :
  old <> "" ->
  str_remove_from old 0 (old +:+ rel) = str_remove_from old 0 rel.
Proof.
  intros Hold. destruct old as [|c old]; [contradiction|].
  change (String c old +:+ rel) with (String c (old +:+ rel)).
  change (str_remove_from (String c old) 0 (String c (old +:+ rel)))
    with (if String.prefix (String c old) (String c (old +:+ rel))
          then str_remove_from (String c old)
                 (String.length (String c old) - 1) (old +:+ rel)
          else String c (str_remove_from (String c old) 0 (old +:+ rel))).
  change (String c (old +:+ rel)) with (String c old +:+ rel) at 1.
  rewrite prefix_append_l.
  replace (String.length (String c old) - 1)%nat with (String.length old)
    by (simpl; lia).
  apply str_remove_from_skip.
Qed.

Lemma str_remove_from_absent (old s : string) :
  ~ occurs old s -> str_remove_from old 0 s = s.
Proof.
  induction s as [|c s IH]; intros Hno; [reflexivity|].
  change (str_remove_from old 0 (String c s))
    with (if String.prefix old (String c s)
          then str_remove_from old (String.length old - 1) s
          else String c (str_remove_from old 0 s)).
  destruct (String.prefix old (String c s)) eqn:Hp.
  - exfalso. apply Hno. destruct (prefix_app_inv _ _ Hp) as [b Hb].
    exists "", b. exact Hb.
  - rewrite IH; [reflexivity|].
    intros (a & b & ->). apply Hno. exists (String c a), b. reflexivity.
Qed.

Section InventoryFacts.
Context `{ExternalTools} `{Hashing}.

Lemma get_version_runner r w : fst (snd (get_version (r, w))) = r.
Proof.
  unfold get_version, _get_venv_python, env_join.
  unfold bind at 1. unfold bind at 1. unfold get_runner at 1. simpl.
  destruct (dry_run r).
  - unfold ret at 1. unfold bind at 1. unfold call, in_world. simpl.
    destruct (run_process _ _ _) as [[out f']|]; simpl; [|reflexivity].
    destruct (re_search_version out); reflexivity.
  - unfold bind at 1. unfold bind at 1. unfold get_runner at 1. simpl.
    destruct (env_path r); [|reflexivity].
    unfold ret at 1. unfold ret at 1. unfold bind at 1.
    unfold call, in_world. simpl.
    destruct (run_process _ _ _) as [[out f']|]; simpl; [|reflexivity].
    destruct (re_search_version out); reflexivity.
Qed.

Lemma populate_inventory_eq app ws root inv r w :
  populate_inventory app ws root (inv, (r, w)) =
    let r0 := inventory_runner app ws r in
    match get_version (r0, w) with
    | (Raise e, s) => (Raise e, (inv, s))
    | (Ok v, s1) =>
        let inv1 :=
          {| package_manager :=
               package_manager inv ++ [package_manager_record v];
             software := software inv |} in
        match env_path (fst s1) with
        | None => (Raise (AttributeError none_replace_message), (inv1, s1))
        | Some p =>
            match inventory_hash s1 with
            | (Raise e, s2) => (Raise e, (inv1, s2))
            | (Ok d, s2) =>
                (Ok tt,
                 ({| package_manager := package_manager inv1;
                     software :=
                       software inv1 ++
                       [{| sw_name := str_remove (root +:+ "/") p;
                           sw_digest := d |}] |}, s2))
            end
        end
    end.
Proof.
  unfold populate_inventory, inventory_runner.
  unfold bind at 1. unfold runner_call at 1, set_dry_run, update_runner. simpl.
  unfold bind at 1. unfold runner_call at 1, configure_env, update_runner.
  simpl.
  unfold bind at 1. unfold runner_call at 1. simpl.
  destruct (get_version _) as [[v|e] s1]; [|reflexivity].
  unfold bind at 1. unfold append_package_manager at 1. simpl.
  unfold bind at 1. unfold runner_call at 1, get_runner. simpl.
  destruct s1 as [r1 w1]. simpl.
  unfold bind at 1.
  destruct (env_path r1) as [p|]; [|reflexivity].
  unfold ret at 1.
  unfold bind at 1. unfold runner_call at 1. simpl.
  destruct (inventory_hash (r1, w1)) as [[d|e] s2]; reflexivity.
Qed.

(** X13: [populate_inventory] only appends.  When it returns, each of the
    two lists has grown by exactly one record: the package manager
    [pip] with the version that [get_version] reported and its digest,
    and the environment with the digest of [inventory_hash].  When it
    raises, the software list is as it was, but the record of the
    package manager has already been appended if the version query had
    succeeded: only a failure of the version query leaves the inventory
    untouched. *)
Theorem populate_inventory_appends app ws root inv r w o inv' s' :
  populate_inventory app ws root (inv, (r, w)) = (o, (inv', s')) ->
  let r0 := inventory_runner app ws r in
  match o with
  | Ok _ =>
      exists v p d,
        fst (get_version (r0, w)) = Ok v /\
        expander_env_path app = Some p /\
        fst (inventory_hash (snd (get_version (r0, w)))) = Ok d /\
        package_manager inv' =
          package_manager inv ++ [package_manager_record v] /\
        software inv' =
          software inv ++
          [{| sw_name := str_remove (root +:+ "/") p; sw_digest := d |}]
  | Raise e =>
      software inv' = software inv /\
      match fst (get_version (r0, w)) with
      | Ok v =>
          package_manager inv' =
            package_manager inv ++ [package_manager_record v]
      | Raise e' => e' = e /\ inv' = inv
      end
  end.
Proof.
  rewrite populate_inventory_eq. intros Hrun r0. simpl in Hrun.
  fold r0 in Hrun.
  pose proof (get_version_runner r0 w) as Hr.
  destruct (get_version (r0, w)) as [[v|e] [r1 w1]] eqn:Hv; simpl in *.
  2:{ injection Hrun as <- <- <-. auto. }
  subst r1.
  assert (Hp : env_path r0 = expander_env_path app) by reflexivity.
  destruct (env_path r0) as [p|] eqn:Hp0.
  2:{ injection Hrun as <- <- <-. simpl. auto. }
  destruct (inventory_hash (r0, w1)) as [[d|e] s2] eqn:Hh;
    injection Hrun as <- <- <-; simpl.
  - exists v, p, d. repeat split; auto.
  - auto.
Qed.

(** X14: The name of the software record is the environment path relative
    to the workspace root: for an environment path [root/rel] in which
    the root with its separator does not occur again, a call that
    returns has appended a record named [rel]. *)
Theorem populate_inventory_relative_name app ws root rel inv r w inv' s' :
  expander_env_path app = Some (root +:+ "/" +:+ rel) ->
  ~ occurs (root +:+ "/") rel ->
  populate_inventory app ws root (inv, (r, w)) = (Ok tt, (inv', s')) ->
  exists d,
    software inv' = software inv ++ [{| sw_name := rel; sw_digest := d |}].
Proof.
  intros Hpath Hno. rewrite populate_inventory_eq. simpl.
  pose proof (get_version_runner (inventory_runner app ws r) w) as Hr.
  destruct (get_version _) as [[v|e] [r1 w1]]; [|discriminate].
  simpl in *. subst r1.
  change (env_path (inventory_runner app ws r))
    with (expander_env_path app).
  rewrite Hpath.
  destruct (inventory_hash _) as [[d|e] s2]; [|discriminate].
  intros [= <- <-]. exists d. simpl. do 3 f_equal.
  assert (Hne : root +:+ "/" <> "").
  { destruct root; discriminate. }
  unfold str_remove. rewrite bool_decide_eq_false_2 by exact Hne.
  assert (Hassoc : root +:+ "/" +:+ rel = (root +:+ "/") +:+ rel).
  { clear. induction root as [|c root IH]; [reflexivity|].
    change (String c root +:+ "/" +:+ rel)
      with (String c (root +:+ "/" +:+ rel)).
    rewrite IH. reflexivity. }
  rewrite Hassoc, str_remove_from_prefix by exact Hne.
  apply str_remove_from_absent, Hno.
Qed.
End InventoryFacts.

Lemma populate_inventory_appends_witness :
  let T := demo_tools demo_version_line in
  let app := demo_app in
  let ws := demo_workspace ∅ in
  let inv := {| package_manager := []; software := [] |} in
  let r := demo_runner false None ∅ false in
  let w := demo_world (<["/env/a" := Dir 0]> ∅) in
  let res := @populate_inventory T demo_hashing app ws "/env" (inv, (r, w)) in
  fst res = Raise (RunnerError "virtual env is not configured") /\
  software (fst (snd res)) = [] /\
  package_manager (fst (snd res)) =
    [{| pm_name := "pip"; pm_version := "24.0";
        pm_digest := "sha256:24.0" |}].
Proof.
  intros T app ws inv r w res.
  assert (Hrun : @populate_inventory T demo_hashing app ws "/env" (inv, (r, w))
                 = (Raise (RunnerError "virtual env is not configured"),
                    (fst (snd res), snd (snd res))))
    by (vm_compute; reflexivity).
  pose proof (@populate_inventory_appends T demo_hashing app ws "/env" inv r w
                _ _ _ Hrun) as [Hsw Hpm].
  split; [vm_compute; reflexivity|]. split; [exact Hsw|].
  exact Hpm.
Defined.

Lemma populate_inventory_relative_name_witness :
  let T := demo_tools demo_version_line in
  let app := demo_app in
  let ws := {| cache := ∅; ws_dry_run := true |} in
  let inv := {| package_manager := []; software := [] |} in
  let r := demo_runner false None {["requests"]} false in
  let w := demo_world ∅ in
  let res := @populate_inventory T demo_hashing app ws "/env" (inv, (r, w)) in
  exists d, software (fst (snd res)) = [{| sw_name := "a"; sw_digest := d |}].
Proof.
  intros T app ws inv r w res.
  assert (H1 : expander_env_path app = Some ("/env" +:+ "/" +:+ "a"))
    by reflexivity.
  assert (H2 : ~ occurs ("/env" +:+ "/") "a").
  { intros (a & b & Heq). apply (f_equal String.length) in Heq.
    revert Heq. clear.
    destruct a as [|c1 [|c2 a]]; vm_compute; discriminate. }
  assert (H3 : @populate_inventory T demo_hashing app ws "/env" (inv, (r, w))
               = (Ok tt, (fst (snd res), snd (snd res))))
    by (vm_compute; reflexivity).
  exact (@populate_inventory_relative_name T demo_hashing app ws "/env" "a"
           inv r w _ _ H1 H2 H3).
Defined.

Example str_remove_takes_every_occurrence :
  str_remove "/w/" "/w/software/w/x" = "softwarex".
Proof. vm_compute. reflexivity. Qed.

(** ** Phases that fail, and phases that have nothing to do *)

Lemma path_join_single_neq (p x : string) :
  x <> "" -> starts_with_slash x = false -> path_join p [x] <> p.
Proof.
  intros Hx Hs Heq.
  assert (Hp : String.prefix (path_join p [x]) p = false).
  { unfold path_join, path_join2; simpl. rewrite Hs.
    destruct (bool_decide (p = "") || ends_with_slash p);
      apply prefix_append_longer; [exact Hx | discriminate]. }
  rewrite Heq, prefix_refl in Hp. discriminate.
Qed.

Section PhaseEdges.
Context `{ExternalTools}.

(** X15: Both phases refuse an application instance without an environment
    path - [None] or the empty string - with [ApplicationError], before
    the cache is consulted: the workspace, the runner and the world are
    as they were.  And the install phase of an application that
    requires no environment registers its key and does nothing else. *)
Theorem phases_without_work ph app st :
  (path_is_set (expander_env_path app) = false ->
   run_phase ph app st =
     (Raise (ApplicationError "Ramble env_path is set to None"), st)) /\
  (forall k,
     phase_key SoftwareInstall app = Some k ->
     check_cache k (fst st) = false ->
     environment_required app = false ->
     run_phase SoftwareInstall app st =
       (Ok tt, (add_to_cache k (fst st), snd st))).
Proof.
  split.
  - intros Hp. rewrite run_phase_eq. unfold phase_key. rewrite Hp.
    reflexivity.
  - intros k Hk Hc Hreq. rewrite run_phase_eq, Hk, Hc. simpl.
    unfold install_body. rewrite Hreq. reflexivity.
Qed.

(** X16: The key of a phase is registered before its body runs and never
    taken back: whatever the first call of a phase did - returned or
    raised -, a second call in the same run returns normally and
    changes nothing.  A phase whose body failed is not tried again. *)
Theorem failed_phase_is_not_retried ph app st :
  path_is_set (expander_env_path app) = true ->
  let st1 := snd (run_phase ph app st) in
  run_phase ph app st1 = (Ok tt, st1) /\
  forall e, fst (run_phase ph app st) = Raise e ->
    exists k, phase_key ph app = Some k /\ check_cache k (fst st) = false /\
              check_cache k (fst st1) = true.
Proof.
  intros Hset st1.
  assert (Hk : phase_key ph app =
               Some (phase_label ph, default "" (expander_env_path app))).
  { unfold phase_key. rewrite Hset. reflexivity. }
  set (k := (phase_label ph, default "" (expander_env_path app))) in *.
  assert (Hin : check_cache k (fst st1) = true).
  { unfold st1. destruct (body_runs ph app st) as [k'|] eqn:Hb.
    - destruct (run_phase_registers ph app st k' Hb) as [_ ->].
      unfold body_runs in Hb. rewrite Hk in Hb.
      destruct (check_cache k (fst st)); [discriminate|].
      injection Hb as <-. unfold check_cache. apply bool_decide_eq_true.
      simpl. apply elem_of_union_r, elem_of_singleton. reflexivity.
    - rewrite (run_phase_skips ph app st Hb).
      unfold body_runs in Hb. rewrite Hk in Hb.
      destruct (check_cache k (fst st)); [reflexivity | discriminate]. }
  split.
  - rewrite run_phase_eq, Hk, Hin. reflexivity.
  - intros e He. exists k. split; [exact Hk|]. split; [|exact Hin].
    destruct (check_cache k (fst st)) eqn:Hc; [|reflexivity].
    rewrite run_phase_eq, Hk, Hc in He. discriminate.
Qed.
End PhaseEdges.

Lemma failed_phase_is_not_retried_witness :
  let T := demo_tools_venv_fails in
  let r := demo_runner false None ∅ false in
  let st := (demo_workspace ∅, (r, demo_world ∅)) in
  let st1 := snd (@run_phase T SoftwareCreateEnv demo_app st) in
  fst (@run_phase T SoftwareCreateEnv demo_app st) = Raise ProcessError /\
  @run_phase T SoftwareCreateEnv demo_app st1 = (Ok tt, st1).
Proof.
  intros T r st st1.
  assert (H1 : path_is_set (expander_env_path demo_app) = true)
    by reflexivity.
  split; [vm_compute; reflexivity|].
  exact (proj1 (@failed_phase_is_not_retried T SoftwareCreateEnv demo_app st
                  H1)).
Defined.

(** ** A dry run of the setup *)

Lemma on_runner_eq {A} (m : M rstate A) ws s :
  on_runner m (ws, s) = (fst (m s), (ws, snd (m s))).
Proof. unfold on_runner. simpl. destruct (m s). reflexivity. Qed.

Lemma add_specs_on_runner l ws r w :
  configured r w = true ->
  for_each l (fun x => on_runner (add_spec x)) (ws, (r, w)) =
    (Ok tt, (ws, (with_specs (specs r ∪ list_to_set l) r, w))).
Proof.
  revert r. induction l as [|x l IH]; intros r Hc.
  - change (for_each [] (fun x => on_runner (add_spec x)))
      with (@ret pstate unit tt).
    unfold ret. rewrite <- (with_specs_same r) at 1.
    do 4 f_equal. rewrite list_to_set_nil. symmetry. apply (right_id_L ∅ (∪)).
  - change (for_each (x :: l) (fun x => on_runner (add_spec x)))
      with (on_runner (add_spec x) >>
            for_each l (fun x => on_runner (add_spec x))).
    unfold bind. rewrite on_runner_eq, add_spec_eq, Hc. simpl.
    rewrite IH by exact Hc.
    unfold with_specs; simpl. do 4 f_equal.
    rewrite <- (assoc_L (∪)). reflexivity.
Qed.

(** A name without separator directly under a directory that lies
    below directories can be reached: the directory that holds it is
    there. *)
Lemma parent_is_dir_env_file p x w :
  starts_with_slash x = false ->
  (forall pre, ancestors_from pre x = []) ->
  os_path_isdir p w = true ->
  Forall (fun d => os_path_isdir d w = true) (ancestors p) ->
  parent_is_dir (path_join2 p x) (fs w) = true.
Proof.
  intros Hx Hnone Hdir Hanc. unfold parent_is_dir.
  rewrite (ancestors_path_join2 p x Hx Hnone).
  destruct (bool_decide (p = "") || ends_with_slash p).
  - rewrite app_nil_r. destruct (last (ancestors p)) as [d|] eqn:Hlast;
      [|reflexivity].
    assert (Hd : d ∈ ancestors p).
    { apply last_Some in Hlast as [l' ->]. apply elem_of_app. right.
      apply elem_of_cons. left. reflexivity. }
    rewrite Forall_forall in Hanc. specialize (Hanc d Hd).
    unfold os_path_isdir in Hanc.
    destruct (fs w !! d) as [[? ?|?]|]; try discriminate. reflexivity.
  - rewrite last_snoc. unfold os_path_isdir in Hdir.
    destruct (fs w !! p) as [[? ?|?]|]; try discriminate. reflexivity.
Qed.

(** Where the environment directory is available, [create_env] in
    dry-run mode goes on in a world with the directory and the
    directories above it, in which longer paths are as they were. *)
Lemma env_dir_available_after_mkdir p w :
  env_dir_available p w = true ->
  match fs w !! p with
  | Some (File _ _) => False
  | Some (Dir _) => True
  | None => mkdir_blocked p (fs w) = false
  end /\
  os_path_isdir p (after_mkdir p w) = true /\
  Forall (fun d => os_path_isdir d (after_mkdir p w) = true) (ancestors p) /\
  (forall q, (String.length p < String.length q)%nat ->
             fs (after_mkdir p w) !! q = fs w !! q) /\
  exists lm, trace (after_mkdir p w) = trace w ++ lm /\
             Forall (fun e => is_exec e = false) lm.
Proof.
  unfold env_dir_available. intros Hav.
  destruct (fs w !! p) as [[c t|t]|] eqn:Hp; [discriminate | |].
  - assert (Hsame : after_mkdir p w = w).
    { unfold after_mkdir. rewrite Hp. reflexivity. }
    rewrite Hsame. split; [exact I|]. split; [|split; [|split]].
    + unfold os_path_isdir. rewrite Hp. reflexivity.
    + apply Forall_forall. intros d Hd.
      rewrite forallb_forall in Hav. apply Hav.
      apply list_elem_of_In. exact Hd.
    + reflexivity.
    + exists []. rewrite app_nil_r. split; [reflexivity | constructor].
  - apply negb_true_iff in Hav.
    destruct (after_mkdir_dirs p w Hp Hav) as (Hd & Hanc & _ & Htr).
    split; [exact Hav|]. split; [exact Hd|]. split; [exact Hanc|]. split.
    + intros q Hq. unfold after_mkdir. rewrite Hp. simpl.
      apply make_dirs_longer. exact Hq.
    + exists [EvMkdir p]. split; [exact Htr | repeat constructor].
Qed.

Lemma path_join2_longer p x :
  starts_with_slash x = false -> x <> "" ->
  (String.length p < String.length (path_join2 p x))%nat.
Proof.
  intros Hx Hne. unfold path_join2. rewrite Hx.
  assert (0 < String.length x)%nat by (destruct x; [contradiction | simpl; lia]).
  destruct (bool_decide (p = "") || ends_with_slash p);
    rewrite !string_length_app; simpl; lia.
Qed.

Section DryRunSetup.
Context `{ExternalTools}.

Lemma create_env_phase_dry app ws r w p l :
  ws_dry_run ws = true ->
  expander_env_path app = Some p ->
  p <> "" ->
  rendered_specs app = Ok (Some l) ->
  check_cache ("pip-env", p) ws = false ->
  env_dir_available p w = true ->
  run_phase SoftwareCreateEnv app (ws, (r, w)) =
    (fst (generate_requirement_file
            (provisioned_runner p l r, after_mkdir p w)),
     (add_to_cache ("pip-env", p) ws,
      snd (generate_requirement_file
             (provisioned_runner p l r, after_mkdir p w)))).
Proof.
  intros Hdry Hpath Hp Hspecs Hcache Hav.
  assert (Hset : path_is_set (expander_env_path app) = true).
  { rewrite Hpath. simpl. rewrite bool_decide_eq_false_2 by exact Hp.
    reflexivity. }
  rewrite run_phase_eq. unfold phase_key. rewrite Hset, Hpath. simpl.
  rewrite Hcache. unfold create_env_body.
  unfold bind at 1. unfold get_workspace at 1. simpl. rewrite Hdry.
  unfold bind at 1. rewrite on_runner_eq. unfold set_dry_run, update_runner.
  simpl.
  unfold bind at 1. rewrite on_runner_eq.
  assert (Hboot : create_env p (with_dry_run true r, w) =
                  (Ok tt, (with_env_path (Some p) (with_dry_run true r),
                           after_mkdir p w))).
  { rewrite create_env_eq.
    destruct (env_dir_available_after_mkdir p w Hav) as (Hcase & _).
    unfold after_mkdir.
    destruct (fs w !! p) as [[c t|t]|] eqn:Hfp;
      [contradiction | reflexivity |].
    rewrite Hcase. reflexivity. }
  rewrite Hboot. simpl.
  unfold bind at 1. unfold of_outcome at 1. rewrite Hspecs.
  unfold bind at 1.
  rewrite add_specs_on_runner.
  - rewrite on_runner_eq. reflexivity.
  - unfold configured. simpl. rewrite bool_decide_eq_false_2 by exact Hp.
    reflexivity.
Qed.

Lemma install_phase_eq app ws r w p :
  expander_env_path app = Some p ->
  p <> "" ->
  environment_required app = true ->
  check_cache ("pip-install", p) ws = false ->
  run_phase SoftwareInstall app (ws, (r, w)) =
    (fst (install (with_env_path (Some p) (with_dry_run (ws_dry_run ws) r), w)),
     (add_to_cache ("pip-install", p) ws,
      snd (install (with_env_path (Some p) (with_dry_run (ws_dry_run ws) r),
                    w)))).
Proof.
  intros Hpath Hp Hreq Hcache.
  assert (Hset : path_is_set (expander_env_path app) = true).
  { rewrite Hpath. simpl. rewrite bool_decide_eq_false_2 by exact Hp.
    reflexivity. }
  rewrite run_phase_eq. unfold phase_key. rewrite Hset, Hpath. simpl.
  rewrite Hcache. unfold install_body. rewrite Hreq. simpl.
  unfold bind at 1. unfold get_workspace at 1. simpl.
  unfold bind at 1. rewrite on_runner_eq. unfold set_dry_run, update_runner.
  simpl.
  unfold bind at 1. rewrite on_runner_eq. unfold configure_env, update_runner.
  simpl.
  rewrite on_runner_eq. reflexivity.
Qed.

(** X17: A dry run of the setup goes through.  In a workspace in dry-run
    mode whose cache holds neither key, for an application with a
    rendered software environment and an environment path that is a
    directory below directories, or is absent and can be made (it is
    under no regular file), where the requirement path is no directory
    and a requirement file already there is text, the create-env phase
    followed by the install phase returns; no process is launched; the
    runner ends bound to the path, holding the rendered specs besides
    its own, and marked installed; both keys are registered; and the
    requirement file holds the serialization of the spec set, byte for
    byte or up to its line ends - the install phase of a dry run relies
    on the create-env phase having written it. *)
Theorem dry_run_setup_succeeds app ws r w p l :
  ws_dry_run ws = true ->
  expander_env_path app = Some p ->
  p <> "" ->
  environment_required app = true ->
  rendered_specs app = Ok (Some l) ->
  check_cache ("pip-env", p) ws = false ->
  check_cache ("pip-install", p) ws = false ->
  env_dir_available p w = true ->
  os_path_isdir (path_join p [_requirement_file_name]) w = false ->
  (forall c t, fs w !! path_join p [_requirement_file_name] = Some (File c t) ->
               utf8_valid c = true) ->
  exists ws' r' w',
    setup_pipeline app (ws, (r, w)) = (Ok tt, (ws', (r', w'))) /\
    check_cache ("pip-env", p) ws' = true /\
    check_cache ("pip-install", p) ws' = true /\
    env_path r' = Some p /\
    specs r' = specs r ∪ list_to_set l /\
    installed r' = true /\
    no_exec w w' /\
    exists c t,
      fs w' !! path_join p [_requirement_file_name] = Some (File c t) /\
      (c = _generate_requirement_content r' \/
       universal_newlines c = _generate_requirement_content r').
Proof.
  intros Hdry Hpath Hp Hreq Hspecs Hc1 Hc2 Hav Hreqdir Htext.
  set (r2 := provisioned_runner p l r).
  set (wm := after_mkdir p w).
  set (req := path_join p [_requirement_file_name]) in *.
  assert (Hreq2 : req_path r2 = req) by reflexivity.
  destruct (env_dir_available_after_mkdir p w Hav)
    as (_ & Hdm & Hancm & Hlonger & lm & Htm & Hlm).
  fold wm in Hdm, Hancm, Hlonger, Htm.
  assert (Hreqm : fs wm !! req = fs w !! req).
  { apply Hlonger. apply path_join2_longer; [reflexivity | discriminate]. }
  assert (Hc : configured r2 wm = true).
  { unfold configured. simpl. rewrite bool_decide_eq_false_2 by exact Hp.
    reflexivity. }
  assert (Hopen : can_open_for_writing (req_path r2) wm = true).
  { rewrite can_open_req_path, Hreq2. apply andb_true_iff. split.
    - unfold os_path_isdir in Hreqdir |- *. rewrite Hreqm, Hreqdir.
      reflexivity.
    - apply (parent_is_dir_env_file p _requirement_file_name wm);
        [reflexivity | intros pre; reflexivity | exact Hdm | exact Hancm]. }
  assert (Hnoraise : forall e, req_check r2 wm <> ReadRaises e).
  { intros e (x & n & Hx & _ & _ & Hbad)%req_check_read_raises.
    rewrite Hreq2, Hreqm in Hx. destruct x as [c t|t].
    - rewrite (Htext c t Hx) in Hbad. discriminate.
    - unfold os_path_isdir in Hreqdir. rewrite Hx in Hreqdir. discriminate. }
  assert (Hc2' : check_cache ("pip-install", p)
                   (add_to_cache ("pip-env", p) ws) = false).
  { unfold check_cache in *. apply bool_decide_eq_false.
    apply bool_decide_eq_false in Hc2. simpl.
    rewrite elem_of_union, elem_of_singleton. intros [Hin|Heq];
      [exact (Hc2 Hin) | discriminate]. }
  assert (Hkeys : forall ws0,
            ws0 = add_to_cache ("pip-install", p)
                    (add_to_cache ("pip-env", p) ws) ->
            check_cache ("pip-env", p) ws0 = true /\
            check_cache ("pip-install", p) ws0 = true).
  { intros ws0 ->. unfold check_cache. simpl.
    split; apply bool_decide_eq_true; rewrite !elem_of_union, !elem_of_singleton;
      auto. }
  unfold setup_pipeline. unfold bind.
  rewrite (create_env_phase_dry app ws r w p l Hdry Hpath Hp Hspecs Hc1 Hav).
  fold r2. fold wm.
  destruct (generate_requirement_file_cases r2 wm Hc)
    as [[Hup Hgen] | [(Hn & _ & _ & Hgen) | (_ & e & _ & [Hr | (_ & _ & Ho)])]];
    [| |exfalso; exact (Hnoraise e Hr) | congruence]; rewrite Hgen;
    cbn [fst snd].
  - (* the requirement file is up to date *)
    rewrite (install_phase_eq app _ _ wm p Hpath Hp Hreq Hc2').
    change (ws_dry_run (add_to_cache ("pip-env", p) ws)) with (ws_dry_run ws).
    rewrite Hdry.
    assert (Hsame : with_env_path (Some p)
                      (with_dry_run true (with_installed true r2))
                    = with_installed true r2) by reflexivity.
    rewrite Hsame, install_installed by reflexivity.
    assert (Hci : configured (with_installed true r2) wm = true) by exact Hc.
    rewrite Hci. simpl.
    eexists _, _, _. split; [reflexivity|].
    destruct (Hkeys _ eq_refl) as [Hk1 Hk2].
    split; [exact Hk1|]. split; [exact Hk2|].
    split; [reflexivity|]. split; [reflexivity|]. split; [reflexivity|].
    split; [exists lm; split; assumption|].
    destruct Hup as (c & t & n & Hfile & _ & _ & _ & Hcont).
    exists c, t. rewrite Hreq2 in Hfile. split; [exact Hfile|].
    right. exact Hcont.
  - (* the requirement file is written *)
    rewrite (install_phase_eq app _ _ _ p Hpath Hp Hreq Hc2').
    change (ws_dry_run (add_to_cache ("pip-env", p) ws)) with (ws_dry_run ws).
    rewrite Hdry.
    assert (Hsame : with_env_path (Some p) (with_dry_run true r2) = r2)
      by reflexivity.
    rewrite Hsame.
    set (ww := written (req_path r2) (_generate_requirement_content r2) wm).
    assert (Hcw : configured r2 ww = true).
    { unfold configured. simpl. rewrite bool_decide_eq_false_2 by exact Hp.
      reflexivity. }
    assert (Hreadw : fs ww !! req =
                     Some (File (_generate_requirement_content r2) (now wm))).
    { unfold ww, written. simpl. rewrite Hreq2, lookup_insert_eq.
      reflexivity. }
    assert (Htw : trace ww =
                  trace w ++ lm ++
                  [EvWrite (req_path r2) (_generate_requirement_content r2)]).
    { unfold ww, written. simpl. rewrite Htm, <- app_assoc. reflexivity. }
    assert (Hexw : os_path_exists (req_path r2) ww = true).
    { unfold os_path_exists, ww, written. simpl.
      apply bool_decide_eq_true. rewrite lookup_insert_eq. eauto. }
    clearbody ww.
    destruct (installed r2) eqn:Hi.
    + rewrite install_installed by exact Hi. rewrite Hcw. cbn [fst snd].
      eexists _, _, _. split; [reflexivity|].
      destruct (Hkeys _ eq_refl) as [Hk1 Hk2].
      split; [exact Hk1|]. split; [exact Hk2|].
      split; [reflexivity|]. split; [reflexivity|]. split; [exact Hi|].
      split; [|eexists _, _; split; [exact Hreadw | left; reflexivity]].
      eexists. split; [exact Htw|].
      apply Forall_app. split; [exact Hlm | repeat constructor].
    + rewrite install_dry_run by (reflexivity || exact Hi). rewrite Hcw, Hexw.
      cbn [fst snd].
      eexists _, _, _. split; [reflexivity|].
      destruct (Hkeys _ eq_refl) as [Hk1 Hk2].
      split; [exact Hk1|]. split; [exact Hk2|].
      split; [reflexivity|]. split; [reflexivity|]. split; [reflexivity|].
      split.
      * eexists. split; [cbn [trace]; rewrite Htw, <- !app_assoc; reflexivity|].
        apply Forall_app. split; [exact Hlm | repeat constructor].
      * eexists _, _. cbn [fs]. split; [exact Hreadw | left; reflexivity].
Qed.
End DryRunSetup.

Lemma dry_run_setup_succeeds_witness :
  let T := demo_tools demo_version_line in
  let r := demo_runner false None ∅ false in
  let st := (demo_dry_workspace ∅, (r, demo_world ∅)) in
  exists ws' r' w',
    @setup_pipeline T demo_app st = (Ok tt, (ws', (r', w'))) /\
    installed r' = true /\
    no_exec (demo_world ∅) w' /\
    exists c t,
      fs w' !! "/env/a/requirements.txt" = Some (File c t) /\
      (c = _generate_requirement_content r' \/
       universal_newlines c = _generate_requirement_content r').
Proof.
  intros T r st.
  assert (H1 : ws_dry_run (demo_dry_workspace ∅) = true) by reflexivity.
  assert (H2 : expander_env_path demo_app = Some "/env/a") by reflexivity.
  assert (H3 : "/env/a" <> "") by discriminate.
  assert (H4 : environment_required demo_app = true) by reflexivity.
  assert (H5 : rendered_specs demo_app = Ok (Some ["requests"]))
    by reflexivity.
  assert (H6 : check_cache ("pip-env", "/env/a") (demo_dry_workspace ∅) = false)
    by (vm_compute; reflexivity).
  assert (H7 : check_cache ("pip-install", "/env/a") (demo_dry_workspace ∅)
               = false) by (vm_compute; reflexivity).
  assert (H8 : env_dir_available "/env/a" (demo_world ∅) = true)
    by (vm_compute; reflexivity).
  assert (H9 : os_path_isdir (path_join "/env/a" [_requirement_file_name])
                 (demo_world ∅) = false) by (vm_compute; reflexivity).
  assert (H10 : forall c t,
            fs (demo_world ∅) !! path_join "/env/a" [_requirement_file_name]
              = Some (File c t) -> utf8_valid c = true).
  { intros c t Hf. vm_compute in Hf. discriminate. }
  destruct (@dry_run_setup_succeeds T demo_app (demo_dry_workspace ∅) r
              (demo_world ∅) "/env/a" ["requests"]
              H1 H2 H3 H4 H5 H6 H7 H8 H9 H10)
    as (ws' & r' & w' & Hrun & _ & _ & _ & _ & Hinst & Hne & Hfile).
  exists ws', r', w'. split; [exact Hrun|]. split; [exact Hinst|].
  split; [exact Hne|]. exact Hfile.
Defined.

Lemma phases_without_work_witness :
  let T := demo_tools demo_version_line in
  let app := {| expander_env_path := Some "";
                environment_required := true;
                rendered_specs := Ok None |} in
  let st := (demo_workspace ∅, (demo_runner false None ∅ false, demo_world ∅)) in
  @run_phase T SoftwareInstall app st =
    (Raise (ApplicationError "Ramble env_path is set to None"), st).
Proof.
  intros T app st.
  exact (proj1 (@phases_without_work T SoftwareInstall app st) eq_refl).
Defined.

(** ** The serialization tells spec sets apart *)








Example requirement_content_of_empty_spec :
  _generate_requirement_content (demo_runner true demo_env {[""]} false) =
  _generate_requirement_content (demo_runner true demo_env ∅ false).
Proof. vm_compute. reflexivity. Qed.

Example requirement_content_of_two_line_spec :
  _generate_requirement_content
    (demo_runner true demo_env {["a" +:+ linesep +:+ "b"]} false) =
  _generate_requirement_content
    (demo_runner true demo_env {["a"; "b"]} false).
Proof. vm_compute. reflexivity. Qed.

(** ** What the version pattern finds *)

Lemma strip_prefix_some (p s rest : string) :
  strip_prefix p s = Some rest -> s = p +:+ rest.
Proof.
  revert s. induction p as [|a p IH]; intros s.
  - simpl. intros [= ->]. reflexivity.
  - destruct s as [|b s]; simpl; [discriminate|].
    case_bool_decide as Hab; [|discriminate]. subst b.
    intros ->%IH. reflexivity.
Qed.

Lemma strip_prefix_app (p rest : string) :
  strip_prefix p (p +:+ rest) = Some rest.
Proof.
  induction p as [|a p IH]; [reflexivity|].
  change (String a p +:+ rest) with (String a (p +:+ rest)). simpl.
  rewrite bool_decide_eq_true_2 by reflexivity. exact IH.
Qed.

Lemma span_version_spec (s v tl : string) :
  span_version s = (v, tl) ->
  s = v +:+ tl /\ all_version_chars v = true.
Proof.
  revert v tl. induction s as [|c s IH]; intros v tl; simpl.
  - intros [= <- <-]. split; reflexivity.
  - destruct (is_version_char c) eqn:Hc.
    + destruct (span_version s) as [v' tl'].
      intros [= <- <-]. destruct (IH v' tl' eq_refl) as [-> Hv].
      split; [reflexivity|]. simpl. rewrite Hc. exact Hv.
    + intros [= <- <-]. split; reflexivity.
Qed.

Lemma span_version_app (v tl : string) :
  all_version_chars v = true ->
  match tl with
  | String c _ => is_version_char c = false
  | EmptyString => True
  end ->
  span_version (v +:+ tl) = (v, tl).
Proof.
  intros Hv Htl. induction v as [|c v IH].
  - change ("" +:+ tl) with tl. destruct tl as [|c tl]; [reflexivity|].
    simpl. rewrite Htl. reflexivity.
  - simpl in Hv. apply andb_true_iff in Hv as [Hc Hv].
    change (String c v +:+ tl) with (String c (v +:+ tl)). simpl.
    rewrite Hc, (IH Hv). reflexivity.
Qed.

Lemma match_version_here_some (s v : string) :
  match_version_here s = Some v ->
  v <> "" /\ all_version_chars v = true /\
  exists b, s = "pip " +:+ v +:+ " from" +:+ b.
Proof.
  unfold match_version_here.
  destruct (strip_prefix "pip " s) as [rest|] eqn:Hp; [|discriminate].
  apply strip_prefix_some in Hp. subst s.
  destruct (span_version rest) as [v' tl] eqn:Hs.
  apply span_version_spec in Hs as [-> Hv].
  case_bool_decide as Hne; [discriminate|].
  destruct (strip_prefix " from" tl) as [b|] eqn:Hf; [|discriminate].
  apply strip_prefix_some in Hf. subst tl.
  intros [= <-]. split; [exact Hne|]. split; [exact Hv|].
  exists b. reflexivity.
Qed.

Lemma match_version_here_app (v b : string) :
  v <> "" -> all_version_chars v = true ->
  match_version_here ("pip " +:+ v +:+ " from" +:+ b) = Some v.
Proof.
  intros Hne Hv. unfold match_version_here.
  rewrite strip_prefix_app.
  rewrite (span_version_app v (" from" +:+ b) Hv) by reflexivity.
  rewrite bool_decide_eq_false_2 by exact Hne.
  rewrite strip_prefix_app. reflexivity.
Qed.

Lemma re_search_version_cons (c : ascii) (s : string) :
  re_search_version (String c s) =
    match match_version_here (String c s) with
    | Some v => Some v
    | None => re_search_version s
    end.
Proof. reflexivity. Qed.

(** X19: On output in ASCII, where [\d] stands for the digits [0-9], the
    search of [get_version] finds a version exactly when the output
    holds [pip v from] for some non-empty string [v] of digits and
    dots, and what it returns is such a string. *)
Theorem re_search_version_finds_pattern out :
  ascii_only out = true ->
  (forall v, re_search_version out = Some v ->
     v <> "" /\ all_version_chars v = true /\ holds_version out v) /\
  ((exists v, v <> "" /\ all_version_chars v = true /\ holds_version out v) <->
   exists v, re_search_version out = Some v).
Proof.
  intros _.
  assert (Hsound : forall s v, re_search_version s = Some v ->
            v <> "" /\ all_version_chars v = true /\ holds_version s v).
  { induction s as [|c s IH]; intros v.
    - simpl. destruct (match_version_here "") eqn:Hm; [|discriminate].
      vm_compute in Hm. discriminate.
    - rewrite re_search_version_cons.
      destruct (match_version_here (String c s)) as [v'|] eqn:Hm.
      + intros [= <-].
        destruct (match_version_here_some _ _ Hm) as (Hne & Hv & b & Hb).
        split; [exact Hne|]. split; [exact Hv|]. exists "", b. exact Hb.
      + intros (Hne & Hv & a & b & ->)%IH.
        split; [exact Hne|]. split; [exact Hv|].
        exists (String c a), b. reflexivity. }
  split; [exact (Hsound out)|]. split.
  - intros (v & Hne & Hv & a & b & ->).
    induction a as [|c a IH].
    + exists v. change ("" +:+ "pip " +:+ v +:+ " from" +:+ b)
        with ("pip " +:+ v +:+ " from" +:+ b).
      change ("pip " +:+ v +:+ " from" +:+ b)
        with (String "p" ("ip " +:+ v +:+ " from" +:+ b)).
      rewrite re_search_version_cons.
      change (String "p" ("ip " +:+ v +:+ " from" +:+ b))
        with ("pip " +:+ v +:+ " from" +:+ b).
      rewrite (match_version_here_app v b Hne Hv). reflexivity.
    + destruct IH as [v' Hv'].
      change (String c a +:+ "pip " +:+ v +:+ " from" +:+ b)
        with (String c (a +:+ "pip " +:+ v +:+ " from" +:+ b)).
      rewrite re_search_version_cons.
      destruct (match_version_here _) as [v''|]; eauto.
  - intros [v Hv]. exists v. exact (Hsound out v Hv).
Qed.

Lemma re_search_version_finds_pattern_witness :
  re_search_version demo_version_line = Some "24.0" /\
  holds_version demo_version_line "24.0".
Proof.
  assert (H1 : ascii_only demo_version_line = true)
    by (vm_compute; reflexivity).
  split; [vm_compute; reflexivity|].
  exact (proj2 (proj2 (proj1 (re_search_version_finds_pattern
                                demo_version_line H1)
                         "24.0" eq_refl))).
Defined.

(** ** The inventory digest after an install *)

Section InventoryAfterInstall.
Context `{ExternalTools} `{Hashing}.

(** X20: After a real-mode [install] that returned, [inventory_hash] on the
    runner it leaves - when that runner passes the configuration
    check - is the digest of what the freeze process printed. *)
Theorem inventory_hash_after_install r w r1 w1 :
  dry_run r = false ->
  installed r = false ->
  install (r, w) = (Ok tt, (r1, w1)) ->
  configured r1 w1 = true ->
  exists out1 f1 out2 f2,
    run_process (venv_python r) (pip_argv r "install") (fs w)
      = Some (out1, f1) /\
    run_process (venv_python r) (pip_argv r "freeze")
      (<[lock_path r := File "" (now w)]> f1) = Some (out2, f2) /\
    inventory_hash (r1, w1) = (Ok (digest out2), (r1, w1)).
Proof.
  intros Hd Hi Hrun Hc.
  destruct (install_real_ok r w r1 w1 Hd Hi Hrun)
    as (out1 & f1 & out2 & f2 & Hr1 & Hr2 & -> & ->).
  exists out1, f1, out2, f2. split; [exact Hr1|]. split; [exact Hr2|].
  rewrite inventory_hash_eq, Hc.
  change (dry_run (with_installed true r)) with (dry_run r). rewrite Hd.
  change (lock_path (with_installed true r)) with (lock_path r).
  unfold after_freeze, written. cbn [fs].
  rewrite lookup_insert_eq. reflexivity.
Qed.
End InventoryAfterInstall.

Lemma inventory_hash_after_install_witness :
  let T := demo_tools demo_version_line in
  let r := demo_runner false demo_env {["requests"]} false in
  let w := demo_world (demo_fs_fresh ("requests" +:+ linesep)) in
  let s1 := snd (@install T (r, w)) in
  @install T (r, w) = (Ok tt, s1) /\
  exists out1 f1 out2 f2,
    @run_process T (venv_python r) (pip_argv r "install") (fs w)
      = Some (out1, f1) /\
    @run_process T (venv_python r) (pip_argv r "freeze")
      (<[lock_path r := File "" (now w)]> f1) = Some (out2, f2) /\
    @inventory_hash demo_hashing (fst s1, snd s1) =
      (Ok (@digest demo_hashing out2), (fst s1, snd s1)).
Proof.
  intros T r w s1.
  assert (H1 : dry_run r = false) by reflexivity.
  assert (H2 : installed r = false) by reflexivity.
  assert (H3 : @install T (r, w) = (Ok tt, (fst s1, snd s1)))
    by (vm_compute; reflexivity).
  assert (H4 : configured (fst s1) (snd s1) = true)
    by (vm_compute; reflexivity).
  split; [vm_compute; reflexivity|].
  exact (@inventory_hash_after_install T demo_hashing r w (fst s1) (snd s1)
           H1 H2 H3 H4).
Defined.

Example inventory_hash_after_demo_install :
  let T := demo_tools demo_version_line in
  let r := demo_runner false demo_env {["requests"]} false in
  let w := demo_world (demo_fs_fresh ("requests" +:+ linesep)) in
  fst (@inventory_hash demo_hashing (snd (@install T (r, w)))) =
    Ok ("sha256:" +:+ "requests" +:+ linesep).
Proof. vm_compute. reflexivity. Qed.

(** ** The create-env phase without specs *)

Section CreateEnvPhase.
Context `{ExternalTools}.

Lemma create_env_ok_runner p r w r1 w1 :
  create_env p (r, w) = (Ok tt, (r1, w1)) -> r1 = with_env_path (Some p) r.
Proof.
  rewrite create_env_eq.
  destruct (fs w !! p) as [[c t|t]|]; [discriminate | |].
  2: destruct (mkdir_blocked p (fs w)); [discriminate|].
  all: unfold bootstrap.
  all: destruct (dry_run r || os_path_exists (venv_dir p) _);
    [intros [= <- <-]; reflexivity|].
  all: simpl; destruct (run_process _ _ _) as [[out f']|]; [|discriminate].
  all: intros [= <- <-]; reflexivity.
Qed.

(** X21: Once [create_env] has returned, the create-env phase depends on
    what is rendered for the application.  With no software
    environment it stops there: no spec is added and no requirement
    file is written.  An error of the rendering leaves the phase at the
    same point, the environment created and the key registered.  An
    environment with an empty list of specs still has its requirement
    file generated; for a runner without specs its content is one line
    feed. *)
Theorem create_env_phase_without_specs app ws r w p r1 w1 :
  expander_env_path app = Some p ->
  p <> "" ->
  check_cache ("pip-env", p) ws = false ->
  create_env p (with_dry_run (ws_dry_run ws) r, w) = (Ok tt, (r1, w1)) ->
  let ws1 := add_to_cache ("pip-env", p) ws in
  (rendered_specs app = Ok None ->
   run_phase SoftwareCreateEnv app (ws, (r, w)) = (Ok tt, (ws1, (r1, w1)))) /\
  (forall e, rendered_specs app = Raise e ->
   run_phase SoftwareCreateEnv app (ws, (r, w)) = (Raise e, (ws1, (r1, w1)))) /\
  (rendered_specs app = Ok (Some []) ->
   run_phase SoftwareCreateEnv app (ws, (r, w)) =
     (fst (generate_requirement_file (r1, w1)),
      (ws1, snd (generate_requirement_file (r1, w1)))) /\
   (specs r = ∅ -> _generate_requirement_content r1 = linesep)).
Proof.
  intros Hpath Hp Hcache Hcreate ws1.
  assert (Hset : path_is_set (expander_env_path app) = true).
  { rewrite Hpath. simpl. rewrite bool_decide_eq_false_2 by exact Hp.
    reflexivity. }
  assert (Hphase : run_phase SoftwareCreateEnv app (ws, (r, w)) =
            match rendered_specs app with
            | Ok (Some l) =>
                (for_each l (fun x => on_runner (add_spec x)) >>
                 on_runner generate_requirement_file) (ws1, (r1, w1))
            | Ok None => (Ok tt, (ws1, (r1, w1)))
            | Raise e => (Raise e, (ws1, (r1, w1)))
            end).
  { rewrite run_phase_eq. unfold phase_key. rewrite Hset, Hpath. simpl.
    rewrite Hcache. unfold create_env_body.
    unfold bind at 1. unfold get_workspace at 1. simpl.
    unfold bind at 1. rewrite on_runner_eq. unfold set_dry_run, update_runner.
    simpl.
    unfold bind at 1. rewrite on_runner_eq, Hcreate. cbn [fst snd].
    unfold bind at 1. unfold of_outcome at 1.
    destruct (rendered_specs app) as [[l|]|e]; reflexivity. }
  rewrite Hphase. split; [|split].
  - intros ->. reflexivity.
  - intros e ->. reflexivity.
  - intros ->. split.
    + unfold bind. simpl. unfold ret. rewrite on_runner_eq. reflexivity.
    + intros Hs. rewrite (create_env_ok_runner _ _ _ _ _ Hcreate).
      unfold _generate_requirement_content. simpl. rewrite Hs.
      vm_compute. reflexivity.
Qed.
End CreateEnvPhase.

Lemma create_env_phase_without_specs_witness :
  let T := demo_tools demo_version_line in
  let r := demo_runner false None ∅ false in
  let w := demo_world ∅ in
  let ws := demo_workspace ∅ in
  let s1 := snd (@create_env T "/env/a" (r, w)) in
  @run_phase T SoftwareCreateEnv demo_app_no_software (ws, (r, w)) =
    (Ok tt, (add_to_cache ("pip-env", "/env/a") ws, (fst s1, snd s1))) /\
  os_path_exists "/env/a/requirements.txt" (snd s1) = false.
Proof.
  intros T r w ws s1.
  assert (H1 : expander_env_path demo_app_no_software = Some "/env/a")
    by reflexivity.
  assert (H2 : "/env/a" <> "") by discriminate.
  assert (H3 : check_cache ("pip-env", "/env/a") ws = false)
    by (vm_compute; reflexivity).
  assert (H4 : @create_env T "/env/a" (with_dry_run (ws_dry_run ws) r, w) =
               (Ok tt, (fst s1, snd s1))) by (vm_compute; reflexivity).
  split; [|vm_compute; reflexivity].
  exact (proj1 (@create_env_phase_without_specs T demo_app_no_software ws r w
                  "/env/a" (fst s1) (snd s1) H1 H2 H3 H4) eq_refl).
Defined.

(** ** What no sequence of calls does to a runner *)

Lemma runner_grows_refl r : runner_grows r r.
Proof. repeat split; auto. Qed.

Lemma runner_grows_trans r1 r2 r3 :
  runner_grows r1 r2 -> runner_grows r2 r3 -> runner_grows r1 r3.
Proof.
  intros (Hb1 & Hc1 & Hs1 & Hi1) (Hb2 & Hc2 & Hs2 & Hi2).
  repeat split; try congruence; [set_solver | auto].
Qed.

Lemma no_exec_trans w1 w2 w3 : no_exec w1 w2 -> no_exec w2 w3 -> no_exec w1 w3.
Proof.
  intros (l1 & Ht1 & Hf1) (l2 & Ht2 & Hf2). exists (l1 ++ l2). split.
  - rewrite Ht2, Ht1, app_assoc. reflexivity.
  - apply Forall_app. split; assumption.
Qed.

Lemma generate_requirement_file_states r w :
  snd (generate_requirement_file (r, w)) = (r, w) \/
  snd (generate_requirement_file (r, w)) = (with_installed true r, w) \/
  snd (generate_requirement_file (r, w)) =
    (r, written (req_path r) (_generate_requirement_content r) w).
Proof.
  rewrite generate_requirement_file_eq.
  destruct (configured r w); [|auto].
  destruct (req_check r w); auto.
  destruct (can_open_for_writing (req_path r) w); auto.
Qed.

Ltac runner_grows_tac :=
  first [apply runner_grows_refl
        | unfold runner_grows; simpl; repeat split; auto; set_solver].

Section RunnerOpsFacts.
Context `{ExternalTools} `{Hashing}.

Lemma create_env_states p r w :
  (fst (snd (create_env p (r, w))) = r \/
   fst (snd (create_env p (r, w))) = with_env_path (Some p) r) /\
  (dry_run r = true -> no_exec w (snd (snd (create_env p (r, w))))).
Proof.
  rewrite create_env_eq. unfold after_mkdir, bootstrap.
  destruct (fs w !! p) as [[c t|t]|]; simpl.
  - split; [auto | intros _; apply no_exec_refl].
  - destruct (dry_run r); simpl.
    + split; [auto | intros _; apply no_exec_refl].
    + split; [|discriminate].
      destruct (os_path_exists (venv_dir p) w); simpl; [auto|].
      destruct (run_process _ _ _) as [[out f']|]; simpl; auto.
  - destruct (mkdir_blocked p (fs w)); simpl.
    { split; [auto | intros _; apply no_exec_refl]. }
    destruct (dry_run r); simpl.
    + split; [auto|]. intros _. exists [EvMkdir p].
      split; [reflexivity | repeat constructor].
    + split; [|discriminate].
      destruct (os_path_exists (venv_dir p) _); simpl; [auto|].
      destruct (run_process _ _ _) as [[out f']|]; simpl; auto.
Qed.

Lemma install_no_exec_dry r w :
  dry_run r = true -> no_exec w (snd (snd (install (r, w)))).
Proof.
  intros Hd. destruct (installed r) eqn:Hi.
  - rewrite install_installed by assumption.
    destruct (configured r w); apply no_exec_refl.
  - rewrite install_dry_run by assumption.
    destruct (configured r w); [destruct (os_path_exists (req_path r) w)|];
      simpl; try apply no_exec_refl.
    eexists. split; [reflexivity|]. repeat constructor.
Qed.

Lemma run_op_step o r w :
  let s' := snd (run_op o (r, w)) in
  runner_grows r (fst s') /\
  (stays_dry o = true -> dry_run r = true ->
   dry_run (fst s') = true /\ no_exec w (snd s')).
Proof.
  intros s'. unfold s'. clear s'.
  destruct o as [path|d|path|spec| | | |]; cbn [run_op];
    match goal with
    | |- context [snd (?m (r, w))] => set (s' := snd (m (r, w)))
    end.
  - split; [runner_grows_tac|]. intros _ Hd.
    split; [exact Hd | apply no_exec_refl].
  - split; [runner_grows_tac|]. intros Hs Hd.
    destruct d; [|discriminate]. split; [reflexivity | apply no_exec_refl].
  - destruct (create_env_states path r w) as [Hr Hne]. fold s' in Hr, Hne.
    split.
    + destruct Hr as [-> | ->]; runner_grows_tac.
    + intros _ Hd. split; [|exact (Hne Hd)].
      destruct Hr as [-> | ->]; exact Hd.
  - unfold s'. rewrite add_spec_eq.
    destruct (configured r w); cbn [fst snd].
    + split; [runner_grows_tac|].
      intros _ Hd. split; [exact Hd | apply no_exec_refl].
    + split; [apply runner_grows_refl|]. intros _ Hd.
      split; [exact Hd | apply no_exec_refl].
  - destruct (generate_requirement_file_states r w) as [Hs | [Hs | Hs]];
      fold s' in Hs; rewrite Hs; cbn [fst snd].
    + split; [apply runner_grows_refl|]. intros _ Hd.
      split; [exact Hd | apply no_exec_refl].
    + split; [runner_grows_tac|]. intros _ Hd.
      split; [exact Hd | apply no_exec_refl].
    + split; [apply runner_grows_refl|]. intros _ Hd.
      split; [exact Hd|].
      eexists. split; [reflexivity|]. repeat constructor.
  - pose proof (install_runner r w) as Hr. fold s' in Hr.
    assert (Hcases : fst s' = r \/ fst s' = with_installed true r).
    { rewrite Hr. destruct (fst (install (r, w))); auto. }
    split.
    + destruct Hcases as [-> | ->]; runner_grows_tac.
    + intros _ Hd. split; [|exact (install_no_exec_dry r w Hd)].
      destruct Hcases as [-> | ->]; exact Hd.
  - assert (Hr : fst s' = r).
    { unfold s', bind. pose proof (get_version_runner r w) as Hv.
      destruct (get_version (r, w)) as [[v|e] [r1 w1]]; exact Hv. }
    rewrite Hr. split; [apply runner_grows_refl | discriminate].
  - assert (Hs : s' = (r, w)).
    { unfold s', bind. rewrite inventory_hash_eq.
      destruct (configured r w); [|reflexivity].
      destruct (dry_run r); [reflexivity|].
      destruct (fs w !! lock_path r) as [[c t|t]|]; reflexivity. }
    rewrite Hs. split; [apply runner_grows_refl|]. intros _ Hd.
    split; [exact Hd | apply no_exec_refl].
Qed.

(** X22: No method of the runner ever takes a spec out of the spec set
    or clears the installed flag, and none touches the bootstrap
    interpreter or [configs]: after any sequence of calls on one
    runner, whatever raised in between, the spec set holds all the
    specs it held, and a runner that was marked installed still is. *)
Theorem runner_attributes_only_grow ops r w :
  let r' := fst (run_ops ops (r, w)) in
  specs r ⊆ specs r' /\
  (installed r = true -> installed r' = true) /\
  bs_python r' = bs_python r /\
  configs r' = configs r.
Proof.
  assert (Hgrow : runner_grows r (fst (run_ops ops (r, w)))).
  { revert r w. induction ops as [|o ops IH]; intros r w.
    - apply runner_grows_refl.
    - cbn [run_ops].
      destruct (run_op_step o r w) as [Hstep _].
      destruct (snd (run_op o (r, w))) as [r1 w1].
      exact (runner_grows_trans _ _ _ Hstep (IH r1 w1)). }
  destruct Hgrow as (Hb & Hc & Hs & Hi). repeat split; assumption.
Qed.

(** X23: A runner kept in dry-run mode launches no process, the version
    query apart: over any sequence of calls that holds neither
    [set_dry_run(False)] nor [get_version], a runner that starts in
    dry-run mode ends in it, and the trace gains no process launch. *)
Theorem dry_run_sequence_launches_nothing ops r w :
  dry_run r = true ->
  forallb stays_dry ops = true ->
  dry_run (fst (run_ops ops (r, w))) = true /\
  no_exec w (snd (run_ops ops (r, w))).
Proof.
  revert r w. induction ops as [|o ops IH]; intros r w Hd Hops.
  - split; [exact Hd | apply no_exec_refl].
  - cbn [run_ops forallb] in *. apply andb_true_iff in Hops as [Ho Hops].
    destruct (run_op_step o r w) as [_ Hstep].
    destruct (Hstep Ho Hd) as [Hd1 Hne1].
    destruct (snd (run_op o (r, w))) as [r1 w1]. cbn [fst snd] in *.
    destruct (IH r1 w1 Hd1 Hops) as [Hd2 Hne2].
    split; [exact Hd2 | exact (no_exec_trans _ _ _ Hne1 Hne2)].
Qed.
End RunnerOpsFacts.

Lemma runner_attributes_only_grow_witness :
  let T := demo_tools demo_version_line in
  let r := demo_runner false demo_env {["requests"]} true in
  let w := demo_world (demo_fs_fresh ("requests" +:+ linesep)) in
  let ops := [OpAddSpec "numpy==1.2"; OpGenerateRequirementFile; OpInstall;
              OpSetDryRun true; OpCreateEnv "/env/b"; OpInventoryHash] in
  let r' := fst (@run_ops T demo_hashing ops (r, w)) in
  installed r' = true /\ "requests" ∈ specs r' /\ env_path r' = Some "/env/b".
Proof.
  intros T r w ops r'.
  destruct (@runner_attributes_only_grow T demo_hashing ops r w)
    as (Hs & Hi & _ & _).
  split; [exact (Hi eq_refl)|]. split; [|vm_compute; reflexivity].
  apply Hs. simpl. apply elem_of_singleton. reflexivity.
Defined.

Lemma dry_run_sequence_launches_nothing_witness :
  let T := demo_tools demo_version_line in
  let r := demo_runner true None ∅ false in
  let w := demo_world ∅ in
  let ops := [OpCreateEnv "/env/a"; OpAddSpec "requests";
              OpGenerateRequirementFile; OpInstall; OpInventoryHash;
              OpInstall] in
  dry_run (fst (@run_ops T demo_hashing ops (r, w))) = true /\
  no_exec w (snd (@run_ops T demo_hashing ops (r, w))) /\
  installed (fst (@run_ops T demo_hashing ops (r, w))) = true.
Proof.
  intros T r w ops.
  assert (H1 : dry_run r = true) by reflexivity.
  assert (H2 : forallb stays_dry ops = true) by reflexivity.
  destruct (@dry_run_sequence_launches_nothing T demo_hashing ops r w H1 H2)
    as [Hd Hne].
  split; [exact Hd|]. split; [exact Hne|]. vm_compute. reflexivity.
Defined.
